(** * UG-HR-Solutions: payroll accrual rules, state reducer and synchronisation

    A shallow embedding of
    - [components/SalaryCalculator.tsx] ([reportData]),
    - [context/DataContext.tsx] ([convertUndefinedToNull], [processState],
      [getInitialState], [dataReducer], [wrappedDispatch] and the
      [onSnapshot] listener of [DataProvider]),
    followed by the properties of the specification that concern them.

    Numbers.  A JavaScript number is an IEEE-754 double.  Here a number is
    an exact rational ([Q]) or [NaN]; rounding, infinities and signed zero
    are outside the model, so every arithmetic statement below is a
    statement about the formulas the code evaluates, not about their
    rounding. *)

From Stdlib Require Import ZArith QArith Qminmax String Ascii List Bool.
From Stdlib Require Import Lia Lqa DecimalString.
Import ListNotations.

Set Implicit Arguments.

(* ===================================================================== *)
(** * Numbers and strings of the host language                            *)
(* ===================================================================== *)

Module JS.

(** A number: [NaN] or a finite value. *)
Inductive number : Type :=
| NaN
| Num (q : Q).

(** [a * b] *)
Definition mul (a b : number) : number :=
  match a, b with
  | Num x, Num y => Num (x * y)
  | _, _ => NaN
  end.

(** [a + b] on numbers *)
Definition add (a b : number) : number :=
  match a, b with
  | Num x, Num y => Num (x + y)
  | _, _ => NaN
  end.

(** [a >= b] and [a <= b]: every comparison with [NaN] is false. *)
Definition ge (a b : number) : bool :=
  match a, b with
  | Num x, Num y => Qle_bool y x
  | _, _ => false
  end.

Definition le (a b : number) : bool :=
  match a, b with
  | Num x, Num y => Qle_bool x y
  | _, _ => false
  end.

(** [Math.max(a, b)]: [NaN] if either argument is. *)
Definition Math_max (a b : number) : number :=
  match a, b with
  | Num x, Num y => Num (Qmax x y)
  | _, _ => NaN
  end.

(** Equality of numbers as values: finite numbers by [Qeq]. *)
Definition num_eq (a b : number) : Prop :=
  match a, b with
  | Num x, Num y => x == y
  | NaN, NaN => True
  | _, _ => False
  end.

(** [String(n)] for an integer [n], and [`${n}`]. *)
Definition String_of_Z (n : Z) : string :=
  NilZero.string_of_int (Z.to_int n).

(** [s.padStart(2, '0')] *)
Definition padStart2 (s : string) : string :=
  match String.length s with
  | O => "00"
  | S O => String "0" s
  | _ => s
  end.

(** [s.startsWith(p)] *)
Definition startsWith (s p : string) : bool := String.prefix p s.

End JS.

(* ===================================================================== *)
(** * Dates ([Date] of the host)                                          *)
(* ===================================================================== *)

Module JSDate.

(** What the host contributes to [Date]: the offset of local time from
    UTC (in milliseconds, as a function of the local time value) and the
    parser behind [new Date(string)], whose accepted formats beyond the
    ISO forms are implementation-defined; [None] is an invalid date. *)
Record Host : Type := {
  LocalTZA : Z -> Z;
  Date_parse : string -> option Z;
}.

Local Open Scope Z_scope.

Definition msPerDay : Z := 86400000.

(** ECMAScript [DayFromYear], [InLeapYear] and the day within the year
    on which a month (0..11) starts. *)
Definition DayFromYear (y : Z) : Z :=
  365 * (y - 1970) + (y - 1969) / 4 - (y - 1901) / 100 + (y - 1601) / 400.

Definition InLeapYear (y : Z) : bool :=
  (y mod 4 =? 0) && (negb (y mod 100 =? 0) || (y mod 400 =? 0)).

Definition monthStart (mn : Z) (leap : bool) : Z :=
  let l := if leap then 1 else 0 in
  match mn with
  | 0 => 0
  | 1 => 31
  | 2 => 59 + l
  | 3 => 90 + l
  | 4 => 120 + l
  | 5 => 151 + l
  | 6 => 181 + l
  | 7 => 212 + l
  | 8 => 243 + l
  | 9 => 273 + l
  | 10 => 304 + l
  | _ => 334 + l
  end.

(** ECMAScript [MakeDay(year, month, date)]: the month may lie outside
    0..11 and the date outside the month. *)
Definition MakeDay (year month date : Z) : Z :=
  let ym := year + month / 12 in
  let mn := month mod 12 in
  DayFromYear ym + monthStart mn (InLeapYear ym) + date - 1.

(** [new Date(year, month, date).getTime()]: local midnight of that day.
    Years 0..99 mean 1900..1999.  The range check of time values
    ([TimeClip], about 275 000 years either side of 1970) is left out. *)
Definition Date_local (h : Host) (year month date : Z) : Z :=
  let yr := if (0 <=? year) && (year <=? 99) then 1900 + year else year in
  let t := MakeDay yr month date * msPerDay in
  t - LocalTZA h t.

(** [new Date(year, month + 1, 0).getDate()]: the number of days of the
    month [month] of [year]. *)
Definition daysInMonth (year month : Z) : Z :=
  let yr := if (0 <=? year) && (year <=? 99) then 1900 + year else year in
  MakeDay yr (month + 1) 1 - MakeDay yr month 1.

(** UTC midnight of a calendar day (month 1..12), the value of
    [new Date("YYYY-MM-DD").getTime()]. *)
Definition utcMidnight (y m d : Z) : Z := MakeDay y (m - 1) d * msPerDay.

End JSDate.

(* ===================================================================== *)
(** * The payroll calculator ([SalaryCalculator.tsx], [reportData])       *)
(* ===================================================================== *)

Module Payroll.

Import JS.

(** [AttendanceStatus] of [types.ts], by the members the components use. *)
Inductive AttendanceStatus : Type :=
| Present | Absent | HalfDay | PaidLeave | SickLeave | Holiday.

Definition AttendanceStatus_eqb (a b : AttendanceStatus) : bool :=
  match a, b with
  | Present, Present | Absent, Absent | HalfDay, HalfDay
  | PaidLeave, PaidLeave | SickLeave, SickLeave | Holiday, Holiday => true
  | _, _ => false
  end.

(** The fields of an [Employee] that the calculator reads.  [advances]
    may be missing ([employee.advances || 0]). *)
Record Employee : Type := {
  id : string;
  status : string;
  employeeType : string;
  joiningDate : string;
  basicSalary : Q;
  allowance : Q;
  otherExps : Q;
  advances : option Q;
}.

Record AttendanceRecord : Type := {
  att_employeeId : string;
  att_date : string;
  att_status : AttendanceStatus;
}.

Record OvertimeRecord : Type := {
  ot_employeeId : string;
  ot_date : string;
  ot_hours : Q;
}.

(** [amount] is optional: [None] is a record without the field (a field
    that holds [null] takes the same branch of the calculator). *)
Record OvertimePressRecord : Type := {
  otp_employeeId : string;
  otp_date : string;
  otp_hours : Q;
  otp_amount : option Q;
}.

(** The part of the application state the calculator reads. *)
Record State : Type := {
  employees : list Employee;
  attendanceRecords : list AttendanceRecord;
  overtimeRecords : list OvertimeRecord;
  overtimePressRecords : list OvertimePressRecord;
}.

(** One row of [reportData]: the employee and the computed columns. *)
Record Row : Type := {
  employee : Employee;
  payableDays : Q;
  deductions : Q;
  otAmount : Q;
  otHours : Q;
  row_advances : Q;
  netPayableSalary : Q;
  gratuityAmount : number;
  leaveSalaryAccrued : number;
}.

Local Open Scope Q_scope.

(** [x || 0] on a number. *)
Definition or0 (x : Q) : Q := if Qeq_bool x 0 then 0 else x.

(** [x || 0] on an optional number. *)
Definition opt_or0 (x : option Q) : Q :=
  match x with
  | Some a => or0 a
  | None => 0
  end.

(** [`${year}-${String(month + 1).padStart(2, '0')}`] *)
Definition monthStr (year month : Z) : string :=
  (String_of_Z year ++ "-" ++ padStart2 (String_of_Z (month + 1)))%string.

(** [Math.max(0, (endDate.getTime() - joinDate.getTime())
                 / (1000 * 60 * 60 * 24 * 365.25))] *)
Definition yearsOfService (h : JSDate.Host) (year month : Z)
    (joining : string) : number :=
  let joinDate :=
    match JSDate.Date_parse h joining with
    | Some t => Num (inject_Z t)
    | None => NaN
    end in
  let endDate := JSDate.Date_local h year (month + 1) 0 in
  match joinDate with
  | Num j =>
      Math_max (Num 0)
        (Num ((inject_Z endDate - j) / (1000 * 60 * 60 * 24 * 365.25)))
  | NaN => NaN
  end.

(** The gratuity rule. *)
Definition gratuityAccrued (e : Employee) (years : number) : number :=
  if String.eqb (employeeType e) "Labour" then
    mul years (Num 600)
  else
    let dailyWage := basicSalary e / 30 in
    if ge years (Num 1) then
      if le years (Num 5)
      then mul (Num (dailyWage * 21)) years
      else mul (Num (dailyWage * 30)) years
    else Num 0.

Definition attendanceForMonth (st : State) (e : Employee) (mstr : string)
    : list AttendanceRecord :=
  filter (fun r => String.eqb (att_employeeId r) (id e)
                   && startsWith (att_date r) mstr)
         (attendanceRecords st).

Definition absentDays (att : list AttendanceRecord) : nat :=
  length (filter (fun r => AttendanceStatus_eqb (att_status r) Absent) att).

Definition halfDays (att : list AttendanceRecord) : nat :=
  length (filter (fun r => AttendanceStatus_eqb (att_status r) HalfDay) att).

Definition Q_of_nat (n : nat) : Q := inject_Z (Z.of_nat n).

Definition otRecords (st : State) (e : Employee) (mstr : string)
    : list OvertimeRecord :=
  filter (fun r => String.eqb (ot_employeeId r) (id e)
                   && startsWith (ot_date r) mstr)
         (overtimeRecords st).

Definition otPressRecords (st : State) (e : Employee) (mstr : string)
    : list OvertimePressRecord :=
  filter (fun r => String.eqb (otp_employeeId r) (id e)
                   && startsWith (otp_date r) mstr)
         (overtimePressRecords st).

(** The callback of the press-overtime [reduce]. *)
Definition pressStep (sum : Q) (r : OvertimePressRecord) : Q :=
  match otp_amount r with
  | Some a => if negb (Qle_bool a 0) then sum + a else sum + otp_hours r * 7
  | None => sum + otp_hours r * 7
  end.

(** The body of [employeesToProcess.map(employee => ...)]. *)
Definition payrollRow (h : JSDate.Host) (st : State) (year month : Z)
    (e : Employee) : Row :=
  let daysInMonth := JSDate.daysInMonth year month in
  let mstr := monthStr year month in
  let years := yearsOfService h year month (joiningDate e) in
  let gratuity := gratuityAccrued e years in
  let leave := mul years (Num 600) in
  let att := attendanceForMonth st e mstr in
  let unpaidDays :=
    Q_of_nat (absentDays att) + Q_of_nat (halfDays att) * 0.5 in
  let dailyRate := basicSalary e / 30 in
  let ded := unpaidDays * dailyRate in
  let ots := otRecords st e mstr in
  let totalOtHours := fold_left (fun sum r => sum + ot_hours r) ots 0 in
  let hourlyOtAmount := totalOtHours * 7 in
  let otps := otPressRecords st e mstr in
  let pressOtAmount := fold_left pressStep otps 0 in
  let netSalary :=
    (basicSalary e + allowance e + otherExps e + hourlyOtAmount
     + pressOtAmount)
    - ded - opt_or0 (advances e) in
  {| employee := e;
     payableDays := inject_Z daysInMonth - unpaidDays;
     deductions := ded;
     otAmount := hourlyOtAmount + pressOtAmount;
     otHours := totalOtHours
                + fold_left (fun s r => s + or0 (otp_hours r)) otps 0;
     row_advances := opt_or0 (advances e);
     netPayableSalary := netSalary;
     gratuityAmount := gratuity;
     leaveSalaryAccrued := leave |}.

(** [reportData]: the active employees, optionally narrowed to one id
    (the empty string is no filter). *)
Definition reportData (h : JSDate.Host) (st : State) (year month : Z)
    (filterEmployeeId : string) : list Row :=
  let active := filter (fun emp => String.eqb (status emp) "Active")
                       (employees st) in
  let employeesToProcess :=
    if String.eqb filterEmployeeId "" then active
    else filter (fun emp => String.eqb (id emp) filterEmployeeId) active in
  map (payrollRow h st year month) employeesToProcess.

End Payroll.

(* ===================================================================== *)
(** * Values of the document store                                        *)
(* ===================================================================== *)

(** The application state, the actions' payloads and the remote document
    are plain data: [undefined], [null], booleans, numbers, strings, arrays
    and objects.  An object is the list of its own properties in insertion
    order, each key once.  Values carry no identity. *)

Module Value.

Import JS.

#[warnings="-register-all"]
Inductive value : Type :=
| VUndefined
| VNull
| VBool (b : bool)
| VNum (n : number)
| VStr (s : string)
| VArr (l : list value)
| VObj (o : list (string * value)).

Definition obj : Type := list (string * value).

(** A thrown [TypeError], or a result. *)
Inductive result (A : Type) : Type :=
| Ok (a : A)
| Throw.
Arguments Throw {A}.

Definition bind {A B : Type} (r : result A) (f : A -> result B) : result B :=
  match r with
  | Ok a => f a
  | Throw => Throw
  end.

Declare Scope js_scope.
Delimit Scope js_scope with js.
Notation "x <- c ;; k" := (bind c (fun x => k))
  (at level 61, c at next level, right associativity) : js_scope.
Local Open Scope js_scope.

(** ** Objects *)

Fixpoint lookup (k : string) (o : obj) : option value :=
  match o with
  | [] => None
  | (k', v) :: o' => if String.eqb k k' then Some v else lookup k o'
  end.

(** [k in o] for an own property. *)
Definition has_key (k : string) (o : obj) : bool :=
  match lookup k o with
  | Some _ => true
  | None => false
  end.

(** [o[k]]: a missing property reads as [undefined]. *)
Definition get (k : string) (o : obj) : value :=
  match lookup k o with
  | Some v => v
  | None => VUndefined
  end.

(** [o[k] = v], and one [k: v] of [{...o, k: v}]: an existing property
    keeps its place, a new one goes last. *)
Fixpoint set (k : string) (v : value) (o : obj) : obj :=
  match o with
  | [] => [(k, v)]
  | (k', v') :: o' =>
      if String.eqb k k' then (k, v) :: o' else (k', v') :: set k v o'
  end.

(** [{...o, k1: v1, ..., kn: vn}] *)
Definition set_all (kvs : list (string * value)) (o : obj) : obj :=
  fold_left (fun acc kv => set (fst kv) (snd kv) acc) kvs o.

Definition keys (o : obj) : list string := map fst o.

(** ** Coercions and operators *)

Definition num_of_Z (z : Z) : value := VNum (Num (inject_Z z)).

(** Truthiness: [undefined], [null], [false], [0], [NaN] and [""] are
    falsy. *)
Definition truthy (v : value) : bool :=
  match v with
  | VUndefined | VNull => false
  | VBool b => b
  | VNum NaN => false
  | VNum (Num q) => negb (Qeq_bool q 0)
  | VStr s => negb (String.eqb s "")
  | VArr _ | VObj _ => true
  end.

(** [a || b] *)
Definition js_or (a b : value) : value := if truthy a then a else b.

(** [a ?? b] *)
Definition nullish (a b : value) : value :=
  match a with
  | VUndefined | VNull => b
  | _ => a
  end.

(** [a === b].  Two arrays or objects are equal only as the same
    reference; values carry no identity here, and the ids, dates and tags
    the reducer compares are strings or numbers, so a comparison of two
    compound values is taken to be one of distinct references. *)
Definition strict_eq (a b : value) : bool :=
  match a, b with
  | VUndefined, VUndefined => true
  | VNull, VNull => true
  | VBool x, VBool y => Bool.eqb x y
  | VNum (Num x), VNum (Num y) => Qeq_bool x y
  | VStr x, VStr y => String.eqb x y
  | _, _ => false
  end.

(** SameValueZero, the equality of [Array.prototype.includes] and of
    [Set]: as [===], except that [NaN] equals itself. *)
Definition same_value_zero (a b : value) : bool :=
  match a, b with
  | VNum NaN, VNum NaN => true
  | _, _ => strict_eq a b
  end.

(** What the model leaves to the host: [String(v)] of a value that is
    not a string (the printing of numbers, arrays and objects),
    [String.prototype.localeCompare] (the sign of its result), what a
    plain object inherits under a key from [Object.prototype]
    ([constructor], [toString], [valueOf], [hasOwnProperty], ..., and
    under [__proto__] the prototype itself; [undefined] under every other
    key; a function is an object here), and the members of the enum
    [JournalEntryType] of [types.ts], which is not part of the sources at
    hand. *)
Record Host : Type := {
  ToString : value -> string;
  localeCompare : string -> string -> Z;
  Object_prototype : string -> value;
  JournalEntryType_Receipt : value;
  JournalEntryType_Payment : value;
  JournalEntryType_Expense : value;
  JournalEntryType_Journal : value;
}.

(** [String(v)], also the property key that [o[v]] reads. *)
Definition to_str (h : Host) (v : value) : string :=
  match v with
  | VStr s => s
  | _ => ToString h v
  end.

(** A plain object [{}] used as a dictionary under computed keys.
    [o[k]] reads the own property [k] and, where there is none, what
    [Object.prototype] holds under [k].  [o[k] = v] creates or replaces
    the own property [k], except under the key [__proto__], whose setter
    ignores a value that is neither an object nor null: the values
    assigned under computed keys are results of [+], numbers or
    strings. *)
Definition dict_get (h : Host) (k : string) (o : obj) : value :=
  match lookup k o with
  | Some v => v
  | None => Object_prototype h k
  end.

Definition dict_set (k : string) (v : value) (o : obj) : obj :=
  if String.eqb k "__proto__" then o else set k v o.

(** [Number(v)] of a primitive that is not a string. *)
Definition to_number (v : value) : number :=
  match v with
  | VNum n => n
  | VNull => Num 0
  | VBool true => Num 1
  | VBool false => Num 0
  | _ => NaN
  end.

(** [a + b]: concatenation as soon as one operand is a string, an array
    or an object (these last two convert to strings), numeric addition
    otherwise. *)
Definition plus (h : Host) (a b : value) : value :=
  match a, b with
  | (VStr _ | VArr _ | VObj _), _
  | _, (VStr _ | VArr _ | VObj _) => VStr (to_str h a ++ to_str h b)
  | _, _ => VNum (add (to_number a) (to_number b))
  end.

(** [v.k] for a key [k] that is no built-in property: a [TypeError] on
    [undefined] and [null], [undefined] on the other primitives and on
    arrays. *)
Definition get_prop (v : value) (k : string) : result value :=
  match v with
  | VUndefined | VNull => Throw
  | VObj o => Ok (get k o)
  | _ => Ok VUndefined
  end.

(** The receiver of an array method ([map], [filter], [some],
    [forEach]): anything but an array has no such method. *)
Definition as_array (v : value) : result (list value) :=
  match v with
  | VArr l => Ok l
  | _ => Throw
  end.

Fixpoint chars (s : string) : list value :=
  match s with
  | EmptyString => []
  | String c s' => VStr (String c EmptyString) :: chars s'
  end.

(** [...v] inside an array literal: arrays and strings are iterable. *)
Definition iterate (v : value) : result (list value) :=
  match v with
  | VArr l => Ok l
  | VStr s => Ok (chars s)
  | _ => Throw
  end.

Fixpoint indexed (i : nat) (l : list value) : obj :=
  match l with
  | [] => []
  | v :: l' => (NilZero.string_of_uint (Nat.to_uint i), v) :: indexed (S i) l'
  end.

(** The own enumerable properties that [{...v}] copies. *)
Definition spread (v : value) : obj :=
  match v with
  | VObj o => o
  | VArr l => indexed 0 l
  | VStr s => indexed 0 (chars s)
  | _ => []
  end.

(** Array methods whose callback may throw. *)
Fixpoint some (f : value -> result bool) (l : list value) : result bool :=
  match l with
  | [] => Ok false
  | x :: l' => b <- f x ;; if b then Ok true else some f l'
  end.

Fixpoint map_r (f : value -> result value) (l : list value)
    : result (list value) :=
  match l with
  | [] => Ok []
  | x :: l' => y <- f x ;; ys <- map_r f l' ;; Ok (y :: ys)
  end.

Fixpoint filter_r (f : value -> result bool) (l : list value)
    : result (list value) :=
  match l with
  | [] => Ok []
  | x :: l' => b <- f x ;; ys <- filter_r f l' ;;
               Ok (if b then x :: ys else ys)
  end.

Fixpoint fold_r {A : Type} (f : A -> value -> result A) (l : list value)
    (acc : A) : result A :=
  match l with
  | [] => Ok acc
  | x :: l' => acc' <- f acc x ;; fold_r f l' acc'
  end.

(** [l.sort(cmp)] for a comparator that may throw: a stable sort.  Which
    pairs an engine compares is implementation-defined; the comparisons
    made here are those of insertion from the left. *)
Fixpoint insert_sorted (cmp : value -> value -> result Z) (x : value)
    (l : list value) : result (list value) :=
  match l with
  | [] => Ok [x]
  | y :: l' =>
      c <- cmp y x ;;
      if (c <=? 0)%Z then l'' <- insert_sorted cmp x l' ;; Ok (y :: l'')
      else Ok (x :: y :: l')
  end.

Definition sort (cmp : value -> value -> result Z) (l : list value)
    : result (list value) :=
  fold_r (fun acc x => insert_sorted cmp x acc) l [].

(** [s.includes(t)] on strings. *)
Fixpoint str_includes (t s : string) : bool :=
  String.prefix t s ||
  match s with
  | EmptyString => false
  | String _ s' => str_includes t s'
  end.

(** ** [convertUndefinedToNull] *)

Fixpoint convertUndefinedToNull (v : value) : value :=
  match v with
  | VArr l => VArr (map convertUndefinedToNull l)
  | VObj o =>
      VObj (map (fun kv =>
                   match kv with
                   | (key, VUndefined) => (key, VNull)
                   | (key, x) => (key, convertUndefinedToNull x)
                   end) o)
  | _ => v
  end.

End Value.

(* ===================================================================== *)
(** * The state reducer ([DataContext.tsx])                               *)
(* ===================================================================== *)

Module Store.

Import JS Value.
Local Open Scope js_scope.
Local Open Scope string_scope.

(** The application state is an object. *)
Definition AppState : Type := obj.

Definition account (id name : string) : value :=
  VObj [("id", VStr id); ("name", VStr name)].

Definition one : value := num_of_Z 1.

(** [getInitialState()] *)
Definition getInitialState : AppState :=
 (map (fun k => (k, VArr []))
    ["customers"; "suppliers"; "vendors"; "subSuppliers"; "employees";
     "banks"; "cashAccounts"; "originalTypes"; "originalProducts";
     "divisions"; "subDivisions"; "warehouses"; "sections"; "categories";
     "items"; "logos"; "assetTypes"; "commissionAgents";
     "freightForwarders"; "clearingAgents"; "loanAccounts";
     "capitalAccounts"; "investmentAccounts"]
  ++
  [("expenseAccounts", VArr [account "EXP-012" "Depreciation Expense"]);
   ("inventoryAccounts",
      VArr [account "INV-FG-001" "Finished Goods Inventory"]);
   ("packingMaterialInventoryAccounts",
      VArr [account "INV-PM-001" "Packing Material Inventory"]);
   ("fixedAssetAccounts", VArr [account "FA-001" "Fixed Assets at Cost"]);
   ("accumulatedDepreciationAccounts",
      VArr [account "AD-001" "Accumulated Depreciation"]);
   ("receivableAccounts", VArr [account "AR-001" "Accounts Receivable"]);
   ("revenueAccounts", VArr [account "REV-001" "Sales Revenue"]);
   ("payableAccounts",
      VArr [account "AP-001" "Accounts Payable";
            account "AP-002" "Customs Charges Payable"])]
  ++
  map (fun k => (k, VArr []))
    ["attendanceRecords"; "salaryPayments"; "hrTasks"; "hrEnquiries";
     "vehicles"; "fixedAssets"; "depreciationEntries"; "originalOpenings";
     "originalPurchases"; "productions"; "salesInvoices"; "ongoingOrders";
     "finishedGoodsPurchases"; "packingMaterialItems";
     "packingMaterialPurchases"; "logisticsEntries"; "guaranteeCheques";
     "customsDocuments"; "favoriteCombinations"; "journalEntries";
     "testEntries"]
  ++
  map (fun k => (k, one))
    ["nextInvoiceNumber"; "nextOngoingOrderNumber";
     "nextFinishedGoodsPurchaseNumber"; "nextPackingMaterialPurchaseNumber";
     "nextLogisticsSNo"; "nextHRTaskId"; "nextHREnquiryId";
     "nextGuaranteeChequeSNo"; "nextReceiptVoucherNumber";
     "nextPaymentVoucherNumber"; "nextExpenseVoucherNumber";
     "nextJournalVoucherNumber"; "nextTestEntryNumber"]
  ++
  [("plannerData", VObj []);
   ("plannerLastWeeklyReset", VStr "");
   ("plannerLastMonthlyReset", VStr "");
   ("plannerCustomerIds", VArr []);
   ("plannerSupplierIds", VArr []);
   ("plannerExpenseAccountIds", VArr [])])%list.

(** The keys that [EntityName = keyof Omit<AppState, ...>] omits. *)
Definition omitted : list string :=
  ["nextInvoiceNumber"; "nextOngoingOrderNumber";
   "nextFinishedGoodsPurchaseNumber"; "nextReceiptVoucherNumber";
   "nextPaymentVoucherNumber"; "nextExpenseVoucherNumber";
   "nextJournalVoucherNumber"; "nextLogisticsSNo"; "favoriteCombinations";
   "nextHRTaskId"; "nextHREnquiryId"; "plannerData";
   "plannerLastWeeklyReset"; "plannerLastMonthlyReset";
   "nextTestEntryNumber"; "plannerCustomerIds"; "plannerSupplierIds";
   "plannerExpenseAccountIds"; "nextPackingMaterialPurchaseNumber";
   "nextGuaranteeChequeSNo"].

Definition mem (k : string) (l : list string) : bool :=
  existsb (String.eqb k) l.

(** The entity names under which the state of the provider holds a
    collection: the keys of [getInitialState], which are also the keys of
    the literal of [RESTORE_STATE], less the omitted ones. *)
Definition storedEntities : list string :=
  ["customers"; "suppliers"; "vendors"; "subSuppliers"; "employees";
   "banks"; "cashAccounts"; "originalTypes"; "originalProducts";
   "divisions"; "subDivisions"; "warehouses"; "sections"; "categories";
   "items"; "logos"; "assetTypes"; "commissionAgents";
   "freightForwarders"; "clearingAgents"; "loanAccounts";
   "capitalAccounts"; "investmentAccounts"; "expenseAccounts";
   "inventoryAccounts"; "packingMaterialInventoryAccounts";
   "fixedAssetAccounts"; "accumulatedDepreciationAccounts";
   "receivableAccounts"; "revenueAccounts"; "payableAccounts";
   "attendanceRecords"; "salaryPayments"; "hrTasks"; "hrEnquiries";
   "vehicles"; "fixedAssets"; "depreciationEntries"; "originalOpenings";
   "originalPurchases"; "productions"; "salesInvoices"; "ongoingOrders";
   "finishedGoodsPurchases"; "packingMaterialItems";
   "packingMaterialPurchases"; "logisticsEntries"; "guaranteeCheques";
   "customsDocuments"; "journalEntries"; "testEntries"].

(** [EntityName]: the keys of [AppState] less those the type omits.
    [types.ts] is not among the sources.  The keys of [AppState] are
    those of [getInitialState], which is declared of that type, and the
    two collections that the components read from the state and dispatch
    under this type ([OvertimeRegister.tsx], the press register,
    [SalaryCalculator.tsx]), which [getInitialState] and the literal of
    [RESTORE_STATE] leave out. *)
Definition EntityName : list string :=
  (storedEntities ++ ["overtimeRecords"; "overtimePressRecords"])%list.

(** [processState(state)] *)
Definition processState (h : Host) (state : AppState) : result AppState :=
  productions <- as_array (get "productions" state) ;;
  productionsByItem <-
    fold_r (fun (byItem : obj) p =>
              itemId <- get_prop p "itemId" ;;
              quantityProduced <- get_prop p "quantityProduced" ;;
              let key := to_str h itemId in
              Ok (dict_set key
                           (plus h (js_or (dict_get h key byItem)
                                          (num_of_Z 0))
                                 quantityProduced)
                           byItem))
           productions [] ;;
  stateItems <- as_array (get "items" state) ;;
  items <-
    map_r (fun item =>
             itemIdent <- get_prop item "id" ;;
             let totalProduced :=
               js_or (dict_get h (to_str h itemIdent) productionsByItem)
                     (num_of_Z 0) in
             openingStock <- get_prop item "openingStock" ;;
             Ok (VObj (set "nextBaleNumber"
                           (plus h (plus h (js_or openingStock (num_of_Z 0))
                                           totalProduced)
                                 one)
                           (spread item))))
          stateItems ;;
  Ok (set "items" (VArr items) state).

(** [initialState = processState(getInitialState())] *)
Definition initialState (h : Host) : AppState :=
  match processState h getInitialState with
  | Ok s => s
  | Throw => getInitialState
  end.

(** The union [Action].  [entity], [entityType] are the string tags of
    the payload; ids and records are values.  [OtherAction] stands for an
    action object whose [type] is none of the cases of the [switch]. *)
#[warnings="-register-all"]
Inductive Action : Type :=
| ADD_ENTITY (entity : string) (data : value)
| UPDATE_ENTITY (entity : string) (data : value)
| DELETE_ENTITY (entity : string) (id : value)
| RESTORE_STATE (payload : value)
| TOGGLE_FAVORITE_COMBINATION (date : value)
| SET_PLANNER_DATA (payload : value)
| BATCH_UPDATE (payload : list Action)
| HARD_RESET_TRANSACTIONS
| ADD_PLANNER_ENTITY (entityType : string) (entityId : value)
| REMOVE_PLANNER_ENTITY (entityType : string) (entityId : value)
| OtherAction (type : string) (payload : value).

Definition plannerKey (entityType : string) : string :=
  if String.eqb entityType "customer" then "plannerCustomerIds"
  else if String.eqb entityType "supplier" then "plannerSupplierIds"
  else "plannerExpenseAccountIds".

(** The collections and counters that [HARD_RESET_TRANSACTIONS] writes. *)
Definition resetCollections : list string :=
  ["salesInvoices"; "originalPurchases"; "finishedGoodsPurchases";
   "packingMaterialPurchases"; "journalEntries"; "productions";
   "originalOpenings"; "ongoingOrders"; "logisticsEntries";
   "attendanceRecords"; "salaryPayments"; "hrTasks"; "hrEnquiries";
   "favoriteCombinations"; "testEntries"; "depreciationEntries"].

Definition resetCounters : list string :=
  ["nextInvoiceNumber"; "nextOngoingOrderNumber";
   "nextFinishedGoodsPurchaseNumber"; "nextPackingMaterialPurchaseNumber";
   "nextLogisticsSNo"; "nextReceiptVoucherNumber";
   "nextPaymentVoucherNumber"; "nextExpenseVoucherNumber";
   "nextJournalVoucherNumber"; "nextTestEntryNumber"; "nextHRTaskId";
   "nextHREnquiryId"].

Definition resetWrites : list (string * value) :=
  (map (fun k => (k, VArr [])) resetCollections
   ++ map (fun k => (k, one)) resetCounters
   ++ [("plannerData", VObj []);
       ("plannerLastWeeklyReset", VStr "");
       ("plannerLastMonthlyReset", VStr "")])%list.

(** [{ ...state, salesInvoices: [], ..., plannerLastMonthlyReset: '' }] *)
Definition hardReset (state : AppState) : AppState :=
  set_all resetWrites state.

(** The entities whose addition advances a counter, in the order of the
    [if]s of [ADD_ENTITY]. *)
Definition entityCounters : list (string * string) :=
  [("salesInvoices", "nextInvoiceNumber");
   ("ongoingOrders", "nextOngoingOrderNumber");
   ("finishedGoodsPurchases", "nextFinishedGoodsPurchaseNumber");
   ("packingMaterialPurchases", "nextPackingMaterialPurchaseNumber");
   ("logisticsEntries", "nextLogisticsSNo");
   ("guaranteeCheques", "nextGuaranteeChequeSNo");
   ("hrTasks", "nextHRTaskId");
   ("hrEnquiries", "nextHREnquiryId");
   ("testEntries", "nextTestEntryNumber")].

(** [newState.counter = state.counter + 1] *)
Definition bump (h : Host) (state : AppState) (counter : string)
    (newState : AppState) : AppState :=
  set counter (plus h (get counter state) one) newState.

Definition bumpEntityCounters (h : Host) (state : AppState)
    (entity : string) (newState : AppState) : AppState :=
  fold_left (fun ns ec =>
               if String.eqb entity (fst ec)
               then bump h state (snd ec) ns else ns)
            entityCounters newState.

(** [v.startsWith(prefix)] as a method call on [v]. *)
Definition call_startsWith (v : value) (prefix : string) : result bool :=
  match v with
  | VStr s => Ok (startsWith s prefix)
  | _ => Throw
  end.

(** [entry.entryType === tag && entry.voucherId.startsWith(prefix)] *)
Definition isSeries (entry tag : value) (prefix : string) : result bool :=
  entryType <- get_prop entry "entryType" ;;
  if strict_eq entryType tag then
    voucherId <- get_prop entry "voucherId" ;;
    call_startsWith voucherId prefix
  else Ok false.

(** The [journalEntries] branch of [ADD_ENTITY]. *)
Definition bumpVoucherCounter (h : Host) (state : AppState) (entry : value)
    (newState : AppState) : result AppState :=
  journalEntries <- as_array (get "journalEntries" state) ;;
  found <- some (fun je =>
                   a <- get_prop je "voucherId" ;;
                   b <- get_prop entry "voucherId" ;;
                   Ok (strict_eq a b))
                journalEntries ;;
  let isFirstEntryForVoucher := negb found in
  if isFirstEntryForVoucher then
    r <- isSeries entry (JournalEntryType_Receipt h) "RV-" ;;
    if r then Ok (bump h state "nextReceiptVoucherNumber" newState) else
    p <- isSeries entry (JournalEntryType_Payment h) "PV-" ;;
    if p then Ok (bump h state "nextPaymentVoucherNumber" newState) else
    e <- isSeries entry (JournalEntryType_Expense h) "EV-" ;;
    if e then Ok (bump h state "nextExpenseVoucherNumber" newState) else
    j <- isSeries entry (JournalEntryType_Journal h) "JV-" ;;
    if j then Ok (bump h state "nextJournalVoucherNumber" newState) else
    Ok newState
  else Ok newState.

Definition addEntity (h : Host) (state : AppState) (entity : string)
    (data : value) : result AppState :=
  entityArray <- iterate (get entity state) ;;
  let newState := set entity (VArr (entityArray ++ [data])%list) state in
  let newState := bumpEntityCounters h state entity newState in
  if String.eqb entity "journalEntries"
  then bumpVoucherCounter h state data newState
  else Ok newState.

Definition updateEntity (state : AppState) (entity : string) (data : value)
    : result AppState :=
  entityArray <- as_array (get entity state) ;;
  items <- map_r (fun item =>
                    a <- get_prop item "id" ;;
                    b <- get_prop data "id" ;;
                    if strict_eq a b
                    then Ok (VObj (set_all (spread data) (spread item)))
                    else Ok item)
                 entityArray ;;
  Ok (set entity (VArr items) state).

Definition deleteEntity (state : AppState) (entity : string) (id : value)
    : result AppState :=
  entityArray <- as_array (get entity state) ;;
  items <- filter_r (fun item =>
                       a <- get_prop item "id" ;;
                       Ok (negb (strict_eq a id)))
                    entityArray ;;
  Ok (set entity (VArr items) state).

(** [(a, b) => b.date.localeCompare(a.date)] *)
Definition byDateDescending (h : Host) (a b : value) : result Z :=
  bd <- get_prop b "date" ;;
  match bd with
  | VStr s => ad <- get_prop a "date" ;; Ok (localeCompare h s (to_str h ad))
  | _ => Throw
  end.

Definition toggleFavorite (h : Host) (state : AppState) (date : value)
    : result AppState :=
  favorites <- as_array (get "favoriteCombinations" state) ;;
  isFavorite <- some (fun fav => d <- get_prop fav "date" ;;
                                 Ok (strict_eq d date))
                     favorites ;;
  if isFavorite then
    kept <- filter_r (fun fav => d <- get_prop fav "date" ;;
                                 Ok (negb (strict_eq d date)))
                     favorites ;;
    Ok (set "favoriteCombinations" (VArr kept) state)
  else
    newFavorites <- sort (byDateDescending h)
                         (favorites ++ [VObj [("date", date)]])%list ;;
    Ok (set "favoriteCombinations" (VArr newFavorites) state).

Definition addPlannerEntity (h : Host) (state : AppState)
    (entityType : string) (entityId : value) : result AppState :=
  let key := plannerKey entityType in
  let currentIds := js_or (get key state) (VArr []) in
  included <-
    match currentIds with
    | VArr l => Ok (existsb (same_value_zero entityId) l)
    | VStr s => Ok (str_includes (to_str h entityId) s)
    | _ => Throw
    end ;;
  if included then Ok state
  else
    ids <- iterate currentIds ;;
    Ok (set key (VArr (ids ++ [entityId])%list) state).

Definition removePlannerEntity (state : AppState) (entityType : string)
    (entityId : value) : result AppState :=
  let key := plannerKey entityType in
  let currentIds := js_or (get key state) (VArr []) in
  ids <- as_array currentIds ;;
  Ok (set key
          (VArr (filter (fun id => negb (strict_eq id entityId)) ids))
          state).

(** The keys of the object literal of [RESTORE_STATE], in its order:
    those filled with [||], then the counters filled with [??], then the
    planner keys, filled with [||]. *)
Definition restoreOrKeys : list string :=
  ["customers"; "suppliers"; "vendors"; "subSuppliers";
   "commissionAgents"; "items"; "originalTypes"; "originalProducts";
   "divisions"; "subDivisions"; "warehouses"; "sections"; "categories";
   "logos"; "assetTypes"; "freightForwarders"; "clearingAgents"; "banks";
   "cashAccounts"; "loanAccounts"; "capitalAccounts";
   "investmentAccounts"; "expenseAccounts"; "inventoryAccounts";
   "packingMaterialInventoryAccounts"; "fixedAssetAccounts";
   "accumulatedDepreciationAccounts"; "receivableAccounts";
   "revenueAccounts"; "payableAccounts"; "employees"; "attendanceRecords";
   "salaryPayments"; "hrTasks"; "hrEnquiries"; "vehicles"; "fixedAssets";
   "depreciationEntries"; "originalOpenings"; "originalPurchases";
   "productions"; "salesInvoices"; "ongoingOrders";
   "finishedGoodsPurchases"; "packingMaterialItems";
   "packingMaterialPurchases"; "logisticsEntries"; "guaranteeCheques";
   "customsDocuments"; "favoriteCombinations"; "journalEntries";
   "testEntries"].

Definition restoreNullishKeys : list string :=
  ["nextInvoiceNumber"; "nextOngoingOrderNumber";
   "nextFinishedGoodsPurchaseNumber"; "nextPackingMaterialPurchaseNumber";
   "nextLogisticsSNo"; "nextHRTaskId"; "nextHREnquiryId";
   "nextGuaranteeChequeSNo"; "nextReceiptVoucherNumber";
   "nextPaymentVoucherNumber"; "nextExpenseVoucherNumber";
   "nextJournalVoucherNumber"; "nextTestEntryNumber"].

Definition restorePlannerKeys : list string :=
  ["plannerData"; "plannerLastWeeklyReset"; "plannerLastMonthlyReset";
   "plannerCustomerIds"; "plannerSupplierIds"; "plannerExpenseAccountIds"].

(** [firestoreState && typeof firestoreState === 'object'
     && 'customers' in firestoreState]; an array has no such property. *)
Definition validShape (firestoreState : value) : bool :=
  match firestoreState with
  | VObj o => has_key "customers" o
  | _ => false
  end.

(** The object literal [newState] of [RESTORE_STATE]. *)
Definition restoreFields (firestoreState : obj) : AppState :=
  let defaultState := getInitialState in
  (map (fun k => (k, js_or (get k firestoreState) (get k defaultState)))
       restoreOrKeys
   ++ map (fun k => (k, nullish (get k firestoreState) (get k defaultState)))
          restoreNullishKeys
   ++ map (fun k => (k, js_or (get k firestoreState) (get k defaultState)))
          restorePlannerKeys)%list.

Definition restoreState (h : Host) (state : AppState)
    (firestoreState : value) : result AppState :=
  match firestoreState with
  | VObj fs =>
      if has_key "customers" fs then processState h (restoreFields fs)
      else Ok state
  | _ => Ok state
  end.

(** [dataReducer(state, action)] *)
Fixpoint dataReducer (h : Host) (state : AppState) (action : Action)
    : result AppState :=
  match action with
  | ADD_PLANNER_ENTITY entityType entityId =>
      addPlannerEntity h state entityType entityId
  | REMOVE_PLANNER_ENTITY entityType entityId =>
      removePlannerEntity state entityType entityId
  | HARD_RESET_TRANSACTIONS => Ok (hardReset state)
  | BATCH_UPDATE payload =>
      fold_left (fun currentState currentAction =>
                   s <- currentState ;; dataReducer h s currentAction)
                payload (Ok state)
  | ADD_ENTITY entity data => addEntity h state entity data
  | UPDATE_ENTITY entity data => updateEntity state entity data
  | DELETE_ENTITY entity id => deleteEntity state entity id
  | TOGGLE_FAVORITE_COMBINATION date => toggleFavorite h state date
  | SET_PLANNER_DATA payload => Ok (set_all (spread payload) state)
  | RESTORE_STATE payload => restoreState h state payload
  | OtherAction _ _ => Ok state
  end.

End Store.

(* ===================================================================== *)
(** * The synchronisation layer ([DataProvider])                          *)
(* ===================================================================== *)

Module Sync.

Import JS Value Store.
Local Open Scope js_scope.
Local Open Scope string_scope.

Inductive SaveStatus : Type := synced | saving | error.

(** The reducer state, the refs and the flags of [DataProvider], and the
    documents it has written to the remote store, latest first. *)
Record Provider : Type := {
  state : AppState;
  isLocalChange : bool;
  isUpdatingFromFirestore : bool;
  isFirestoreLoaded : bool;
  authLoading : bool;
  signedIn : bool;
  saveStatus : SaveStatus;
  written : list value;
}.

Definition with_state (s : AppState) (p : Provider) : Provider :=
  {| state := s;
     isLocalChange := isLocalChange p;
     isUpdatingFromFirestore := isUpdatingFromFirestore p;
     isFirestoreLoaded := isFirestoreLoaded p;
     authLoading := authLoading p;
     signedIn := signedIn p;
     saveStatus := saveStatus p;
     written := written p |}.

Definition with_isLocalChange (b : bool) (p : Provider) : Provider :=
  {| state := state p;
     isLocalChange := b;
     isUpdatingFromFirestore := isUpdatingFromFirestore p;
     isFirestoreLoaded := isFirestoreLoaded p;
     authLoading := authLoading p;
     signedIn := signedIn p;
     saveStatus := saveStatus p;
     written := written p |}.

(** [dispatch(action)] of [useReducer]. *)
Definition dispatch (h : Host) (action : Action) (p : Provider)
    : result Provider :=
  s <- dataReducer h (state p) action ;;
  Ok (with_state s p).

(** [wrappedDispatch], the [dispatch] handed to the components. *)
Definition wrappedDispatch (h : Host) (action : Action) (p : Provider)
    : result Provider :=
  dispatch h action (with_isLocalChange true p).

(** The loop over [firestoreData.divisions]: the divisions whose id was
    not seen before, and whether one was dropped. *)
Fixpoint uniqueDivisions (seenIds : list value) (divisions : list value)
    : result (list value * bool) :=
  match divisions with
  | [] => Ok ([], false)
  | division :: rest =>
      ident <- get_prop division "id" ;;
      if existsb (same_value_zero ident) seenIds then
        r <- uniqueDivisions seenIds rest ;;
        Ok (fst r, true)
      else
        r <- uniqueDivisions (seenIds ++ [ident]) rest ;;
        Ok (division :: fst r, snd r)
  end.

Definition dedupeDivisions (firestoreData : obj) : result obj :=
  match get "divisions" firestoreData with
  | VArr divisions =>
      r <- uniqueDivisions [] divisions ;;
      if snd r then Ok (set "divisions" (VArr (fst r)) firestoreData)
      else Ok firestoreData
  | _ => Ok firestoreData
  end.

(** The [onSnapshot] listener; [doc] is [Some data] when [doc.exists]. *)
Definition onSnapshot (h : Host) (doc : option obj) (p : Provider)
    : result Provider :=
  if isLocalChange p then Ok (with_isLocalChange false p)
  else
    p' <-
      match doc with
      | Some data =>
          firestoreData <- dedupeDivisions data ;;
          s <- dataReducer h (state p) (RESTORE_STATE (VObj firestoreData)) ;;
          Ok {| state := s;
                isLocalChange := isLocalChange p;
                isUpdatingFromFirestore := true;
                isFirestoreLoaded := isFirestoreLoaded p;
                authLoading := authLoading p;
                signedIn := signedIn p;
                saveStatus := synced;
                written := written p |}
      | None =>
          Ok {| state := state p;
                isLocalChange := isLocalChange p;
                isUpdatingFromFirestore := isUpdatingFromFirestore p;
                isFirestoreLoaded := isFirestoreLoaded p;
                authLoading := authLoading p;
                signedIn := signedIn p;
                saveStatus := saveStatus p;
                written := VObj (initialState h) :: written p |}
      end ;;
    Ok {| state := state p';
          isLocalChange := isLocalChange p';
          isUpdatingFromFirestore := isUpdatingFromFirestore p';
          isFirestoreLoaded := true;
          authLoading := false;
          signedIn := signedIn p';
          saveStatus := saveStatus p';
          written := written p' |}.

(** The effect that runs after a change of [state]: the whole state,
    with [undefined] turned into [null], is written to the document
    (the write is taken to succeed). *)
Definition saveEffect (p : Provider) : Provider :=
  if isUpdatingFromFirestore p then
    {| state := state p;
       isLocalChange := isLocalChange p;
       isUpdatingFromFirestore := false;
       isFirestoreLoaded := isFirestoreLoaded p;
       authLoading := authLoading p;
       signedIn := signedIn p;
       saveStatus := saveStatus p;
       written := written p |}
  else if negb (isFirestoreLoaded p) || negb (signedIn p) then p
  else
    {| state := state p;
       isLocalChange := isLocalChange p;
       isUpdatingFromFirestore := false;
       isFirestoreLoaded := isFirestoreLoaded p;
       authLoading := authLoading p;
       signedIn := signedIn p;
       saveStatus := synced;
       written := convertUndefinedToNull (VObj (state p)) :: written p |}.

End Sync.

(* ===================================================================== *)
(** * A host for the examples                                             *)
(* ===================================================================== *)

(** UTC as local time, dates in the form [YYYY-MM-DD], byte-wise string
    order, and the enum members as their names. *)

Module ExampleHost.

Import JS Value.
Local Open Scope string_scope.

Definition digit (c : ascii) : option Z :=
  let n := Z.of_nat (nat_of_ascii c) in
  if ((48 <=? n) && (n <=? 57))%Z then Some (n - 48)%Z else None.

Fixpoint digits (acc : Z) (s : string) : option Z :=
  match s with
  | EmptyString => Some acc
  | String c s' =>
      match digit c with
      | Some d => digits (10 * acc + d)%Z s'
      | None => None
      end
  end.

(** [Date.parse] on the date-only form: UTC midnight of that day. *)
Definition parseIsoDate (s : string) : option Z :=
  if (String.length s =? 10)%nat
     && String.eqb (substring 4 1 s) "-"
     && String.eqb (substring 7 1 s) "-"
  then
    match digits 0 (substring 0 4 s), digits 0 (substring 5 2 s),
          digits 0 (substring 8 2 s) with
    | Some y, Some m, Some d =>
        if ((1 <=? m) && (m <=? 12) && (1 <=? d)
            && (d <=? JSDate.MakeDay y m 1 - JSDate.MakeDay y (m - 1) 1))%Z
        then Some (JSDate.utcMidnight y m d)
        else None
    | _, _, _ => None
    end
  else None.

Definition dates : JSDate.Host :=
  {| JSDate.LocalTZA := fun _ => 0%Z;
     JSDate.Date_parse := parseIsoDate |}.

Definition compare_Z (c : comparison) : Z :=
  match c with
  | Lt => (-1)%Z
  | Eq => 0%Z
  | Gt => 1%Z
  end.

(** [String(v)]; a number that is not an integer is not printed. *)
Fixpoint toString (v : value) : string :=
  match v with
  | VUndefined => "undefined"
  | VNull => "null"
  | VBool true => "true"
  | VBool false => "false"
  | VNum NaN => "NaN"
  | VNum (Num q) =>
      let r := Qred q in
      if Pos.eqb (Qden r) 1 then String_of_Z (Qnum r) else ""
  | VStr s => s
  | VArr l =>
      String.concat ","
        (map (fun x => match x with
                       | VUndefined | VNull => ""
                       | _ => toString x
                       end) l)
  | VObj _ => "[object Object]"
  end.

(** The properties of [Object.prototype]; the functions among them, and
    the prototype itself under [__proto__], are objects without fields
    here. *)
Definition prototypeNames : list string :=
  ["constructor"; "__defineGetter__"; "__defineSetter__";
   "hasOwnProperty"; "__lookupGetter__"; "__lookupSetter__";
   "isPrototypeOf"; "propertyIsEnumerable"; "toString"; "valueOf";
   "__proto__"; "toLocaleString"].

Definition host : Host :=
  {| ToString := toString;
     localeCompare := fun a b => compare_Z (String.compare a b);
     Object_prototype :=
       fun k => if existsb (String.eqb k) prototypeNames then VObj []
                else VUndefined;
     JournalEntryType_Receipt := VStr "Receipt";
     JournalEntryType_Payment := VStr "Payment";
     JournalEntryType_Expense := VStr "Expense";
     JournalEntryType_Journal := VStr "Journal" |}.

End ExampleHost.

(* ===================================================================== *)
(** * The payroll rules as the specification words them                   *)
(* ===================================================================== *)

Module PayrollSpec.

Import JS Payroll.
Local Open Scope Q_scope.

Definition Qsum (l : list Q) : Q := fold_right Qplus 0 l.

(** A record of employee [e] dated in the month [month] (0..11) of
    [year]: its date string starts with ["YYYY-MM"]. *)
Definition inMonth (e : Employee) (year month : Z)
    (employeeId date : string) : bool :=
  String.eqb employeeId (id e) && startsWith date (monthStr year month).

(** The number of attendance records of [e] in the month with status
    [s]. *)
Definition countStatus (s : AttendanceStatus) (st : State) (e : Employee)
    (year month : Z) : nat :=
  length
    (filter (fun r => inMonth e year month (att_employeeId r) (att_date r)
                      && AttendanceStatus_eqb (att_status r) s)
            (attendanceRecords st)).

(** The hourly overtime hours of [e] in the month. *)
Definition hourlyHours (st : State) (e : Employee) (year month : Z) : Q :=
  Qsum (map ot_hours
            (filter (fun r => inMonth e year month
                                      (ot_employeeId r) (ot_date r))
                    (overtimeRecords st))).

Definition pressRecordsOf (st : State) (e : Employee) (year month : Z)
    : list OvertimePressRecord :=
  filter (fun r => inMonth e year month (otp_employeeId r) (otp_date r))
         (overtimePressRecords st).

(** The fixed overtime rate per hour. *)
Definition fixedRate : Q := 7.

(** Pay of one press record as the specification words it: the stored
    pooled amount if one is present, otherwise hours at the fixed
    rate. *)
Definition pressPayIfPresent (r : OvertimePressRecord) : Q :=
  match otp_amount r with
  | Some a => a
  | None => otp_hours r * fixedRate
  end.

(** Pay of one press record with the guard of the code: the stored
    amount if one is present and greater than zero, otherwise hours at
    the fixed rate. *)
Definition pressPayIfPositive (r : OvertimePressRecord) : Q :=
  match otp_amount r with
  | Some a => if Qle_bool a 0 then otp_hours r * fixedRate else a
  | None => otp_hours r * fixedRate
  end.

(** The three formulas of a payroll row, for a given reading [pay] of
    the pay of a press record.  The advances deducted are those of the
    employee record, a missing field counting as 0. *)
Definition rowFormulas (pay : OvertimePressRecord -> Q) (st : State)
    (year month : Z) (row : Row) : Prop :=
  let e := employee row in
  deductions row ==
    (Q_of_nat (countStatus Absent st e year month)
     + 0.5 * Q_of_nat (countStatus HalfDay st e year month))
    * (basicSalary e / 30)
  /\ otAmount row ==
       hourlyHours st e year month * fixedRate
       + Qsum (map pay (pressRecordsOf st e year month))
  /\ netPayableSalary row ==
       basicSalary e + allowance e + otherExps e + otAmount row
       - deductions row
       - match advances e with Some a => a | None => 0 end.

(** Every active employee has a row, and every row obeys the formulas. *)
Definition payrollFormulas (pay : OvertimePressRecord -> Q)
    (h : JSDate.Host) (st : State) (year month : Z) : Prop :=
  (forall e, In e (employees st) -> status e = "Active"%string ->
     exists row, In row (reportData h st year month "")
                 /\ employee row = e)
  /\ (forall filterEmployeeId row,
        In row (reportData h st year month filterEmployeeId) ->
        In (employee row) (employees st)
        /\ status (employee row) = "Active"%string
        /\ rowFormulas pay st year month row).

(** The length of a year of service, in milliseconds. *)
Definition msPerYear : Q := 1000 * 60 * 60 * 24 * 365.25.

End PayrollSpec.

(** The accrual claims of the specification, as predicates on a row. *)

Module AccrualSpec.

Import JS Payroll PayrollSpec.
Local Open Scope Q_scope.

(** "Zero accrual before one year of service", for an employee of either
    type. *)
Definition zeroBelowOneYear (h : JSDate.Host) (st : State)
    (year month : Z) (e : Employee) : Prop :=
  forall y, yearsOfService h year month (joiningDate e) = Num y ->
            y < 1 ->
            num_eq (gratuityAmount (payrollRow h st year month e)) (Num 0).

(** "Gratuity accrued = 2 x 600 = 1200; leave accrued = 1200". *)
Definition accruesTwoYears (h : JSDate.Host) (st : State)
    (year month : Z) (e : Employee) : Prop :=
  num_eq (gratuityAmount (payrollRow h st year month e)) (Num 1200)
  /\ num_eq (leaveSalaryAccrued (payrollRow h st year month e)) (Num 1200).

(** The calendar day two years before the last day of the month
    [month] (0..11) of [year], as a time value at UTC midnight. *)
Definition twoYearsBeforeMonthEnd (year month : Z) : Z :=
  JSDate.utcMidnight (year - 2) (month + 1) (JSDate.daysInMonth year month).

(** Example records. *)
Definition employeeOf (ident type joining : string) (basic : Q)
    : Employee :=
  {| id := ident; status := "Active"; employeeType := type;
     joiningDate := joining; basicSalary := basic; allowance := 0;
     otherExps := 0; advances := None |}.

Definition emptyState (es : list Employee) : State :=
  {| employees := es; attendanceRecords := [];
     overtimeRecords := []; overtimePressRecords := [] |}.

(** A press record with two hours and a stored amount of zero. *)
Definition zeroPoolState : State :=
  {| employees := [employeeOf "E1" "Labour" "2020-01-01" 3000];
     attendanceRecords := [];
     overtimeRecords := [];
     overtimePressRecords :=
       [{| otp_employeeId := "E1"; otp_date := "2024-01-10";
           otp_hours := 2; otp_amount := Some 0 |}] |}.

(** 1 for a leap year, 0 otherwise. *)
Definition leapDay (y : Z) : Z := if JSDate.InLeapYear y then 1%Z else 0%Z.

(** Local time six hours ahead of UTC. *)
Definition sixHoursAhead : JSDate.Host :=
  {| JSDate.LocalTZA := fun _ => 21600000%Z;
     JSDate.Date_parse := ExampleHost.parseIsoDate |}.

End AccrualSpec.

(* ===================================================================== *)
(** * Shapes of states, payloads and actions                              *)
(* ===================================================================== *)

Module StoreSpec.

Import JS Value Store.
Local Open Scope string_scope.

Definition is_object (v : value) : bool :=
  match v with
  | VObj _ => true
  | _ => false
  end.

Definition is_array (v : value) : bool :=
  match v with
  | VArr _ => true
  | _ => false
  end.

(** An array of records. *)
Definition arrayOfObjects (v : value) : bool :=
  match v with
  | VArr l => forallb is_object l
  | _ => false
  end.

(** A favourite: an object whose [date] is a string. *)
Definition is_favorite (v : value) : bool :=
  match v with
  | VObj o => match get "date" o with VStr _ => true | _ => false end
  | _ => false
  end.

Definition arrayOfFavorites (v : value) : bool :=
  match v with
  | VArr l => forallb is_favorite l
  | _ => false
  end.

Definition plannerIdKeys : list string :=
  ["plannerCustomerIds"; "plannerSupplierIds"; "plannerExpenseAccountIds"].

(** A state of the shape of [AppState]: every entity collection is an
    array of records, the favourites are dated, the planner id lists are
    arrays. *)
Definition wf_state (st : AppState) : bool :=
  forallb (fun k => arrayOfObjects (get k st)) storedEntities
  && arrayOfFavorites (get "favoriteCombinations" st)
  && forallb (fun k => is_array (get k st)) plannerIdKeys.

(** The shape that a well-formed state keeps at key [k]. *)
Definition shapeOk (k : string) (v : value) : bool :=
  if mem k storedEntities then arrayOfObjects v
  else if String.eqb k "favoriteCombinations" then arrayOfFavorites v
  else if mem k plannerIdKeys then is_array v
  else true.

(** A field of a payload that is missing or [null], or has the shape
    [ok]. *)
Definition absentOr (ok : value -> bool) (v : value) : bool :=
  match v with
  | VUndefined | VNull => true
  | _ => ok v
  end.

(** A snapshot of the shape of [AppState], in which any key may be
    missing or [null]. *)
Definition wf_payload (fs : obj) : bool :=
  forallb (fun k => absentOr arrayOfObjects (get k fs)) storedEntities
  && absentOr arrayOfFavorites (get "favoriteCombinations" fs)
  && forallb (fun k => absentOr is_array (get k fs)) plannerIdKeys.

(** A journal entry: a record whose [voucherId] is a string. *)
Definition is_journalEntry (v : value) : bool :=
  match v with
  | VObj o => match get "voucherId" o with VStr _ => true | _ => false end
  | _ => false
  end.

Definition plannerDataKeys : list string :=
  ["plannerData"; "plannerLastWeeklyReset"; "plannerLastMonthlyReset"].

(** An action of the type [Action], the entity names being [names]. *)
Fixpoint typedOver (names : list string) (a : Action) : bool :=
  match a with
  | ADD_ENTITY entity data =>
      mem entity names
      && (if String.eqb entity "journalEntries"
          then is_journalEntry data else is_object data)
  | UPDATE_ENTITY entity data => mem entity names && is_object data
  | DELETE_ENTITY entity _ => mem entity names
  | RESTORE_STATE payload =>
      match payload with
      | VObj fs => if has_key "customers" fs then wf_payload fs else true
      | _ => true
      end
  | TOGGLE_FAVORITE_COMBINATION date =>
      match date with VStr _ => true | _ => false end
  | SET_PLANNER_DATA payload =>
      match payload with
      | VObj o => forallb (fun k => mem k plannerDataKeys) (keys o)
      | _ => false
      end
  | BATCH_UPDATE payload => forallb (typedOver names) payload
  | HARD_RESET_TRANSACTIONS => true
  | ADD_PLANNER_ENTITY _ _ => true
  | REMOVE_PLANNER_ENTITY _ _ => true
  | OtherAction _ _ => true
  end.

(** A record as the overtime register adds it. *)
Definition overtimeRecord : value :=
  VObj [("id", VStr "OT-E1-2024-01-05"); ("employeeId", VStr "E1");
        ("date", VStr "2024-01-05"); ("hours", num_of_Z 2)].

(** An action of the type [Action]. *)
Definition typed : Action -> bool := typedOver EntityName.

(** An action of the type [Action] that names only collections that the
    state of the provider holds. *)
Definition supported : Action -> bool := typedOver storedEntities.

(** A supported action on a well-formed state returns a well-formed
    state. *)
Definition preserves (h : Host) (a : Action) : Prop :=
  forall st, wf_state st = true -> supported a = true ->
    exists st', dataReducer h st a = Ok st' /\ wf_state st' = true.

(** ** [HARD_RESET_TRANSACTIONS] *)

(** The transactional collections as the specification lists them. *)
Definition transactionalAsClaimed : list string :=
  ["salesInvoices"; "originalPurchases"; "finishedGoodsPurchases";
   "packingMaterialPurchases"; "journalEntries"; "productions";
   "logisticsEntries"; "attendanceRecords"; "salaryPayments"; "hrTasks";
   "hrEnquiries"; "guaranteeCheques"].

(** All document-numbering counters of the state. *)
Definition allCounters : list string :=
  ["nextInvoiceNumber"; "nextOngoingOrderNumber";
   "nextFinishedGoodsPurchaseNumber"; "nextPackingMaterialPurchaseNumber";
   "nextLogisticsSNo"; "nextHRTaskId"; "nextHREnquiryId";
   "nextGuaranteeChequeSNo"; "nextReceiptVoucherNumber";
   "nextPaymentVoucherNumber"; "nextExpenseVoucherNumber";
   "nextJournalVoucherNumber"; "nextTestEntryNumber"].

(** The master data. *)
Definition masterData : list string :=
  ["customers"; "suppliers"; "vendors"; "subSuppliers"; "employees";
   "banks"; "cashAccounts"; "originalTypes"; "originalProducts";
   "divisions"; "subDivisions"; "warehouses"; "sections"; "categories";
   "items"; "logos"; "assetTypes"; "commissionAgents";
   "freightForwarders"; "clearingAgents"; "loanAccounts";
   "capitalAccounts"; "investmentAccounts"; "expenseAccounts";
   "inventoryAccounts"; "packingMaterialInventoryAccounts";
   "fixedAssetAccounts"; "accumulatedDepreciationAccounts";
   "receivableAccounts"; "revenueAccounts"; "payableAccounts";
   "vehicles"].

(** The reset as the specification words it. *)
Definition resetAsClaimed (st st' : AppState) : Prop :=
  (forall k, In k transactionalAsClaimed -> get k st' = VArr [])
  /\ (forall k, In k allCounters -> get k st' = one)
  /\ (forall k, In k masterData -> get k st' = get k st).

(** The keys that the reset leaves alone besides the master data. *)
Definition keptByReset : list string :=
  ["guaranteeCheques"; "customsDocuments"; "fixedAssets";
   "packingMaterialItems"; "nextGuaranteeChequeSNo"; "plannerCustomerIds";
   "plannerSupplierIds"; "plannerExpenseAccountIds"].

(** A state with one guarantee cheque, whose counter stands at 2. *)
Definition oneChequeState : AppState :=
  set "nextGuaranteeChequeSNo" (num_of_Z 2)
    (set "guaranteeCheques" (VArr [VObj [("id", VStr "GC-1")]])
         getInitialState).

(** ** [ADD_ENTITY] of a journal entry *)

Definition voucherCounters : list string :=
  ["nextReceiptVoucherNumber"; "nextPaymentVoucherNumber";
   "nextExpenseVoucherNumber"; "nextJournalVoucherNumber"].

(** The voucher series: the entry type, the prefix of the voucher id and
    the counter of each. *)
Definition voucherSeries (h : Host) : list (value * string * string) :=
  [(JournalEntryType_Receipt h, "RV-", "nextReceiptVoucherNumber");
   (JournalEntryType_Payment h, "PV-", "nextPaymentVoucherNumber");
   (JournalEntryType_Expense h, "EV-", "nextExpenseVoucherNumber");
   (JournalEntryType_Journal h, "JV-", "nextJournalVoucherNumber")].

(** The entry [d] belongs to the series of [tag] and [prefix]. *)
Definition inSeries (d : obj) (tag : value) (prefix : string) : bool :=
  strict_eq (get "entryType" d) tag
  && match get "voucherId" d with
     | VStr s => startsWith s prefix
     | _ => false
     end.

(** The counter of the first series that the entry belongs to. *)
Fixpoint selected (d : obj) (series : list (value * string * string))
    : option string :=
  match series with
  | [] => None
  | (tag, prefix, counter) :: rest =>
      if inSeries d tag prefix then Some counter else selected d rest
  end.

(** Some journal entry of [l] already carries the voucher id of [d]. *)
Definition voucherKnown (l : list value) (d : obj) : bool :=
  existsb (fun je => match je with
                     | VObj o => strict_eq (get "voucherId" o)
                                           (get "voucherId" d)
                     | _ => false
                     end) l.

(** ** [convertUndefinedToNull] *)

(** No field of an object, at any depth, is [undefined]. *)
Fixpoint noUndefinedField (v : value) : bool :=
  match v with
  | VArr l => forallb noUndefinedField l
  | VObj o =>
      forallb (fun kv => match kv with
                         | (_, VUndefined) => false
                         | (_, x) => noUndefinedField x
                         end) o
  | _ => true
  end.

(** [nulled v v']: [v'] is [v] with every [undefined] field value
    replaced by [null], at any depth, and nothing else changed. *)
#[warnings="-register-all"]
Inductive nulled : value -> value -> Prop :=
| nulled_undefined : nulled VUndefined VUndefined
| nulled_null : nulled VNull VNull
| nulled_bool b : nulled (VBool b) (VBool b)
| nulled_num n : nulled (VNum n) (VNum n)
| nulled_str s : nulled (VStr s) (VStr s)
| nulled_arr l l' : Forall2 nulled l l' -> nulled (VArr l) (VArr l')
| nulled_obj o o' :
    Forall2 (fun kv kv' =>
               fst kv = fst kv'
               /\ ((snd kv = VUndefined /\ snd kv' = VNull)
                   \/ (snd kv <> VUndefined /\ nulled (snd kv) (snd kv'))))
            o o' ->
    nulled (VObj o) (VObj o').

(** The two fields of a snapshot that [processState] walks. *)
Definition restorable (fs : obj) : bool :=
  absentOr arrayOfObjects (get "productions" fs)
  && absentOr arrayOfObjects (get "items" fs).

Definition absent (v : value) : bool :=
  match v with
  | VUndefined | VNull => true
  | _ => false
  end.

End StoreSpec.

Module SyncSpec.

Import JS Value Store Sync.

(** A provider that has loaded the initial state. *)
Definition loaded : Provider :=
  {| state := getInitialState;
     isLocalChange := false;
     isUpdatingFromFirestore := false;
     isFirestoreLoaded := true;
     authLoading := false;
     signedIn := true;
     saveStatus := synced;
     written := [] |}.

End SyncSpec.

(* ===================================================================== *)
(** * Records of a collection                                             *)
(* ===================================================================== *)

From Stdlib Require Import Permutation.

Module ReducerSpec.

Import JS Value Store StoreSpec.
Local Open Scope string_scope.

(** [item.k] of a record; [undefined] on anything that is no object. *)
Definition field (k : string) (item : value) : value :=
  match item with
  | VObj o => get k o
  | _ => VUndefined
  end.

(** The record carries the id [id] ([item.id === id]). *)
Definition hasId (id : value) (item : value) : bool :=
  strict_eq (field "id" item) id.

(** [{...item, ...data}] where the ids agree, [item] elsewhere. *)
Definition merged (data : obj) (item : value) : value :=
  if hasId (get "id" data) item then VObj (set_all data (spread item))
  else item.

(** A favourite dated [date]. *)
Definition datedAt (date : value) (fav : value) : bool :=
  strict_eq (field "date" fav) date.

(** ** [processState] on arrays of records *)

(** One step of the [forEach] over the productions: the quantity of the
    production is added to the running total of its item. *)
Definition tallyStep (h : Host) (byItem : obj) (p : value) : obj :=
  let key := to_str h (field "itemId" p) in
  dict_set key
           (plus h (js_or (dict_get h key byItem) (num_of_Z 0))
                 (field "quantityProduced" p))
           byItem.

(** [productionsByItem] *)
Definition tally (h : Host) (productions : list value) : obj :=
  fold_left (tallyStep h) productions [].

(** [{...item, nextBaleNumber: (item.openingStock || 0) + totalProduced + 1}] *)
Definition numbered (h : Host) (byItem : obj) (item : value) : value :=
  VObj (set "nextBaleNumber"
            (plus h (plus h (js_or (field "openingStock" item) (num_of_Z 0))
                            (js_or (dict_get h (to_str h (field "id" item))
                                             byItem)
                                   (num_of_Z 0)))
                  one)
            (spread item)).

(** A production of an item named by a string, with a numeric
    quantity. *)
Definition isProduction (p : value) : bool :=
  match field "itemId" p, field "quantityProduced" p with
  | VStr _, VNum (Num _) => is_object p
  | _, _ => false
  end.

(** What a production adds to the item [i]. *)
Definition quantityOf (i : string) (p : value) : Q :=
  match field "itemId" p, field "quantityProduced" p with
  | VStr s, VNum (Num q) => if String.eqb s i then q else 0
  | _, _ => 0
  end.

(** The quantity produced of the item [i] over all productions. *)
Definition produced (i : string) (productions : list value) : Q :=
  fold_right (fun p acc => quantityOf i p + acc) 0 productions.

(** The opening stock of an item: a number, nothing where the field is
    missing or null. *)
Definition openingStockOf (item : value) : option Q :=
  match field "openingStock" item with
  | VNum (Num a) => Some a
  | VUndefined | VNull => Some 0
  | _ => None
  end.

(** The keys of the object literal of [RESTORE_STATE]. *)
Definition restoreKeys : list string :=
  (restoreOrKeys ++ restoreNullishKeys ++ restorePlannerKeys)%list.

(** No string occurs twice. *)
Fixpoint distinct (l : list string) : bool :=
  match l with
  | [] => true
  | k :: l' => negb (mem k l') && distinct l'
  end.

End ReducerSpec.

(* ===================================================================== *)
(** * Runs of the provider                                                *)
(* ===================================================================== *)

Module SyncRun.

Import JS Value Store StoreSpec ReducerSpec Sync.
Local Open Scope js_scope.
Local Open Scope string_scope.

(** What happens to a provider: a component dispatches, the listener is
    notified (of a document, or of its absence), the save effect runs. *)
Inductive Event : Type :=
| Dispatch (a : Action)
| Snapshot (doc : option obj)
| Effect.

Definition step (h : Host) (e : Event) (p : Provider) : result Provider :=
  match e with
  | Dispatch a => wrappedDispatch h a p
  | Snapshot doc => onSnapshot h doc p
  | Effect => Ok (saveEffect p)
  end.

Fixpoint run (h : Host) (es : list Event) (p : Provider)
    : result Provider :=
  match es with
  | [] => Ok p
  | e :: es' => p' <- step h e p ;; run h es' p'
  end.

(** A division: a record whose id is a string. *)
Definition isDivision (v : value) : bool :=
  match field "id" v with
  | VStr _ => is_object v
  | _ => false
  end.

End SyncRun.

(* ===================================================================== *)
(** * The registers: handlers that dispatch to the reducer                *)
(* ===================================================================== *)

(** [OvertimeRegister.tsx], [OvertimePressRegister] and the payment of
    [SalaryCalculator.tsx].  A handler reads the state of the last
    render and dispatches at most one action; it is modelled as the
    function from that state to the state after the dispatch.  What the
    handlers take from the page is an argument: the number that
    [parseFloat] or [Number] made of an input, the answer to
    [window.confirm], today's date. *)

Module Registers.

Import JS Value Store ReducerSpec.
Local Open Scope js_scope.
Local Open Scope string_scope.

(** [`${record.employeeId}-${record.date}`] *)
Definition recordKey (h : Host) (record : value) : result string :=
  employeeId <- get_prop record "employeeId" ;;
  date <- get_prop record "date" ;;
  Ok (to_str h employeeId ++ "-" ++ to_str h date).

(** [overtimeMap]: a [Map] from the key of a record to the record; a
    later record of a key replaces an earlier one. *)
Definition overtimeMap (h : Host) (records : value) : result obj :=
  l <- as_array records ;;
  fold_r (fun map record =>
            key <- recordKey h record ;; Ok (set key record map))
         l [].

(** [`${year}-${String(month + 1).padStart(2, '0')}-${String(day).padStart(2, '0')}`] *)
Definition dateStr (year month day : Z) : string :=
  Payroll.monthStr year month ++ "-" ++ padStart2 (String_of_Z day).

(** [isNaN(hours) || hours === 0] *)
Definition noHours (hours : number) : bool :=
  match hours with
  | NaN => true
  | Num q => Qeq_bool q 0
  end.

(** [v?.k] *)
Definition opt_prop (v : value) (k : string) : result value :=
  match v with
  | VUndefined | VNull => Ok VUndefined
  | _ => get_prop v k
  end.

(** [handleOvertimeChange] and [handleGridChange]: one body, up to the
    prefix of the id and the collection.  [hours] is
    [parseFloat(value)]. *)
Definition gridChange (h : Host) (prefix entity : string)
    (state : AppState) (year month : Z) (employeeId : string) (day : Z)
    (hours : number) : result AppState :=
  map <- overtimeMap h (get entity state) ;;
  let date := dateStr year month day in
  let key := employeeId ++ "-" ++ date in
  let existingRecord := get key map in
  if noHours hours then
    if truthy existingRecord then
      ident <- get_prop existingRecord "id" ;;
      dataReducer h state (DELETE_ENTITY entity ident)
    else Ok state
  else
    existingId <- opt_prop existingRecord "id" ;;
    let record :=
      VObj [("id", js_or existingId
                         (VStr (prefix ++ employeeId ++ "-" ++ date)));
            ("employeeId", VStr employeeId);
            ("date", VStr date);
            ("hours", VNum hours)] in
    if truthy existingRecord
    then dataReducer h state (UPDATE_ENTITY entity record)
    else dataReducer h state (ADD_ENTITY entity record).

(** [handleOvertimeChange] of [OvertimeRegister.tsx] *)
Definition handleOvertimeChange (h : Host) :=
  gridChange h "OT-" "overtimeRecords".

(** [handleGridChange] of [OvertimePressRegister] *)
Definition handleGridChange (h : Host) :=
  gridChange h "OTP-" "overtimePressRecords".

(** The callback of [selectedWorkerIds.map] in
    [handleSaveProductionTeam]. *)
Definition teamAction (h : Host) (map : obj) (date : string)
    (individualShare : number) (workerId : string) : result Action :=
  let existing := get (workerId ++ "-" ++ date) map in
  existingId <- opt_prop existing "id" ;;
  existingHours <- opt_prop existing "hours" ;;
  existingAmount <- opt_prop existing "amount" ;;
  let record :=
    VObj [("id", js_or existingId (VStr ("OTP-" ++ workerId ++ "-" ++ date)));
          ("employeeId", VStr workerId);
          ("date", VStr date);
          ("hours", js_or existingHours (num_of_Z 0));
          ("amount", plus h (js_or existingAmount (num_of_Z 0))
                          (VNum individualShare))] in
  Ok (if truthy existing
      then UPDATE_ENTITY "overtimePressRecords" record
      else ADD_ENTITY "overtimePressRecords" record).

Fixpoint teamActions (h : Host) (map : obj) (date : string)
    (individualShare : number) (selectedWorkerIds : list string)
    : result (list Action) :=
  match selectedWorkerIds with
  | [] => Ok []
  | workerId :: rest =>
      a <- teamAction h map date individualShare workerId ;;
      l <- teamActions h map date individualShare rest ;;
      Ok (a :: l)
  end.

(** [handleSaveProductionTeam]: [extra] and [rate] are
    [Number(extraBales)] and [Number(ratePerExtra)], [confirmed] the
    answer to [window.confirm].  The division is by the size of a team
    that is not empty. *)
Definition handleSaveProductionTeam (h : Host) (state : AppState)
    (extra rate : number) (selectedWorkerIds : list string)
    (date : string) (confirmed : bool) : result AppState :=
  map <- overtimeMap h (get "overtimePressRecords" state) ;;
  if le extra (Num 0) then Ok state
  else if Nat.eqb (length selectedWorkerIds) 0 then Ok state
  else
    let totalPool := mul extra rate in
    let individualShare :=
      match totalPool with
      | Num t => Num (t / inject_Z (Z.of_nat (length selectedWorkerIds)))
      | NaN => NaN
      end in
    if negb confirmed then Ok state
    else
      batchActions <-
        teamActions h map date individualShare selectedWorkerIds ;;
      dataReducer h state (BATCH_UPDATE batchActions).

(** [l.find(f)] for a callback that may throw: the first element that
    satisfies it, or [undefined]. *)
Fixpoint find_r (f : value -> result bool) (l : list value)
    : result value :=
  match l with
  | [] => Ok VUndefined
  | x :: l' => b <- f x ;; if b then Ok x else find_r f l'
  end.

(** [handleConfirmPayment] of [SalaryCalculator.tsx]: [payingRow] is the
    row being paid, if any, [today] is
    [new Date().toISOString().split('T')[0]]. *)
Definition handleConfirmPayment (h : Host) (state : AppState)
    (year month : Z) (payingRow : option (string * number))
    (method bankId today : string) : result AppState :=
  match payingRow with
  | None => Ok state
  | Some (employeeId, netSalary) =>
      let monthYear := Payroll.monthStr year month in
      let newPayment :=
        [("id", VStr ("SP-" ++ employeeId ++ "-" ++ monthYear));
         ("employeeId", VStr employeeId);
         ("monthYear", VStr monthYear);
         ("paymentDate", VStr today);
         ("paymentMethod", VStr method);
         ("bankId", if String.eqb method "Bank" then VStr bankId
                    else VUndefined);
         ("amountPaid", VNum netSalary)] in
      payments <- as_array (get "salaryPayments" state) ;;
      existingPayment <-
        find_r (fun p => ident <- get_prop p "id" ;;
                         Ok (strict_eq ident (get "id" newPayment)))
               payments ;;
      if truthy existingPayment
      then dataReducer h state
             (UPDATE_ENTITY "salaryPayments" (VObj newPayment))
      else dataReducer h state
             (ADD_ENTITY "salaryPayments" (VObj newPayment))
  end.

(** ** Records of a grid *)

(** A record made by a grid: employee and date are strings, and the id
    is the prefix followed by the key of the cell. *)
Definition isCellRecord (prefix : string) (v : value) : bool :=
  match v with
  | VObj o =>
      match get "employeeId" o, get "date" o, get "id" o with
      | VStr e, VStr d, VStr i => String.eqb i (prefix ++ e ++ "-" ++ d)
      | _, _, _ => false
      end
  | _ => false
  end.

(** The key of the cell of a record. *)
Definition keyOf (v : value) : string :=
  match field "employeeId" v, field "date" v with
  | VStr e, VStr d => e ++ "-" ++ d
  | _, _ => ""
  end.

(** The last record of the cell [k]. *)
Definition lastFound (k : string) (l : list value) : option value :=
  fold_left (fun acc r => if String.eqb (keyOf r) k then Some r else acc)
            l None.

(** What a grid shows in the cell [k]. *)
Definition cellAt (k : string) (l : list value) : value :=
  match lastFound k l with
  | Some r => r
  | None => VUndefined
  end.

(** The pooled amount of a record: 0 where there is none. *)
Definition amountOf (v : value) : Q :=
  match field "amount" v with
  | VNum (Num a) => a
  | _ => 0
  end.

(** A press record whose amount, if any, is a number. *)
Definition isPressRecord (v : value) : bool :=
  isCellRecord "OTP-" v
  && match field "amount" v with
     | VNum (Num _) | VUndefined | VNull => true
     | _ => false
     end.

(** The key of the cell of a worker on the day of the tool. *)
Definition workerKey (date workerId : string) : string :=
  workerId ++ "-" ++ date.

(** The share of a worker in the pool of a team of [n]. *)
Definition poolShare (extra rate : number) (n : nat) : number :=
  match mul extra rate with
  | Num t => Num (t / inject_Z (Z.of_nat n))
  | NaN => NaN
  end.

(** The record that [handleSaveProductionTeam] writes for a worker whose
    cell holds [existing] ([undefined] where it is empty). *)
Definition teamRecord (h : Host) (existing : value) (date : string)
    (share : number) (workerId : string) : obj :=
  [("id", VStr ("OTP-" ++ workerId ++ "-" ++ date));
   ("employeeId", VStr workerId);
   ("date", VStr date);
   ("hours", js_or (field "hours" existing) (num_of_Z 0));
   ("amount", plus h (js_or (field "amount" existing) (num_of_Z 0))
                   (VNum share))].

End Registers.

(* ===================================================================== *)
(** * The settlement register ([SettlementRegister])                      *)
(* ===================================================================== *)

Module Settlement.

Import JS.
Local Open Scope Q_scope.

(** The fields of an [Employee] that the settlement reads and writes;
    the paid amounts may be missing. *)
Record Employee : Type := {
  joiningDate : string;
  employeeType : string;
  gratuityPaid : option Q;
  leaveSalaryPaid : option Q;
}.

Record Stats : Type := {
  yearsOfService : number;
  totalAccruedGratuity : number;
  dueGratuity : number;
  totalAccruedLeave : number;
  dueLeave : number;
}.

(** [a - b] *)
Definition sub (a b : number) : number :=
  match a, b with
  | Num x, Num y => Num (x - y)
  | _, _ => NaN
  end.

(** [stats]; [today] is [new Date().getTime()]. *)
Definition stats (h : JSDate.Host) (today : Z)
    (selectedEmployee : option Employee) : option Stats :=
  match selectedEmployee with
  | None => None
  | Some e =>
      let joinDate :=
        match JSDate.Date_parse h (joiningDate e) with
        | Some t => Num (inject_Z t)
        | None => NaN
        end in
      let years :=
        match joinDate with
        | Num j =>
            Math_max (Num 0)
              (Num ((inject_Z today - j) / (1000 * 60 * 60 * 24 * 365.25)))
        | NaN => NaN
        end in
      let accruedGratuity :=
        if String.eqb (employeeType e) "Labour" then mul years (Num 600)
        else Num 0 in
      let accruedLeave := mul years (Num 600) in
      Some {| yearsOfService := years;
              totalAccruedGratuity := accruedGratuity;
              dueGratuity :=
                Math_max (Num 0)
                  (sub accruedGratuity
                       (Num (Payroll.opt_or0 (gratuityPaid e))));
              totalAccruedLeave := accruedLeave;
              dueLeave :=
                Math_max (Num 0)
                  (sub accruedLeave
                       (Num (Payroll.opt_or0 (leaveSalaryPaid e)))) |}
  end.

(** [Number(input) || 0] *)
Definition amountOr0 (n : number) : Q :=
  match n with
  | NaN => 0
  | Num q => Payroll.or0 q
  end.

(** [handleRecordSettlement]: the employee that is dispatched in
    [UPDATE_ENTITY], nothing where the handler returns early.
    [paidGratuity] and [paidLeave] are [Number] of the two inputs,
    [confirmed] is the answer to [window.confirm]. *)
Definition handleRecordSettlement (selectedEmployee : option Employee)
    (stats : option Stats) (paidGratuity paidLeave : number)
    (confirmed : bool) : option Employee :=
  match selectedEmployee, stats with
  | Some e, Some _ =>
      let gratuityToPay := amountOr0 paidGratuity in
      let leaveToPay := amountOr0 paidLeave in
      if Qle_bool gratuityToPay 0 && Qle_bool leaveToPay 0 then None
      else if negb confirmed then None
      else
        Some {| joiningDate := joiningDate e;
                employeeType := employeeType e;
                gratuityPaid :=
                  Some (Payroll.opt_or0 (gratuityPaid e) + gratuityToPay);
                leaveSalaryPaid :=
                  Some (Payroll.opt_or0 (leaveSalaryPaid e) + leaveToPay) |}
  | _, _ => None
  end.

End Settlement.

(* ===================================================================== *)
(** * The CSV reader of the bulk upload ([SetupModule.tsx], [parseCSV])   *)
(* ===================================================================== *)

(** A text is a string of bytes; the four characters the reader looks at
    are ASCII, so that on a UTF-8 text the fields read are the UTF-8
    fields. *)

Module Csv.

Local Open Scope string_scope.

Definition quote : ascii := "034"%char.
Definition comma : ascii := ","%char.
Definition CR : ascii := "013"%char.
Definition LF : ascii := "010"%char.

(** The variables of the loop of [parseCSV]. *)
Record Parser : Type := {
  rows : list (list string);
  currentRow : list string;
  currentField : string;
  inQuotes : bool;
}.

(** [currentField += char] *)
Definition addChar (char : ascii) (p : Parser) : Parser :=
  {| rows := rows p;
     currentRow := currentRow p;
     currentField := currentField p ++ String char EmptyString;
     inQuotes := inQuotes p |}.

(** [inQuotes = !inQuotes] *)
Definition toggle (p : Parser) : Parser :=
  {| rows := rows p;
     currentRow := currentRow p;
     currentField := currentField p;
     inQuotes := negb (inQuotes p) |}.

(** [currentRow.push(currentField); currentField = ''] *)
Definition pushField (p : Parser) : Parser :=
  {| rows := rows p;
     currentRow := (currentRow p ++ [currentField p])%list;
     currentField := EmptyString;
     inQuotes := inQuotes p |}.

(** [if (currentField || currentRow.length > 0) { currentRow.push(currentField);
      rows.push(currentRow); currentRow = []; currentField = ''; }] *)
Definition endRow (p : Parser) : Parser :=
  if negb (String.eqb (currentField p) EmptyString)
     || negb (Nat.eqb (length (currentRow p)) 0)
  then {| rows := (rows p ++ [currentRow p ++ [currentField p]])%list;
          currentRow := [];
          currentField := EmptyString;
          inQuotes := inQuotes p |}
  else p.

(** The loop over the characters of the text; a doubled quote and a
    carriage return followed by a line feed take two characters. *)
Fixpoint scan (text : string) (p : Parser) : Parser :=
  match text with
  | EmptyString => p
  | String char rest =>
      if Ascii.eqb char quote then
        match rest with
        | String next rest' =>
            if Ascii.eqb next quote then scan rest' (addChar quote p)
            else scan rest (toggle p)
        | EmptyString => scan rest (toggle p)
        end
      else if Ascii.eqb char comma && negb (inQuotes p) then
        scan rest (pushField p)
      else if (Ascii.eqb char CR || Ascii.eqb char LF)
              && negb (inQuotes p) then
        let p' := endRow p in
        if Ascii.eqb char CR then
          match rest with
          | String next rest' =>
              if Ascii.eqb next LF then scan rest' p' else scan rest p'
          | EmptyString => scan rest p'
          end
        else scan rest p'
      else scan rest (addChar char p)
  end.

(** [currentField += f], character by character. *)
Definition addText (f : string) (p : Parser) : Parser :=
  {| rows := rows p;
     currentRow := currentRow p;
     currentField := currentField p ++ f;
     inQuotes := inQuotes p |}.

Definition start : Parser :=
  {| rows := []; currentRow := []; currentField := EmptyString;
     inQuotes := false |}.

(** [parseCSV(text)] *)
Definition parseCSV (text : string) : list (list string) :=
  rows (endRow (scan text start)).

(** ** Writing a table *)

Fixpoint all (ok : ascii -> bool) (s : string) : bool :=
  match s with
  | EmptyString => true
  | String c s' => ok c && all ok s'
  end.

(** A field without a quote. *)
Definition quoteFree (f : string) : bool :=
  all (fun c => negb (Ascii.eqb c quote)) f.

(** A field that needs no quotes: no quote, comma or line break. *)
Definition plain (f : string) : bool :=
  all (fun c => negb (Ascii.eqb c quote || Ascii.eqb c comma
                      || Ascii.eqb c CR || Ascii.eqb c LF)) f.

(** A field as a writer puts it: in quotes where it is not plain. *)
Definition written (f : string) : string :=
  if plain f then f
  else String quote EmptyString ++ f ++ String quote EmptyString.

(** [rows.map(row => row.join(',')).join('\n')], as [downloadTemplate]
    joins its two rows, with every field written. *)
Definition csvText (table : list (list string)) : string :=
  String.concat (String LF EmptyString)
    (map (fun row => String.concat (String comma EmptyString)
                                   (map written row))
         table).

(** A row that can be written and read back: it has a field, it is not
    the single empty field (which writes as an empty line), and no field
    holds a quote. *)
Definition readable (row : list string) : bool :=
  match row with
  | [] => false
  | [f] => negb (String.eqb f EmptyString) && quoteFree f
  | _ => forallb quoteFree row
  end.

End Csv.

(* ===================================================================== *)
(** * Properties of the payroll calculator                                *)
(* ===================================================================== *)

Section PayrollFacts.

Import JS Payroll PayrollSpec.
Local Open Scope Q_scope.

Lemma fold_left_Qsum (A : Type) (f : A -> Q) (l : list A) (a : Q) :
  fold_left (fun sum r => sum + f r) l a == a + Qsum (map f l).
Proof.
  revert a; induction l as [|x l IH]; intros a; simpl.
  - ring.
  - rewrite IH. ring.
Qed.

Lemma pressStep_pay (sum : Q) (r : OvertimePressRecord) :
  pressStep sum r == sum + pressPayIfPositive r.
Proof.
  unfold pressStep, pressPayIfPositive, fixedRate.
  destruct (otp_amount r) as [a|]; [destruct (Qle_bool a 0)|]; simpl; ring.
Qed.

Lemma fold_left_pressStep (l : list OvertimePressRecord) (a : Q) :
  fold_left pressStep l a == a + Qsum (map pressPayIfPositive l).
Proof.
  revert a; induction l as [|x l IH]; intros a; simpl.
  - ring.
  - rewrite IH, pressStep_pay. ring.
Qed.

Lemma filter_filter (A : Type) (p q : A -> bool) (l : list A) :
  filter q (filter p l) = filter (fun x => p x && q x) l.
Proof.
  induction l as [|x l IH]; simpl; [reflexivity|].
  destruct (p x); simpl; [destruct (q x)|]; rewrite IH; reflexivity.
Qed.

Lemma or0_eq (x : Q) : or0 x == x.
Proof.
  unfold or0. destruct (Qeq_bool x 0) eqn:E; [|reflexivity].
  apply Qeq_bool_eq in E. rewrite E. reflexivity.
Qed.

Lemma opt_or0_eq (a : option Q) :
  opt_or0 a == match a with Some x => x | None => 0 end.
Proof.
  unfold opt_or0. destruct a; [apply or0_eq|reflexivity].
Qed.

Lemma row_formulas (h : JSDate.Host) (st : State) (year month : Z)
    (e : Employee) :
  rowFormulas pressPayIfPositive st year month
              (payrollRow h st year month e).
Proof.
  unfold rowFormulas, payrollRow; cbn [employee deductions otAmount
    netPayableSalary].
  split; [|split].
  - unfold countStatus, absentDays, halfDays, attendanceForMonth, inMonth.
    rewrite !filter_filter. ring.
  - unfold hourlyHours, pressRecordsOf, otRecords, otPressRecords, inMonth,
      fixedRate.
    rewrite fold_left_Qsum, fold_left_pressStep. ring.
  - rewrite <- (opt_or0_eq (advances e)). ring.
Qed.

Lemma reportData_rows (h : JSDate.Host) (st : State) (year month : Z)
    (fid : string) (row : Row) :
  In row (reportData h st year month fid) ->
  exists e, row = payrollRow h st year month e
            /\ In e (employees st) /\ status e = "Active"%string.
Proof.
  unfold reportData. intros Hin.
  apply in_map_iff in Hin. destruct Hin as [e [<- He]].
  exists e. split; [reflexivity|].
  assert (Ha : In e (filter (fun emp => String.eqb (status emp) "Active")
                            (employees st))).
  { destruct (String.eqb fid ""); [exact He|].
    apply filter_In in He. exact (proj1 He). }
  apply filter_In in Ha. destruct Ha as [Hin Hs].
  split; [exact Hin|]. apply String.eqb_eq. exact Hs.
Qed.

End PayrollFacts.

Section PayrollClaims.

Import JS Payroll PayrollSpec AccrualSpec.
Local Open Scope Q_scope.

(** C1 (as amended).  For every active employee and target month the
    payroll row has: unpaid-day deduction = (number of Absent records
    + 0.5 x number of HalfDay records of that employee in that month)
    x (basicSalary / 30); overtime pay = hourly overtime hours x the fixed
    rate + for each press record its stored amount if one is present and
    greater than zero, otherwise its hours x the fixed rate; net payable
    = basicSalary + allowance + otherExps + overtime pay - deduction
    - the advances of the employee record (a missing advances counting
    as 0). *)
Theorem payroll_row_formulas (h : JSDate.Host) (st : State)
    (year month : Z) :
  payrollFormulas pressPayIfPositive h st year month.
Proof.
  split.
  - intros e Hin Hs.
    exists (payrollRow h st year month e). split; [|reflexivity].
    unfold reportData. rewrite String.eqb_refl.
    apply in_map. apply filter_In. split; [exact Hin|].
    apply String.eqb_eq. exact Hs.
  - intros fid row Hrow.
    destruct (reportData_rows _ _ _ _ _ _ Hrow) as [e [-> [Hin Hs]]].
    split; [exact Hin|]. split; [exact Hs|]. apply row_formulas.
Qed.

(** C1 as stated fails: a press record whose stored amount is present
    but zero is paid by the hour (2 hours: 14), not by its amount (0). *)
Lemma payroll_row_formulas_amount_zero :
  ~ payrollFormulas pressPayIfPresent ExampleHost.dates zeroPoolState 2024 0.
Proof.
  intros [_ H].
  specialize (H ""%string
    (payrollRow ExampleHost.dates zeroPoolState 2024 0
       (employeeOf "E1" "Labour" "2020-01-01" 3000))
    (or_introl eq_refl)).
  destruct H as [_ [_ [_ [Hot _]]]].
  vm_compute in Hot. discriminate Hot.
Qed.

Lemma gratuity_of_row (h : JSDate.Host) (st : State) (year month : Z)
    (e : Employee) :
  gratuityAmount (payrollRow h st year month e)
  = gratuityAccrued e (yearsOfService h year month (joiningDate e)).
Proof. reflexivity. Qed.

Lemma leave_of_row (h : JSDate.Host) (st : State) (year month : Z)
    (e : Employee) :
  leaveSalaryAccrued (payrollRow h st year month e)
  = mul (yearsOfService h year month (joiningDate e)) (Num 600).
Proof. reflexivity. Qed.

Lemma not_labour (e : Employee) :
  employeeType e <> "Labour"%string ->
  String.eqb (employeeType e) "Labour" = false.
Proof. intros H. apply String.eqb_neq. exact H. Qed.

Lemma Qle_bool_true (x y : Q) : x <= y -> Qle_bool x y = true.
Proof. intros H. apply Qle_bool_iff. exact H. Qed.

Lemma Qle_bool_false (x y : Q) : y < x -> Qle_bool x y = false.
Proof.
  intros H. destruct (Qle_bool x y) eqn:E; [|reflexivity].
  apply Qle_bool_iff in E. exfalso. apply (Qlt_not_le _ _ H E).
Qed.

(** C2.  For a non-Labour employee gratuity accrues at 21 days' wage per
    year of service for 1 to 5 years of service and at 30 days' wage per
    year beyond 5 years, with dailyWage = basicSalary / 30; with 3 years
    and basicSalary 3000 it is 6300, with 6 years and basicSalary 3000 it
    is 18000. *)
Theorem gratuity_non_labour (h : JSDate.Host) (st : State)
    (year month : Z) (e : Employee) (y : Q) :
  employeeType e <> "Labour"%string ->
  yearsOfService h year month (joiningDate e) = Num y ->
  let g := gratuityAmount (payrollRow h st year month e) in
  let dailyWage := basicSalary e / 30 in
  (1 <= y -> y <= 5 -> num_eq g (Num (dailyWage * 21 * y)))
  /\ (5 < y -> num_eq g (Num (dailyWage * 30 * y)))
  /\ (basicSalary e == 3000 -> y == 3 -> num_eq g (Num 6300))
  /\ (basicSalary e == 3000 -> y == 6 -> num_eq g (Num 18000)).
Proof.
  intros Ht Hy g dailyWage. subst g dailyWage.
  rewrite gratuity_of_row, Hy. unfold gratuityAccrued.
  rewrite (not_labour _ Ht). cbn [ge le mul num_eq].
  assert (H15 : 1 <= y -> y <= 5 ->
                num_eq (if Qle_bool 1 y
                        then if Qle_bool y 5
                             then Num (basicSalary e / 30 * 21 * y)
                             else Num (basicSalary e / 30 * 30 * y)
                        else Num 0)
                       (Num (basicSalary e / 30 * 21 * y))).
  { intros H1 H5. rewrite (Qle_bool_true H1), (Qle_bool_true H5).
    simpl. reflexivity. }
  assert (H6 : 5 < y ->
               num_eq (if Qle_bool 1 y
                       then if Qle_bool y 5
                            then Num (basicSalary e / 30 * 21 * y)
                            else Num (basicSalary e / 30 * 30 * y)
                       else Num 0)
                      (Num (basicSalary e / 30 * 30 * y))).
  { intros H5. rewrite (Qle_bool_false H5).
    rewrite Qle_bool_true; [simpl; reflexivity|].
    apply Qlt_le_weak. apply Qle_lt_trans with (y := 5); [|exact H5].
    unfold Qle; simpl; lia. }
  split; [exact H15|]. split; [exact H6|]. split.
  - intros Hb H3.
    rewrite Qle_bool_true by (rewrite H3; unfold Qle; simpl; lia).
    rewrite Qle_bool_true by (rewrite H3; unfold Qle; simpl; lia).
    cbn [num_eq]. rewrite Hb, H3. reflexivity.
  - intros Hb H6'.
    rewrite Qle_bool_true by (rewrite H6'; unfold Qle; simpl; lia).
    rewrite Qle_bool_false by (rewrite H6'; unfold Qlt; simpl; lia).
    cbn [num_eq]. rewrite Hb, H6'. reflexivity.
Qed.

(** Witness of C2: an Office employee with basicSalary 3000 who joined on
    2021-03-31, seen at the end of March 2024 six hours ahead of UTC,
    has exactly 3 years of service and a gratuity of 6300. *)
Lemma gratuity_non_labour_witness :
  num_eq (gratuityAmount
            (payrollRow sixHoursAhead
               (emptyState [employeeOf "E2" "Office" "2021-03-31" 3000])
               2024 2 (employeeOf "E2" "Office" "2021-03-31" 3000)))
         (Num 6300).
Proof.
  refine (proj1 (proj2 (proj2
    (@gratuity_non_labour sixHoursAhead
       (emptyState [employeeOf "E2" "Office" "2021-03-31" 3000])
       2024 2 (employeeOf "E2" "Office" "2021-03-31" 3000)
       (9467280000000 # 3155760000000) _ _))) _ _).
  - simpl. discriminate.
  - vm_compute. reflexivity.
  - reflexivity.
  - reflexivity.
Defined.

(** C3 (as amended).  For a non-Labour employee whose years of service
    at the end of the target month are less than 1 the gratuity accrued
    is zero; a Labour employee accrues 600 per year of service from the
    first day, with no threshold. *)
Theorem gratuity_below_one_year (h : JSDate.Host) (st : State)
    (year month : Z) (e : Employee) (y : Q) :
  yearsOfService h year month (joiningDate e) = Num y ->
  y < 1 ->
  let g := gratuityAmount (payrollRow h st year month e) in
  (employeeType e <> "Labour"%string -> g = Num 0)
  /\ (employeeType e = "Labour"%string -> g = Num (y * 600)).
Proof.
  intros Hy Hlt g. subst g. rewrite gratuity_of_row, Hy.
  unfold gratuityAccrued. split.
  - intros Ht. rewrite (not_labour _ Ht). cbn [ge].
    rewrite (Qle_bool_false Hlt). reflexivity.
  - intros Ht. rewrite Ht. reflexivity.
Qed.

Lemma gratuity_below_one_year_witness :
  gratuityAmount
    (payrollRow ExampleHost.dates
       (emptyState [employeeOf "E2" "Office" "2022-07-31" 3000])
       2023 0 (employeeOf "E2" "Office" "2022-07-31" 3000))
  = Num 0.
Proof.
  refine (proj1
    (@gratuity_below_one_year ExampleHost.dates
       (emptyState [employeeOf "E2" "Office" "2022-07-31" 3000])
       2023 0 (employeeOf "E2" "Office" "2022-07-31" 3000)
       (1589760000000 # 3155760000000) _ _) _).
  - vm_compute. reflexivity.
  - reflexivity.
  - simpl. discriminate.
Defined.

(** C3 as stated fails for a Labour employee: joined on 2022-07-31 and
    seen at the end of January 2023 (184 days, about 0.504 years), the
    gratuity accrued is about 302.26, not zero. *)
Lemma gratuity_below_one_year_labour :
  ~ zeroBelowOneYear ExampleHost.dates
      (emptyState [employeeOf "E3" "Labour" "2022-07-31" 1500])
      2023 0 (employeeOf "E3" "Labour" "2022-07-31" 1500).
Proof.
  intros H.
  specialize (H (1589760000000 # 3155760000000)).
  assert (G := H ltac:(vm_compute; reflexivity) ltac:(reflexivity)).
  vm_compute in G. discriminate G.
Qed.

(** ** Two calendar years of service *)

Local Open Scope Z_scope.

Lemma InLeapYear_cases (y : Z) :
  (leapDay y = 1 /\ y mod 4 = 0 /\ (y mod 100 <> 0 \/ y mod 400 = 0))
  \/ (leapDay y = 0
      /\ (y mod 4 <> 0 \/ (y mod 100 = 0 /\ y mod 400 <> 0))).
Proof.
  unfold leapDay, JSDate.InLeapYear.
  destruct (Z.eqb_spec (y mod 4) 0), (Z.eqb_spec (y mod 100) 0),
    (Z.eqb_spec (y mod 400) 0); simpl; lia.
Qed.

Lemma DayFromYear_succ (y : Z) :
  JSDate.DayFromYear (y + 1) - JSDate.DayFromYear y = 365 + leapDay y.
Proof.
  destruct (InLeapYear_cases y) as [[-> H]|[-> H]];
    unfold JSDate.DayFromYear; Z.div_mod_to_equations; lia.
Qed.

Lemma leap_not_consecutive (y : Z) : leapDay y + leapDay (y + 1) <= 1.
Proof.
  destruct (InLeapYear_cases y) as [[-> H]|[-> H]];
  destruct (InLeapYear_cases (y + 1)) as [[-> H']|[-> H']];
    Z.div_mod_to_equations; lia.
Qed.

(** From a calendar day to the same day two years later there are 730
    or 731 days. *)
Lemma two_years_days (year month : Z) :
  99 < year -> 0 <= month <= 11 ->
  let days := JSDate.MakeDay year (month + 1) 0
              - JSDate.MakeDay (year - 2) month
                               (JSDate.daysInMonth year month) in
  days = 730 \/ days = 731.
Proof.
  intros Hy Hm days. subst days.
  unfold JSDate.daysInMonth.
  replace ((0 <=? year) && (year <=? 99))%bool with false
    by (symmetry; apply Bool.andb_false_iff; right; apply Z.leb_gt; lia).
  unfold JSDate.MakeDay.
  pose proof (DayFromYear_succ year) as S0.
  pose proof (DayFromYear_succ (year - 1)) as S1.
  pose proof (DayFromYear_succ (year - 2)) as S2.
  replace (year - 1 + 1) with year in S1 by lia.
  replace (year - 2 + 1) with (year - 1) in S2 by lia.
  pose proof (leap_not_consecutive (year - 1)) as N1.
  pose proof (leap_not_consecutive (year - 2)) as N2.
  replace (year - 1 + 1) with year in N1 by lia.
  replace (year - 2 + 1) with (year - 1) in N2 by lia.
  unfold leapDay in *.
  assert (M : month = 0 \/ month = 1 \/ month = 2 \/ month = 3
              \/ month = 4 \/ month = 5 \/ month = 6 \/ month = 7
              \/ month = 8 \/ month = 9 \/ month = 10 \/ month = 11)
    by lia.
  repeat (destruct M as [->|M]); try subst month;
    cbn [Z.add Z.div Z.modulo Z.div_eucl Z.pos_div_eucl Z.leb Z.ltb
         Z.compare Pos.compare Pos.compare_cont Z.sub Z.opp Z.pos_sub
         Z.succ_double Z.pred_double Z.double Pos.add Pos.succ
         Pos.pred_double Z.mul Pos.mul JSDate.monthStart fst snd];
    rewrite ?Z.add_0_r;
    destruct (JSDate.InLeapYear year), (JSDate.InLeapYear (year - 1)),
      (JSDate.InLeapYear (year - 2)); lia.
Qed.

Local Open Scope Q_scope.

Lemma msPerYear_value : msPerYear == 31557600000.
Proof. vm_compute. reflexivity. Qed.

Lemma div_msPerYear (x : Q) : x / msPerYear == x * (1 # 31557600000).
Proof. unfold Qdiv. rewrite msPerYear_value. reflexivity. Qed.

Lemma years_nonneg (n : Z) : (0 <= n)%Z -> 0 <= inject_Z n / msPerYear.
Proof.
  intros H. rewrite msPerYear_value.
  apply Qle_shift_div_l; [reflexivity|].
  rewrite Qmult_0_l. change 0 with (inject_Z 0).
  rewrite <- Zle_Qle. exact H.
Qed.

Lemma accrued_bounds (days tz : Z) :
  (days = 730 \/ days = 731)%Z -> (-43200000 < tz < 43200000)%Z ->
  let accrued :=
    600 * (inject_Z (days * JSDate.msPerDay - tz) / msPerYear) in
  ~ accrued == 1200 /\ 1198 < accrued /\ accrued < 1202.
Proof.
  intros Hd Htz accrued. subst accrued.
  set (n := (days * JSDate.msPerDay - tz)%Z).
  assert (Hn : (63028800000 < n < 63201600000)%Z /\ n <> 63115200000%Z).
  { unfold n, JSDate.msPerDay. lia. }
  destruct Hn as [[Hlo Hhi] Hne]. clearbody n.
  rewrite Zlt_Qlt in Hlo, Hhi.
  assert (Hne' : ~ inject_Z n == 63115200000).
  { intros E. apply Hne. apply inject_Z_injective. exact E. }
  rewrite div_msPerYear.
  set (q := inject_Z n) in *. clearbody q.
  unfold inject_Z in Hlo, Hhi.
  split; [|split].
  - intros E. apply Hne'. lra.
  - lra.
  - lra.
Qed.

(** The accrual of a Labour employee whose joining date parses. *)
Lemma labour_accrual (h : JSDate.Host) (st : State) (year month : Z)
    (e : Employee) (joined : Z) :
  employeeType e = "Labour"%string ->
  JSDate.Date_parse h (joiningDate e) = Some joined ->
  (joined <= JSDate.Date_local h year (month + 1) 0)%Z ->
  let accrued :=
    600 * (inject_Z (JSDate.Date_local h year (month + 1) 0 - joined)
           / msPerYear) in
  num_eq (gratuityAmount (payrollRow h st year month e)) (Num accrued)
  /\ num_eq (leaveSalaryAccrued (payrollRow h st year month e))
            (Num accrued).
Proof.
  intros Ht Hp Hle accrued. subst accrued.
  rewrite gratuity_of_row, leave_of_row.
  unfold gratuityAccrued. rewrite Ht.
  change (String.eqb "Labour" "Labour") with true. cbv iota.
  unfold yearsOfService. rewrite Hp. cbn [Math_max mul num_eq].
  assert (E : Qmax 0 ((inject_Z (JSDate.Date_local h year (month + 1) 0)
                       - inject_Z joined)
                      / (1000 * 60 * 60 * 24 * 365.25)) * 600
              == 600 * (inject_Z (JSDate.Date_local h year (month + 1) 0
                                  - joined) / msPerYear)).
  { fold msPerYear.
    assert (D : inject_Z (JSDate.Date_local h year (month + 1) 0)
                - inject_Z joined
                == inject_Z (JSDate.Date_local h year (month + 1) 0
                             - joined)).
    { unfold Zminus. rewrite inject_Z_plus, inject_Z_opp. ring. }
    rewrite D. rewrite Q.max_r; [ring|].
    apply years_nonneg. lia. }
  split; exact E.
Qed.

(** C4 (as amended).  For a Labour employee whose joining date is the
    calendar day exactly 2 years before the end of the target month, the
    gratuity accrued and the leave salary accrued are both
    600 x (elapsed time / 365.25 days), where the elapsed time is 730 or
    731 days less the offset of local time from UTC; for an offset of
    less than 12 hours either way this lies strictly between 1198 and
    1202 and is never exactly 1200.  The basic salary plays no part. *)
Theorem two_calendar_years_accrual (h : JSDate.Host) (st : State)
    (year month : Z) (e : Employee) (tz : Z) :
  (forall t, JSDate.LocalTZA h t = tz) ->
  (-43200000 < tz < 43200000)%Z ->
  (99 < year)%Z -> (0 <= month <= 11)%Z ->
  employeeType e = "Labour"%string ->
  JSDate.Date_parse h (joiningDate e)
    = Some (twoYearsBeforeMonthEnd year month) ->
  exists days : Z,
    (days = 730 \/ days = 731)%Z
    /\ let accrued :=
         600 * (inject_Z (days * JSDate.msPerDay - tz) / msPerYear) in
       num_eq (gratuityAmount (payrollRow h st year month e)) (Num accrued)
       /\ num_eq (leaveSalaryAccrued (payrollRow h st year month e))
                 (Num accrued)
       /\ ~ accrued == 1200 /\ 1198 < accrued /\ accrued < 1202.
Proof.
  intros Htz Hb Hy Hm Ht Hp.
  pose proof (two_years_days Hy Hm) as Hd. cbv zeta in Hd.
  set (days := (JSDate.MakeDay year (month + 1) 0
                - JSDate.MakeDay (year - 2) month
                    (JSDate.daysInMonth year month))%Z) in *.
  exists days. split; [exact Hd|]. intros accrued.
  assert (Hend : (JSDate.Date_local h year (month + 1) 0
                  - twoYearsBeforeMonthEnd year month
                  = days * JSDate.msPerDay - tz)%Z).
  { unfold JSDate.Date_local, twoYearsBeforeMonthEnd, JSDate.utcMidnight.
    replace ((0 <=? year)%Z && (year <=? 99)%Z)%bool with false
      by (symmetry; apply Bool.andb_false_iff; right; apply Z.leb_gt; lia).
    rewrite Htz. replace (month + 1 - 1)%Z with month by lia.
    unfold days. ring. }
  assert (Hle : (twoYearsBeforeMonthEnd year month
                 <= JSDate.Date_local h year (month + 1) 0)%Z).
  { assert (0 <= days * JSDate.msPerDay - tz)%Z
      by (unfold JSDate.msPerDay; lia).
    lia. }
  destruct (@labour_accrual h st year month e _ Ht Hp Hle) as [G L].
  cbv zeta in G, L. rewrite Hend in G, L.
  split; [exact G|]. split; [exact L|].
  exact (accrued_bounds Hd Hb).
Qed.

(** Witness of C4: joined on 2021-01-31, seen at the end of January 2023
    in UTC. *)
Lemma two_calendar_years_accrual_witness :
  exists days : Z,
    (days = 730 \/ days = 731)%Z
    /\ num_eq (gratuityAmount
                 (payrollRow ExampleHost.dates
                    (emptyState [employeeOf "E3" "Labour" "2021-01-31" 1500])
                    2023 0 (employeeOf "E3" "Labour" "2021-01-31" 1500)))
              (Num (600 * (inject_Z (days * JSDate.msPerDay - 0)
                           / msPerYear))).
Proof.
  destruct (@two_calendar_years_accrual ExampleHost.dates
              (emptyState [employeeOf "E3" "Labour" "2021-01-31" 1500])
              2023 0 (employeeOf "E3" "Labour" "2021-01-31" 1500) 0%Z)
    as [days [Hd [G _]]].
  - intros t. reflexivity.
  - lia.
  - lia.
  - lia.
  - reflexivity.
  - vm_compute. reflexivity.
  - exists days. split; [exact Hd|exact G].
Defined.

(** C4 as stated fails: a Labour employee with basicSalary 1500 who
    joined on 2021-01-31, seen at the end of January 2023 in UTC, has
    730 / 365.25 years of service and accrues about 1199.18, not 1200. *)
Lemma two_calendar_years_not_1200 :
  JSDate.Date_parse ExampleHost.dates "2021-01-31"
    = Some (twoYearsBeforeMonthEnd 2023 0)
  /\ ~ accruesTwoYears ExampleHost.dates
        (emptyState [employeeOf "E3" "Labour" "2021-01-31" 1500])
        2023 0 (employeeOf "E3" "Labour" "2021-01-31" 1500).
Proof.
  split; [vm_compute; reflexivity|].
  intros [G _]. vm_compute in G. discriminate G.
Qed.

End PayrollClaims.

(* ===================================================================== *)
(** * Objects: reading after writing                                      *)
(* ===================================================================== *)

Unset Implicit Arguments.

Section ObjectFacts.

Import JS Value.
Local Open Scope string_scope.

Lemma lookup_set_same (k : string) (v : value) (o : obj) :
  lookup k (set k v o) = Some v.
Proof.
  induction o as [|[k' v'] o IH]; simpl.
  - rewrite String.eqb_refl. reflexivity.
  - destruct (String.eqb k k') eqn:E; simpl.
    + rewrite String.eqb_refl. reflexivity.
    + rewrite E. exact IH.
Qed.

Lemma lookup_set_other (k k' : string) (v : value) (o : obj) :
  k <> k' -> lookup k (set k' v o) = lookup k o.
Proof.
  intros Hne. induction o as [|[k'' v''] o IH]; simpl.
  - apply String.eqb_neq in Hne. rewrite Hne. reflexivity.
  - destruct (String.eqb k' k'') eqn:E; simpl.
    + apply String.eqb_eq in E. subst k''.
      apply String.eqb_neq in Hne. rewrite Hne. reflexivity.
    + destruct (String.eqb k k''); [reflexivity|exact IH].
Qed.

Lemma get_set_same (k : string) (v : value) (o : obj) :
  get k (set k v o) = v.
Proof. unfold get. rewrite lookup_set_same. reflexivity. Qed.

Lemma get_set_other (k k' : string) (v : value) (o : obj) :
  k <> k' -> get k (set k' v o) = get k o.
Proof. intros H. unfold get. rewrite lookup_set_other by exact H. reflexivity. Qed.

Lemma has_key_set (k k' : string) (v : value) (o : obj) :
  has_key k (set k' v o) = (String.eqb k k' || has_key k o)%bool.
Proof.
  unfold has_key. destruct (String.eqb k k') eqn:E.
  - apply String.eqb_eq in E. subst k'. rewrite lookup_set_same. reflexivity.
  - apply String.eqb_neq in E. rewrite lookup_set_other by exact E.
    reflexivity.
Qed.

Lemma mem_In (k : string) (l : list string) :
  Store.mem k l = true <-> In k l.
Proof.
  unfold Store.mem. rewrite existsb_exists. split.
  - intros [x [Hin E]]. apply String.eqb_eq in E. subst x. exact Hin.
  - intros Hin. exists k. split; [exact Hin|apply String.eqb_refl].
Qed.

Lemma mem_false (k : string) (l : list string) :
  Store.mem k l = false <-> ~ In k l.
Proof.
  rewrite <- mem_In. destruct (Store.mem k l); split; intros H;
    try reflexivity; try discriminate; try (intros E; discriminate E).
  exfalso. apply H. reflexivity.
Qed.

(** Reading a key that a sequence of writes does not mention. *)
Lemma get_set_all_other (k : string) (kvs : list (string * value))
    (o : obj) :
  ~ In k (map fst kvs) -> get k (set_all kvs o) = get k o.
Proof.
  unfold set_all. revert o.
  induction kvs as [|[k' v'] kvs IH]; intros o Hn; simpl.
  - reflexivity.
  - rewrite IH.
    + apply get_set_other. intros E. apply Hn. left. symmetry. exact E.
    + intros Hin. apply Hn. right. exact Hin.
Qed.

(** Reading a key that a sequence of writes mentions once. *)
Lemma get_set_all_in (k : string) (v : value)
    (kvs : list (string * value)) (o : obj) :
  NoDup (map fst kvs) -> In (k, v) kvs -> get k (set_all kvs o) = v.
Proof.
  unfold set_all. revert o.
  induction kvs as [|[k' v'] kvs IH]; intros o Hnd Hin; simpl.
  - contradiction.
  - simpl in Hnd. inversion Hnd as [|? ? Hnotin Hnd']; subst.
    destruct Hin as [E|Hin].
    + inversion E; subst.
      fold (set_all kvs (set k v o)).
      rewrite get_set_all_other by exact Hnotin.
      apply get_set_same.
    + apply IH; assumption.
Qed.

Lemma has_key_set_all (k : string) (kvs : list (string * value))
    (o : obj) :
  has_key k o = true -> has_key k (set_all kvs o) = true.
Proof.
  unfold set_all. revert o.
  induction kvs as [|[k' v'] kvs IH]; intros o H; simpl; [exact H|].
  apply IH. rewrite has_key_set, H. apply Bool.orb_true_r.
Qed.

(** An object built key by key from a list of keys. *)
Lemma lookup_tabulate (f : string -> value) (k : string)
    (ks : list string) (rest : obj) :
  lookup k (map (fun x => (x, f x)) ks ++ rest)%list
  = if Store.mem k ks then Some (f k) else lookup k rest.
Proof.
  induction ks as [|x ks IH]; simpl; [reflexivity|].
  unfold Store.mem in *. simpl.
  destruct (String.eqb k x) eqn:E; simpl.
  - apply String.eqb_eq in E. subst x. reflexivity.
  - exact IH.
Qed.

End ObjectFacts.

(* ===================================================================== *)
(** * [HARD_RESET_TRANSACTIONS]                                           *)
(* ===================================================================== *)

Section HardReset.

Import JS Value Store StoreSpec.
Local Open Scope string_scope.

Lemma resetWrites_NoDup : NoDup (map fst resetWrites).
Proof.
  vm_compute.
  repeat (constructor; [simpl; intuition discriminate|]).
  constructor.
Qed.

(** C9 (as amended).  For every state, HARD_RESET_TRANSACTIONS returns a
    state in which the sixteen collections it names (sales invoices, the
    three kinds of purchases, journal entries, productions, original
    openings, ongoing orders, logistics entries, attendance records,
    salary payments, HR tasks and enquiries, favourite combinations, test
    entries, depreciation entries) are empty, the twelve counters it
    names are 1 and the planner data and reset stamps are cleared; every
    other key is unchanged: the master data, and also the guarantee
    cheques with their counter nextGuaranteeChequeSNo, the customs
    documents, the fixed assets, the packing material items and the
    planner id lists. *)
Theorem hard_reset_frame (h : Host) (st : AppState) :
  exists st',
    dataReducer h st HARD_RESET_TRANSACTIONS = Ok st'
    /\ (forall k, In k resetCollections -> get k st' = VArr [])
    /\ (forall k, In k resetCounters -> get k st' = one)
    /\ get "plannerData" st' = VObj []
    /\ get "plannerLastWeeklyReset" st' = VStr ""
    /\ get "plannerLastMonthlyReset" st' = VStr ""
    /\ (forall k, In k masterData -> get k st' = get k st)
    /\ (forall k, In k keptByReset -> get k st' = get k st)
    /\ (forall k, ~ In k (resetCollections ++ resetCounters
                           ++ plannerDataKeys)%list ->
                  get k st' = get k st).
Proof.
  exists (hardReset st). split; [reflexivity|].
  change (hardReset st) with (set_all resetWrites st).
  assert (Hin : forall k v, In (k, v) resetWrites ->
                            get k (set_all resetWrites st) = v).
  { intros k v H. apply get_set_all_in; [exact resetWrites_NoDup|exact H]. }
  assert (Hout : forall k, ~ In k (map fst resetWrites) ->
                           get k (set_all resetWrites st) = get k st).
  { intros k H. apply get_set_all_other. exact H. }
  split; [|split; [|split; [|split; [|split; [|split; [|split]]]]]].
  - intros k Hk. apply Hin. unfold resetWrites.
    apply in_or_app. left. apply in_map_iff. exists k. split; [reflexivity|exact Hk].
  - intros k Hk. apply Hin. unfold resetWrites.
    apply in_or_app. right. apply in_or_app. left.
    apply in_map_iff. exists k. split; [reflexivity|exact Hk].
  - apply Hin. vm_compute. intuition.
  - apply Hin. vm_compute. intuition.
  - apply Hin. vm_compute. intuition.
  - intros k Hk. apply Hout. intros Hw.
    vm_compute in Hk, Hw.
    repeat (destruct Hk as [<-|Hk]; [intuition discriminate|]).
    exact Hk.
  - intros k Hk. apply Hout. intros Hw.
    vm_compute in Hk, Hw.
    repeat (destruct Hk as [<-|Hk]; [intuition discriminate|]).
    exact Hk.
  - intros k Hk. apply Hout. intros Hw. apply Hk.
    vm_compute in Hw. vm_compute. exact Hw.
Qed.

(** C9 as stated fails: the reset leaves the guarantee cheques and
    their counter as they were. *)
Lemma hard_reset_keeps_guarantee_cheques :
  exists st',
    dataReducer ExampleHost.host oneChequeState HARD_RESET_TRANSACTIONS
      = Ok st'
    /\ get "guaranteeCheques" st' = VArr [VObj [("id", VStr "GC-1")]]
    /\ get "nextGuaranteeChequeSNo" st' = num_of_Z 2
    /\ ~ resetAsClaimed oneChequeState st'.
Proof.
  exists (hardReset oneChequeState).
  split; [reflexivity|]. split; [vm_compute; reflexivity|].
  split; [vm_compute; reflexivity|].
  intros [H _].
  specialize (H "guaranteeCheques").
  assert (G := H ltac:(vm_compute; intuition)).
  vm_compute in G. discriminate G.
Qed.

End HardReset.

(* ===================================================================== *)
(** * [ADD_ENTITY]                                                        *)
(* ===================================================================== *)

Section AddEntity.

Import JS Value Store StoreSpec.
Local Open Scope string_scope.
Local Open Scope js_scope.

Variable h : Host.

Lemma fold_bump_other (state : AppState) (entity k : string)
    (table : list (string * string)) (ns : AppState) :
  ~ In k (map snd table) ->
  get k (fold_left (fun ns ec =>
                      if String.eqb entity (fst ec)
                      then bump h state (snd ec) ns else ns)
                   table ns)
  = get k ns.
Proof.
  revert ns. induction table as [|[e c] table IH]; intros ns Hn; simpl.
  - reflexivity.
  - rewrite IH by (intros Hin; apply Hn; right; exact Hin).
    destruct (String.eqb entity e); [|reflexivity].
    unfold bump. apply get_set_other.
    intros E. apply Hn. left. symmetry. exact E.
Qed.

Lemma fold_bump_none (state : AppState) (entity : string)
    (table : list (string * string)) (ns : AppState) :
  ~ In entity (map fst table) ->
  fold_left (fun ns ec =>
               if String.eqb entity (fst ec)
               then bump h state (snd ec) ns else ns)
            table ns
  = ns.
Proof.
  revert ns. induction table as [|[e c] table IH]; intros ns Hn; simpl.
  - reflexivity.
  - rewrite IH by (intros Hin; apply Hn; right; exact Hin).
    destruct (String.eqb entity e) eqn:E; [|reflexivity].
    exfalso. apply Hn. left. apply String.eqb_eq in E. symmetry. exact E.
Qed.

Lemma fold_bump_counter (state : AppState) (entity counter : string)
    (table : list (string * string)) (ns : AppState) :
  NoDup (map snd table) -> In (entity, counter) table ->
  get counter (fold_left (fun ns ec =>
                            if String.eqb entity (fst ec)
                            then bump h state (snd ec) ns else ns)
                         table ns)
  = plus h (get counter state) one.
Proof.
  revert ns. induction table as [|[e c] table IH]; intros ns Hnd Hin; simpl.
  - contradiction.
  - simpl in Hnd. inversion Hnd as [|? ? Hnotin Hnd']; subst.
    destruct Hin as [E|Hin].
    + inversion E; subst. rewrite String.eqb_refl.
      rewrite fold_bump_other by exact Hnotin.
      unfold bump. apply get_set_same.
    + apply IH; assumption.
Qed.

Lemma entityCounters_NoDup : NoDup (map snd entityCounters).
Proof.
  vm_compute.
  repeat (constructor; [simpl; intuition discriminate|]).
  constructor.
Qed.

Lemma entityCounters_disjoint (k : string) :
  In k (map snd entityCounters) -> ~ In k (map fst entityCounters).
Proof.
  intros Hs Hf. vm_compute in Hs, Hf.
  repeat (destruct Hs as [<-|Hs]; [intuition discriminate|]).
  exact Hs.
Qed.

(** The counters never are the collection that was extended. *)
Lemma bumpEntityCounters_entity (state : AppState) (entity : string)
    (ns : AppState) :
  get entity (bumpEntityCounters h state entity ns) = get entity ns.
Proof.
  unfold bumpEntityCounters.
  destruct (in_dec string_dec entity (map snd entityCounters)) as [Hin|Hn].
  - rewrite fold_bump_none; [reflexivity|].
    apply entityCounters_disjoint. exact Hin.
  - apply fold_bump_other. exact Hn.
Qed.

Lemma plus_one (n : Q) :
  plus h (VNum (Num n)) one = VNum (Num (n + 1)).
Proof. reflexivity. Qed.

Lemma addEntity_plain (state : AppState) (entity : string) (data : value)
    (l : list value) :
  entity <> "journalEntries" -> get entity state = VArr l ->
  addEntity h state entity data
  = Ok (bumpEntityCounters h state entity
          (set entity (VArr (l ++ [data])) state)).
Proof.
  intros Hne Hl. unfold addEntity. rewrite Hl. simpl.
  apply String.eqb_neq in Hne. rewrite Hne. reflexivity.
Qed.

(** ** Journal entries *)

Lemma some_voucherKnown (l : list value) (d : obj) :
  forallb is_object l = true ->
  some (fun je =>
          a <- get_prop je "voucherId" ;;
          b <- get_prop (VObj d) "voucherId" ;;
          Ok (strict_eq a b)) l
  = Ok (voucherKnown l d).
Proof.
  induction l as [|je l IH]; intros Hl; simpl; [reflexivity|].
  apply Bool.andb_true_iff in Hl. destruct Hl as [Hje Hl].
  destruct je; try discriminate Hje. simpl.
  destruct (strict_eq (get "voucherId" o) (get "voucherId" d)); simpl.
  - reflexivity.
  - apply IH. exact Hl.
Qed.

Lemma isSeries_typed (d : obj) (tag : value) (prefix vid : string) :
  get "voucherId" d = VStr vid ->
  isSeries (VObj d) tag prefix = Ok (inSeries d tag prefix).
Proof.
  intros Hv. unfold isSeries, inSeries. simpl. rewrite Hv.
  destruct (strict_eq (get "entryType" d) tag); reflexivity.
Qed.

Lemma bumpVoucherCounter_typed (state : AppState) (l : list value)
    (d : obj) (vid : string) (ns : AppState) :
  get "journalEntries" state = VArr l ->
  forallb is_object l = true ->
  get "voucherId" d = VStr vid ->
  bumpVoucherCounter h state (VObj d) ns
  = Ok (if voucherKnown l d then ns
        else match selected d (voucherSeries h) with
             | Some counter => bump h state counter ns
             | None => ns
             end).
Proof.
  intros Hj Hl Hv. unfold bumpVoucherCounter. rewrite Hj.
  cbn [as_array bind].
  rewrite (some_voucherKnown l d Hl). cbn [bind].
  destruct (voucherKnown l d); cbn [negb]; [reflexivity|].
  rewrite !(isSeries_typed d _ _ vid Hv). cbn [bind selected voucherSeries].
  destruct (inSeries d (JournalEntryType_Receipt h) "RV-"); [reflexivity|].
  destruct (inSeries d (JournalEntryType_Payment h) "PV-"); [reflexivity|].
  destruct (inSeries d (JournalEntryType_Expense h) "EV-"); [reflexivity|].
  destruct (inSeries d (JournalEntryType_Journal h) "JV-"); reflexivity.
Qed.

Lemma bumpEntityCounters_journal (state ns : AppState) :
  bumpEntityCounters h state "journalEntries" ns = ns.
Proof. reflexivity. Qed.

Lemma selected_counter (d : obj) (c : string) :
  selected d (voucherSeries h) = Some c -> In c voucherCounters.
Proof.
  unfold voucherSeries, voucherCounters. simpl.
  destruct (inSeries d _ "RV-"); [intros E; inversion E; intuition|].
  destruct (inSeries d _ "PV-"); [intros E; inversion E; intuition|].
  destruct (inSeries d _ "EV-"); [intros E; inversion E; intuition|].
  destruct (inSeries d _ "JV-"); [intros E; inversion E; intuition|].
  discriminate.
Qed.

Lemma addEntity_journal (state : AppState) (l : list value) (d : obj)
    (vid : string) :
  get "journalEntries" state = VArr l ->
  forallb is_object l = true ->
  get "voucherId" d = VStr vid ->
  addEntity h state "journalEntries" (VObj d)
  = Ok (let ns := set "journalEntries" (VArr (l ++ [VObj d])) state in
        if voucherKnown l d then ns
        else match selected d (voucherSeries h) with
             | Some counter => bump h state counter ns
             | None => ns
             end).
Proof.
  intros Hj Hl Hv. unfold addEntity. rewrite Hj.
  cbn [iterate bind]. rewrite bumpEntityCounters_journal.
  change (String.eqb "journalEntries" "journalEntries") with true.
  cbv iota. apply bumpVoucherCounter_typed with (vid := vid); assumption.
Qed.

Lemma voucherKnown_app (l : list value) (d : obj) (vid : string) :
  get "voucherId" d = VStr vid ->
  voucherKnown (l ++ [VObj d]) d = true.
Proof.
  intros Hv. unfold voucherKnown. rewrite existsb_app. simpl.
  rewrite Hv. simpl. rewrite String.eqb_refl. simpl.
  apply Bool.orb_true_r.
Qed.

Lemma forallb_is_object_app (l : list value) (d : obj) :
  forallb is_object l = true -> forallb is_object (l ++ [VObj d]) = true.
Proof. intros H. rewrite forallb_app, H. reflexivity. Qed.

(** A voucher id starts with at most one of the four prefixes. *)
Lemma prefix_exclusive (s : string) (a b : ascii) (p q : string) :
  a <> b ->
  startsWith s (String a p) = true -> startsWith s (String b q) = false.
Proof.
  intros Hab. unfold startsWith. destruct s as [|c s]; simpl.
  - discriminate.
  - destruct (ascii_dec a c) as [->|Ha]; [|discriminate].
    destruct (ascii_dec b c) as [->|Hb]; [|reflexivity].
    exfalso. apply Hab. reflexivity.
Qed.

Lemma inSeries_exclusive (d : obj) (t1 t2 : value) (a b : ascii)
    (p q : string) :
  a <> b ->
  inSeries d t1 (String a p) = true -> inSeries d t2 (String b q) = false.
Proof.
  intros Hab. unfold inSeries. intros H.
  apply Bool.andb_true_iff in H. destruct H as [_ H].
  destruct (get "voucherId" d); try discriminate H.
  rewrite (prefix_exclusive _ a b p q Hab H). apply Bool.andb_false_r.
Qed.

Lemma addEntity_result (state : AppState) (entity : string) (data : value)
    (l : list value) :
  get entity state = VArr l ->
  (entity = "journalEntries" ->
   forallb is_object l = true /\ is_journalEntry data = true) ->
  exists st1,
    addEntity h state entity data = Ok st1
    /\ get entity st1 = VArr (l ++ [data])
    /\ (forall counter, In (entity, counter) entityCounters ->
          get counter st1 = plus h (get counter state) one).
Proof.
  intros Hl Hj.
  destruct (string_dec entity "journalEntries") as [E|Hne].
  - subst entity. destruct (Hj eq_refl) as [Hobj Hd].
    destruct data as [| | | | | |d]; try discriminate Hd.
    unfold is_journalEntry in Hd.
    destruct (get "voucherId" d) as [| | | |vid| |] eqn:Hv;
      try discriminate Hd.
    rewrite (addEntity_journal _ _ _ _ Hl Hobj Hv). cbv zeta.
    eexists. split; [reflexivity|]. split.
    + destruct (voucherKnown l d); [apply get_set_same|].
      destruct (selected d (voucherSeries h)) as [c|] eqn:Hs;
        [|apply get_set_same].
      unfold bump. rewrite get_set_other; [apply get_set_same|].
      apply selected_counter in Hs. intros E. subst c.
      vm_compute in Hs. intuition discriminate.
    + intros counter Hin. exfalso. vm_compute in Hin.
      intuition discriminate.
  - rewrite (addEntity_plain _ _ data _ Hne Hl).
    eexists. split; [reflexivity|]. split.
    + rewrite bumpEntityCounters_entity. apply get_set_same.
    + intros counter Hin. unfold bumpEntityCounters.
      apply fold_bump_counter; [exact entityCounters_NoDup|exact Hin].
Qed.

(** C10.  ADD_ENTITY appends its payload record to the target collection
    with no duplicate-id check: whatever the collection already holds,
    adding the same record twice yields a collection that ends with both
    copies, and for a counter-linked entity other than journal entries the
    counter is incremented on the first addition and again on the
    replay. *)
Theorem add_entity_appends (state : AppState) (entity : string)
    (data : value) (l : list value) :
  get entity state = VArr l ->
  (entity = "journalEntries" ->
   forallb is_object l = true /\ is_journalEntry data = true) ->
  exists st1 st2,
    dataReducer h state (ADD_ENTITY entity data) = Ok st1
    /\ get entity st1 = VArr (l ++ [data])
    /\ dataReducer h st1 (ADD_ENTITY entity data) = Ok st2
    /\ get entity st2 = VArr (l ++ [data; data])
    /\ (forall counter n,
          In (entity, counter) entityCounters ->
          get counter state = VNum (Num n) ->
          get counter st1 = VNum (Num (n + 1))
          /\ get counter st2 = VNum (Num (n + 1 + 1))).
Proof.
  intros Hl Hj.
  destruct (addEntity_result _ _ data _ Hl Hj) as [st1 [R1 [G1 C1]]].
  assert (Hj1 : entity = "journalEntries" ->
                forallb is_object (l ++ [data]) = true
                /\ is_journalEntry data = true).
  { intros E. destruct (Hj E) as [Hobj Hd]. split; [|exact Hd].
    rewrite forallb_app, Hobj. simpl.
    destruct data; try discriminate Hd. reflexivity. }
  destruct (addEntity_result _ _ data _ G1 Hj1) as [st2 [R2 [G2 C2]]].
  exists st1, st2. cbn [dataReducer].
  split; [exact R1|]. split; [exact G1|]. split; [exact R2|]. split.
  - rewrite G2, <- app_assoc. reflexivity.
  - intros counter n Hin Hn.
    assert (E1 : get counter st1 = VNum (Num (n + 1))).
    { rewrite (C1 _ Hin), Hn. reflexivity. }
    split; [exact E1|]. rewrite (C2 _ Hin), E1. reflexivity.
Qed.

(** C8.  When ADD_ENTITY adds a journal entry, a voucher-series counter
    changes only if no journal entry of the state already has that
    voucherId, and then the counter of the series selected by the entry's
    type together with the voucher id prefix (RV-, PV-, EV-, JV-) is
    incremented by exactly 1 and the other three are unchanged; replaying
    the same action a second time changes no voucher-series counter. *)
Theorem journal_voucher_counter (state : AppState) (l : list value)
    (d : obj) (vid : string) :
  get "journalEntries" state = VArr l ->
  forallb is_object l = true ->
  get "voucherId" d = VStr vid ->
  exists st1 st2,
    dataReducer h state (ADD_ENTITY "journalEntries" (VObj d)) = Ok st1
    /\ dataReducer h st1 (ADD_ENTITY "journalEntries" (VObj d)) = Ok st2
    /\ (voucherKnown l d = true ->
        forall c, In c voucherCounters -> get c st1 = get c state)
    /\ (voucherKnown l d = false ->
        forall tag prefix c, In (tag, prefix, c) (voucherSeries h) ->
          if inSeries d tag prefix
          then get c st1 = plus h (get c state) one
               /\ (forall n, get c state = VNum (Num n) ->
                             get c st1 = VNum (Num (n + 1)))
          else get c st1 = get c state)
    /\ (forall c, In c voucherCounters -> get c st2 = get c st1).
Proof.
  intros Hj Hl Hv.
  pose proof (addEntity_journal _ _ _ _ Hj Hl Hv) as R1. cbv zeta in R1.
  set (ns := set "journalEntries" (VArr (l ++ [VObj d])) state) in *.
  assert (Hns : forall c, In c voucherCounters -> get c ns = get c state).
  { intros c Hc. unfold ns. apply get_set_other.
    intros E. subst c. vm_compute in Hc. intuition discriminate. }
  eexists. eexists. cbn [dataReducer].
  split; [exact R1|].
  set (st1 := if voucherKnown l d then ns
              else match selected d (voucherSeries h) with
                   | Some counter => bump h state counter ns
                   | None => ns
                   end) in *.
  assert (Hj1 : get "journalEntries" st1 = VArr (l ++ [VObj d])).
  { unfold st1. destruct (voucherKnown l d); [apply get_set_same|].
    destruct (selected d (voucherSeries h)) as [c|] eqn:Hs;
      [|apply get_set_same].
    unfold bump. rewrite get_set_other; [apply get_set_same|].
    apply selected_counter in Hs. intros E. subst c.
    vm_compute in Hs. intuition discriminate. }
  pose proof (addEntity_journal _ _ _ _ Hj1 (forallb_is_object_app _ d Hl) Hv) as R2.
  cbv zeta in R2. rewrite (voucherKnown_app l _ _ Hv) in R2.
  split; [exact R2|]. split; [|split].
  - intros Hk c Hc. unfold st1. rewrite Hk. apply Hns. exact Hc.
  - intros Hk tag prefix c Hin. unfold st1. rewrite Hk.
    assert (Hbump : forall c', get c' (bump h state c' ns)
                               = plus h (get c' state) one)
      by (intros c'; apply get_set_same).
    assert (Hnum : forall c' n, get c' state = VNum (Num n) ->
                     plus h (get c' state) one = VNum (Num (n + 1)))
      by (intros c' n E; rewrite E; reflexivity).
    unfold voucherSeries in Hin |- *. cbn [selected].
    destruct (inSeries d (JournalEntryType_Receipt h) "RV-") eqn:ER;
    destruct (inSeries d (JournalEntryType_Payment h) "PV-") eqn:EP;
    destruct (inSeries d (JournalEntryType_Expense h) "EV-") eqn:EE;
    destruct (inSeries d (JournalEntryType_Journal h) "JV-") eqn:EJ;
    try (rewrite (inSeries_exclusive d _ (JournalEntryType_Payment h)
                    "R" "P" "V-" "V-" ltac:(discriminate) ER) in EP;
         discriminate EP);
    try (rewrite (inSeries_exclusive d _ (JournalEntryType_Expense h)
                    "R" "E" "V-" "V-" ltac:(discriminate) ER) in EE;
         discriminate EE);
    try (rewrite (inSeries_exclusive d _ (JournalEntryType_Journal h)
                    "R" "J" "V-" "V-" ltac:(discriminate) ER) in EJ;
         discriminate EJ);
    try (rewrite (inSeries_exclusive d _ (JournalEntryType_Expense h)
                    "P" "E" "V-" "V-" ltac:(discriminate) EP) in EE;
         discriminate EE);
    try (rewrite (inSeries_exclusive d _ (JournalEntryType_Journal h)
                    "P" "J" "V-" "V-" ltac:(discriminate) EP) in EJ;
         discriminate EJ);
    try (rewrite (inSeries_exclusive d _ (JournalEntryType_Journal h)
                    "E" "J" "V-" "V-" ltac:(discriminate) EE) in EJ;
         discriminate EJ);
    simpl in Hin;
    repeat (destruct Hin as [Hin|Hin]; [inversion Hin; subst; clear Hin|]);
    try contradiction;
    rewrite ?ER, ?EP, ?EE, ?EJ;
    try (split; [apply Hbump|intros n En; rewrite Hbump; apply Hnum; exact En]);
    try (unfold bump; rewrite get_set_other by discriminate);
    try (apply Hns; vm_compute; intuition).
  - intros c Hc. unfold ns. rewrite get_set_other; [reflexivity|].
    intros E. subst c. vm_compute in Hc. intuition discriminate.
Qed.

End AddEntity.

Section AddEntityExamples.

Import JS Value Store StoreSpec.
Local Open Scope string_scope.

(** Witness of C10: a sales invoice added twice to the initial state. *)
Lemma add_entity_appends_witness :
  exists st1 st2,
    dataReducer ExampleHost.host getInitialState
      (ADD_ENTITY "salesInvoices" (VObj [("id", VStr "SI-1")])) = Ok st1
    /\ dataReducer ExampleHost.host st1
         (ADD_ENTITY "salesInvoices" (VObj [("id", VStr "SI-1")])) = Ok st2
    /\ get "salesInvoices" st2
       = VArr [VObj [("id", VStr "SI-1")]; VObj [("id", VStr "SI-1")]]
    /\ get "nextInvoiceNumber" st2 = VNum (Num (1 + 1 + 1)).
Proof.
  destruct (add_entity_appends ExampleHost.host getInitialState "salesInvoices"
              (VObj [("id", VStr "SI-1")]) [])
    as [st1 [st2 [R1 [_ [R2 [G2 C]]]]]].
  - reflexivity.
  - intros E. discriminate E.
  - exists st1, st2. split; [exact R1|]. split; [exact R2|].
    split; [exact G2|].
    apply (C "nextInvoiceNumber" 1%Q); [left; reflexivity|reflexivity].
Defined.

(** Witness of C8: a receipt voucher RV-1 entered twice into the initial
    state advances the receipt counter from 1 to 2 once. *)
Lemma journal_voucher_counter_witness :
  exists st1 st2,
    dataReducer ExampleHost.host getInitialState
      (ADD_ENTITY "journalEntries"
         (VObj [("id", VStr "JE-1"); ("voucherId", VStr "RV-1");
                ("entryType", VStr "Receipt")])) = Ok st1
    /\ dataReducer ExampleHost.host st1
         (ADD_ENTITY "journalEntries"
            (VObj [("id", VStr "JE-1"); ("voucherId", VStr "RV-1");
                   ("entryType", VStr "Receipt")])) = Ok st2
    /\ get "nextReceiptVoucherNumber" st1 = VNum (Num (1 + 1))
    /\ get "nextReceiptVoucherNumber" st2
       = get "nextReceiptVoucherNumber" st1.
Proof.
  destruct (journal_voucher_counter ExampleHost.host getInitialState []
              [("id", VStr "JE-1"); ("voucherId", VStr "RV-1");
               ("entryType", VStr "Receipt")] "RV-1")
    as [st1 [st2 [R1 [R2 [_ [S R]]]]]].
  - reflexivity.
  - reflexivity.
  - reflexivity.
  - exists st1, st2. split; [exact R1|]. split; [exact R2|]. split.
    + exact (proj2 (S eq_refl (VStr "Receipt") "RV-"
                      "nextReceiptVoucherNumber" (or_introl eq_refl))
                   1%Q eq_refl).
    + apply R. left. reflexivity.
Defined.

End AddEntityExamples.

(* ===================================================================== *)
(** * Serialisation and [RESTORE_STATE]                                   *)
(* ===================================================================== *)

Section Serialise.

Import JS Value Store StoreSpec.
Local Open Scope string_scope.
Local Open Scope js_scope.

(** Induction on values, through arrays and objects. *)
Lemma value_induction (P : value -> Prop) :
  P VUndefined -> P VNull -> (forall b, P (VBool b)) ->
  (forall n, P (VNum n)) -> (forall s, P (VStr s)) ->
  (forall l, Forall P l -> P (VArr l)) ->
  (forall o, Forall (fun kv => P (snd kv)) o -> P (VObj o)) ->
  forall v, P v.
Proof.
  intros Hu Hn Hb Hm Hs Ha Ho.
  fix IH 1. intros [ | |b|n|s|l|o].
  - exact Hu.
  - exact Hn.
  - apply Hb.
  - apply Hm.
  - apply Hs.
  - apply Ha. induction l as [|x l IHl]; constructor; [apply IH|exact IHl].
  - apply Ho. induction o as [|[k x] o IHo]; constructor;
      [apply IH|exact IHo].
Qed.

Lemma convert_nulled (v : value) : nulled v (convertUndefinedToNull v).
Proof.
  induction v as [ | |b|n|s|l IHl|o IHo] using value_induction; simpl;
    try constructor.
  - induction IHl as [|x l Hx _ IH]; simpl; constructor; assumption.
  - induction IHo as [|[k x] o Hx _ IH]; simpl; constructor; [|exact IH].
    simpl in Hx. destruct x; simpl; split; try reflexivity;
      try (right; split; [discriminate|exact Hx]).
    left. split; reflexivity.
Qed.

Lemma convert_noUndefinedField (v : value) :
  noUndefinedField (convertUndefinedToNull v) = true.
Proof.
  induction v as [ | |b|n|s|l IHl|o IHo] using value_induction; simpl;
    try reflexivity.
  - induction IHl as [|x l Hx _ IH]; simpl; [reflexivity|].
    rewrite Hx. exact IH.
  - induction IHo as [|[k x] o Hx _ IH]; simpl; [reflexivity|].
    simpl in Hx. rewrite IH, Bool.andb_true_r.
    destruct x; try reflexivity; exact Hx.
Qed.

Lemma convert_fixed (v : value) :
  noUndefinedField v = true -> convertUndefinedToNull v = v.
Proof.
  induction v as [ | |b|n|s|l IHl|o IHo] using value_induction; simpl;
    try reflexivity.
  - intros H. f_equal.
    induction IHl as [|x l Hx _ IH]; simpl; [reflexivity|].
    simpl in H. apply Bool.andb_true_iff in H. destruct H as [H1 H2].
    rewrite (Hx H1), (IH H2). reflexivity.
  - intros H. f_equal.
    induction IHo as [|[k x] o Hx _ IH]; simpl; [reflexivity|].
    simpl in H, Hx. apply Bool.andb_true_iff in H. destruct H as [H1 H2].
    rewrite (IH H2).
    destruct x; try discriminate H1; try reflexivity;
      rewrite (Hx H1); reflexivity.
Qed.

End Serialise.

Section ProcessStateExplicit.

Import JS Value Store StoreSpec ReducerSpec.
Local Open Scope string_scope.
Local Open Scope js_scope.

Variable h : Host.

Lemma map_r_total (f : value -> result value) (g : value -> value)
    (l : list value) :
  (forall x, is_object x = true -> f x = Ok (g x)) ->
  forallb is_object l = true ->
  map_r f l = Ok (map g l).
Proof.
  intros Hf. induction l as [|x l IH]; intros Hl; simpl; [reflexivity|].
  apply Bool.andb_true_iff in Hl. destruct Hl as [Hx Hl].
  rewrite (Hf x Hx). simpl. rewrite (IH Hl). reflexivity.
Qed.

Lemma fold_r_total (A : Type) (f : A -> value -> result A)
    (g : A -> value -> A) (l : list value) (acc : A) :
  (forall a x, is_object x = true -> f a x = Ok (g a x)) ->
  forallb is_object l = true ->
  fold_r f l acc = Ok (fold_left g l acc).
Proof.
  intros Hf. revert acc.
  induction l as [|x l IH]; intros acc Hl; simpl; [reflexivity|].
  apply Bool.andb_true_iff in Hl. destruct Hl as [Hx Hl].
  rewrite (Hf acc x Hx). simpl. apply IH. exact Hl.
Qed.

(** [processState] on a state whose productions and items are arrays of
    records. *)
Lemma processState_explicit (st : AppState) (lp li : list value) :
  get "productions" st = VArr lp -> forallb is_object lp = true ->
  get "items" st = VArr li -> forallb is_object li = true ->
  processState h st
  = Ok (set "items" (VArr (map (numbered h (tally h lp)) li)) st).
Proof.
  intros Hp Hop Hi Hoi. unfold processState. rewrite Hp.
  cbn [as_array bind].
  rewrite (fold_r_total _ _ (tallyStep h) lp []); [|clear; intros a x Hx|exact Hop].
  2:{ destruct x; try discriminate Hx. reflexivity. }
  cbn [bind]. rewrite Hi. cbn [as_array bind].
  rewrite (map_r_total _ (numbered h (tally h lp)) li);
    [reflexivity|clear; intros x Hx|exact Hoi].
  destruct x; try discriminate Hx. reflexivity.
Qed.

End ProcessStateExplicit.

Section Restore.

Import JS Value Store StoreSpec.
Local Open Scope string_scope.
Local Open Scope js_scope.

Variable h : Host.

Lemma get_tabulate (f : string -> value) (k : string) (ks : list string)
    (rest : obj) :
  get k (map (fun x => (x, f x)) ks ++ rest)%list
  = if mem k ks then f k else get k rest.
Proof.
  unfold get. rewrite lookup_tabulate. destruct (mem k ks); reflexivity.
Qed.

Lemma has_key_tabulate (f : string -> value) (k : string)
    (ks : list string) (rest : obj) :
  has_key k (map (fun x => (x, f x)) ks ++ rest)%list
  = (mem k ks || has_key k rest)%bool.
Proof.
  unfold has_key. rewrite lookup_tabulate. destruct (mem k ks); reflexivity.
Qed.

(** What [newState] holds at each key. *)
Lemma get_restoreFields (fs : obj) (k : string) :
  get k (restoreFields fs)
  = if mem k restoreOrKeys then js_or (get k fs) (get k getInitialState)
    else if mem k restoreNullishKeys
         then nullish (get k fs) (get k getInitialState)
         else if mem k restorePlannerKeys
              then js_or (get k fs) (get k getInitialState)
              else VUndefined.
Proof.
  unfold restoreFields. cbv zeta.
  rewrite get_tabulate. destruct (mem k restoreOrKeys); [reflexivity|].
  rewrite get_tabulate. destruct (mem k restoreNullishKeys); [reflexivity|].
  rewrite <- (app_nil_r (map _ restorePlannerKeys)).
  rewrite get_tabulate. destruct (mem k restorePlannerKeys); reflexivity.
Qed.

Lemma has_key_restoreFields (fs : obj) (k : string) :
  has_key k (restoreFields fs)
  = (mem k restoreOrKeys || mem k restoreNullishKeys
     || mem k restorePlannerKeys)%bool.
Proof.
  unfold restoreFields. cbv zeta.
  rewrite has_key_tabulate, has_key_tabulate.
  rewrite <- (app_nil_r (map _ restorePlannerKeys)).
  rewrite has_key_tabulate. change (has_key k []) with false.
  rewrite Bool.orb_false_r, !Bool.orb_assoc. reflexivity.
Qed.

(** The literal names every key of the default state. *)
Lemma restore_covers (k : string) :
  In k (keys getInitialState) ->
  (mem k restoreOrKeys || mem k restoreNullishKeys
   || mem k restorePlannerKeys)%bool = true.
Proof.
  assert (A : forallb (fun k => mem k restoreOrKeys
                                || mem k restoreNullishKeys
                                || mem k restorePlannerKeys)%bool
                      (keys getInitialState) = true)
    by (vm_compute; reflexivity).
  rewrite forallb_forall in A. exact (A k).
Qed.

(** A key that the snapshot lacks, or holds as [null], takes its
    default. *)
Lemma restoreFields_default (fs : obj) (k : string) :
  In k (keys getInitialState) -> absent (get k fs) = true ->
  get k (restoreFields fs) = get k getInitialState.
Proof.
  intros Hk Ha. rewrite get_restoreFields.
  pose proof (restore_covers k Hk) as C.
  destruct (get k fs); try discriminate Ha;
    destruct (mem k restoreOrKeys); try reflexivity;
    destruct (mem k restoreNullishKeys); try reflexivity;
    destruct (mem k restorePlannerKeys); try reflexivity;
    discriminate C.
Qed.

(** A collection of [newState] has the shape of that of the snapshot, or
    is the default. *)
Lemma or_collection (ok : value -> bool) (v dflt : value) :
  absentOr ok v = true -> ok dflt = true ->
  (forall x, ok x = true -> truthy x = true) ->
  ok (js_or v dflt) = true.
Proof.
  intros Hv Hd Ht. unfold js_or.
  destruct (truthy v) eqn:T; [|exact Hd].
  destruct v; try discriminate T; exact Hv.
Qed.

Lemma arrayOfObjects_truthy (x : value) :
  arrayOfObjects x = true -> truthy x = true.
Proof. destruct x; try discriminate; reflexivity. Qed.

Lemma arrayOfFavorites_truthy (x : value) :
  arrayOfFavorites x = true -> truthy x = true.
Proof. destruct x; try discriminate; reflexivity. Qed.

Lemma is_array_truthy (x : value) : is_array x = true -> truthy x = true.
Proof. destruct x; try discriminate; reflexivity. Qed.

(** ** [processState] *)

Lemma fold_r_objects (A : Type) (f : A -> value -> result A)
    (l : list value) (acc : A) :
  (forall a x, is_object x = true -> exists a', f a x = Ok a') ->
  forallb is_object l = true ->
  exists a', fold_r f l acc = Ok a'.
Proof.
  intros Hf. revert acc.
  induction l as [|x l IH]; intros acc Hl; simpl.
  - exists acc. reflexivity.
  - apply Bool.andb_true_iff in Hl. destruct Hl as [Hx Hl].
    destruct (Hf acc x Hx) as [a' E]. rewrite E. simpl. apply IH. exact Hl.
Qed.

Lemma map_r_objects (f : value -> result value) (l : list value) :
  (forall x, is_object x = true ->
             exists y, f x = Ok y /\ is_object y = true) ->
  forallb is_object l = true ->
  exists ys, map_r f l = Ok ys /\ forallb is_object ys = true
             /\ length ys = length l.
Proof.
  intros Hf. induction l as [|x l IH]; intros Hl; simpl.
  - exists []. repeat split.
  - apply Bool.andb_true_iff in Hl. destruct Hl as [Hx Hl].
    destruct (Hf x Hx) as [y [E Hy]]. rewrite E. simpl.
    destruct (IH Hl) as [ys [E' [Hys Hlen]]]. rewrite E'. simpl.
    exists (y :: ys). split; [reflexivity|]. simpl.
    rewrite Hy, Hys, Hlen. repeat split.
Qed.

Lemma processState_ok (st : AppState) (lp li : list value) :
  get "productions" st = VArr lp -> forallb is_object lp = true ->
  get "items" st = VArr li -> forallb is_object li = true ->
  exists items,
    processState h st = Ok (set "items" (VArr items) st)
    /\ forallb is_object items = true
    /\ length items = length li.
Proof.
  intros Hp Hlp Hi Hli. unfold processState. rewrite Hp.
  cbn [as_array bind].
  match goal with
  | |- context [fold_r ?f lp ?a] =>
      destruct (fold_r_objects obj f lp a) as [byItem E]
  end.
  - intros a x Hx. destruct x; try discriminate Hx. simpl.
    eexists. reflexivity.
  - exact Hlp.
  - rewrite E. cbn [bind]. rewrite Hi. cbn [as_array bind].
    match goal with
    | |- context [map_r ?f li] =>
        destruct (map_r_objects f li) as [items [E' [Ho Hlen]]]
    end.
    + intros x Hx. destruct x; try discriminate Hx. simpl.
      eexists. split; reflexivity.
    + exact Hli.
    + rewrite E'. cbn [bind]. exists items. repeat split; assumption.
Qed.

Lemma restoreFields_collection (fs : obj) (k : string) :
  In k [ "productions"; "items" ] ->
  absentOr arrayOfObjects (get k fs) = true ->
  exists l, get k (restoreFields fs) = VArr l
            /\ forallb is_object l = true
            /\ (absent (get k fs) = true -> l = []).
Proof.
  intros Hk Hv.
  assert (E : get k (restoreFields fs) = js_or (get k fs) (VArr [])).
  { rewrite get_restoreFields.
    destruct Hk as [<-|[<-|[]]]; reflexivity. }
  rewrite E. unfold js_or.
  destruct (get k fs) as [| | | | |l|]; try discriminate Hv; simpl.
  - exists []. repeat split.
  - exists []. repeat split.
  - exists l. split; [reflexivity|]. split; [exact Hv|].
    intros A. discriminate A.
Qed.

(** A snapshot of valid shape whose productions and items can be walked
    is restored, key by key. *)
Lemma restore_result (st : AppState) (fs : obj) :
  has_key "customers" fs = true -> restorable fs = true ->
  exists items,
    dataReducer h st (RESTORE_STATE (VObj fs))
    = Ok (set "items" (VArr items) (restoreFields fs))
    /\ forallb is_object items = true
    /\ (absent (get "items" fs) = true -> items = [])
    /\ (forall li, get "items" fs = VArr li -> length items = length li).
Proof.
  intros Hc Hr. cbn [dataReducer]. unfold restoreState. rewrite Hc.
  unfold restorable in Hr. apply Bool.andb_true_iff in Hr.
  destruct Hr as [Hp Hi].
  destruct (restoreFields_collection fs "productions"
              ltac:(left; reflexivity) Hp) as [lp [Ep [Hlp _]]].
  destruct (restoreFields_collection fs "items"
              ltac:(right; left; reflexivity) Hi) as [li [Ei [Hli Hnil]]].
  destruct (processState_ok _ lp li Ep Hlp Ei Hli) as [items [E [Ho Hlen]]].
  exists items. split; [exact E|]. split; [exact Ho|]. split.
  - intros A. rewrite (Hnil A) in Hlen.
    destruct items; [reflexivity|discriminate Hlen].
  - intros li' Hli'. rewrite Hlen. f_equal.
    rewrite get_restoreFields in Ei.
    change (mem "items" restoreOrKeys) with true in Ei. cbv iota in Ei.
    rewrite Hli' in Ei. cbn in Ei. injection Ei as <-. reflexivity.
Qed.

(** A key that the snapshot holds as an array keeps it. *)
Lemma restoreFields_kept (fs : obj) (k : string) (l : list value) :
  In k (keys getInitialState) -> get k fs = VArr l ->
  get k (restoreFields fs) = VArr l.
Proof.
  intros Hk Hl. rewrite get_restoreFields, Hl.
  pose proof (restore_covers k Hk) as C.
  destruct (mem k restoreOrKeys); [reflexivity|].
  destruct (mem k restoreNullishKeys); [reflexivity|].
  destruct (mem k restorePlannerKeys); [reflexivity|discriminate C].
Qed.

(** C7.  Serialising replaces every undefined field value by null, at
    any depth, and leaves every other value unchanged; and applying
    RESTORE_STATE to a payload of valid shape never drops a top-level
    collection: the result has every key of the default initial state,
    every such key that is missing or null in the payload holds its
    default, and every such key that the payload holds as an array keeps
    that array (the items keep their number; each gains its
    nextBaleNumber). *)
Theorem serialise_and_restore (st : AppState) (fs : obj) (v : value) :
  has_key "customers" fs = true -> restorable fs = true ->
  (nulled v (convertUndefinedToNull v)
   /\ noUndefinedField (convertUndefinedToNull v) = true
   /\ (noUndefinedField v = true -> convertUndefinedToNull v = v))
  /\ exists st',
       dataReducer h st (RESTORE_STATE (VObj fs)) = Ok st'
       /\ forall k, In k (keys getInitialState) ->
            has_key k st' = true
            /\ (absent (get k fs) = true ->
                get k st' = get k getInitialState)
            /\ (forall l, get k fs = VArr l ->
                  if String.eqb k "items"
                  then exists items, get k st' = VArr items
                                     /\ length items = length l
                  else get k st' = VArr l).
Proof.
  intros Hc Hr. split.
  - split; [apply convert_nulled|].
    split; [apply convert_noUndefinedField|apply convert_fixed].
  - destruct (restore_result st fs Hc Hr) as [items [E [_ [Hnil Hlen]]]].
    eexists. split; [exact E|].
    intros k Hk. split; [|split].
    + rewrite has_key_set, has_key_restoreFields, (restore_covers k Hk).
      apply Bool.orb_true_r.
    + intros A. destruct (string_dec k "items") as [->|Hne].
      * rewrite get_set_same, (Hnil A). reflexivity.
      * rewrite get_set_other by exact Hne.
        apply restoreFields_default; assumption.
    + intros l Hl. destruct (String.eqb k "items") eqn:Ek.
      * apply String.eqb_eq in Ek. subst k. exists items.
        split; [apply get_set_same|apply Hlen; exact Hl].
      * apply String.eqb_neq in Ek. rewrite get_set_other by exact Ek.
        apply restoreFields_kept; assumption.
Qed.

End Restore.

Section RestoreItems.

Import JS Value Store StoreSpec ReducerSpec.
Local Open Scope string_scope.
Local Open Scope js_scope.

Variable h : Host.

(** The restored state, written out. *)
Lemma restore_explicit (st : AppState) (fs : obj) :
  has_key "customers" fs = true -> restorable fs = true ->
  exists lp li,
    get "productions" (restoreFields fs) = VArr lp
    /\ forallb is_object lp = true
    /\ get "items" (restoreFields fs) = VArr li
    /\ forallb is_object li = true
    /\ dataReducer h st (RESTORE_STATE (VObj fs))
       = Ok (set "items" (VArr (map (numbered h (tally h lp)) li))
                 (restoreFields fs)).
Proof.
  intros Hc Hr. cbn [dataReducer]. unfold restoreState. rewrite Hc.
  unfold restorable in Hr. apply Bool.andb_true_iff in Hr.
  destruct Hr as [Hp Hi].
  destruct (restoreFields_collection fs "productions"
              ltac:(left; reflexivity) Hp) as [lp [Ep [Hlp _]]].
  destruct (restoreFields_collection fs "items"
              ltac:(right; left; reflexivity) Hi) as [li [Ei [Hli _]]].
  exists lp, li. repeat (split; [assumption|]).
  apply processState_explicit; assumption.
Qed.


End RestoreItems.

Section RestoreExamples.

Import JS Value Store StoreSpec.
Local Open Scope string_scope.

(** Witness of C7: a state with an undefined field inside a record and no
    employees key is serialised and restored. *)
Lemma serialise_and_restore_witness :
  convertUndefinedToNull
    (VObj [("customers", VArr [VObj [("id", VStr "C1");
                                     ("phone", VUndefined)]]);
           ("employees", VUndefined)])
  = VObj [("customers", VArr [VObj [("id", VStr "C1"); ("phone", VNull)]]);
          ("employees", VNull)]
  /\ exists st',
       dataReducer ExampleHost.host getInitialState
         (RESTORE_STATE
            (VObj [("customers",
                    VArr [VObj [("id", VStr "C1"); ("phone", VNull)]]);
                   ("employees", VNull)])) = Ok st'
       /\ get "employees" st' = VArr []
       /\ get "nextInvoiceNumber" st' = one.
Proof.
  split; [reflexivity|].
  destruct (serialise_and_restore ExampleHost.host getInitialState
              [("customers",
                VArr [VObj [("id", VStr "C1"); ("phone", VNull)]]);
               ("employees", VNull)]
              VNull eq_refl eq_refl) as [_ [st' [E H]]].
  exists st'. split; [exact E|]. split.
  - apply (proj1 (proj2 (H "employees" ltac:(vm_compute; intuition)))).
    reflexivity.
  - apply (proj1 (proj2 (H "nextInvoiceNumber"
                           ltac:(vm_compute; intuition)))).
    reflexivity.
Defined.

End RestoreExamples.

(* ===================================================================== *)
(** * The reducer on the collections that the state holds               *)
(* ===================================================================== *)

Section Shapes.

Import JS Value Store StoreSpec.
Local Open Scope string_scope.
Local Open Scope js_scope.

(** The stored entities are the keys of [getInitialState] that
    [EntityName] does not omit. *)
Lemma storedEntities_keys :
  storedEntities
  = filter (fun k => negb (mem k omitted)) (keys getInitialState).
Proof. vm_compute. reflexivity. Qed.

(** [EntityName] is [keyof Omit<AppState, ...>], the keys of [AppState]
    being those of [getInitialState] and the two overtime collections. *)
Lemma EntityName_keys :
  EntityName
  = filter (fun k => negb (mem k omitted))
           (keys getInitialState ++ ["overtimeRecords"; "overtimePressRecords"]).
Proof. vm_compute. reflexivity. Qed.

Lemma favorite_not_entity : mem "favoriteCombinations" storedEntities = false.
Proof. vm_compute. reflexivity. Qed.

Lemma planner_not_entity (k : string) :
  In k plannerIdKeys ->
  mem k storedEntities = false /\ String.eqb k "favoriteCombinations" = false.
Proof.
  intros Hk. vm_compute in Hk.
  repeat (destruct Hk as [<-|Hk]; [split; vm_compute; reflexivity|]).
  contradiction.
Qed.

(** A state is well formed when each key holds a value of its shape. *)
Lemma wf_state_spec (st : AppState) :
  wf_state st = true <-> forall k, shapeOk k (get k st) = true.
Proof.
  unfold wf_state. rewrite !Bool.andb_true_iff, !forallb_forall. split.
  - intros [[He Hf] Hp] k. unfold shapeOk.
    destruct (mem k storedEntities) eqn:Ek.
    + apply He. apply mem_In. exact Ek.
    + destruct (String.eqb k "favoriteCombinations") eqn:Ef.
      * apply String.eqb_eq in Ef. subst k. exact Hf.
      * destruct (mem k plannerIdKeys) eqn:Ep; [|reflexivity].
        apply Hp. apply mem_In. exact Ep.
  - intros H. split; [split|].
    + intros k Hk. specialize (H k). unfold shapeOk in H.
      apply mem_In in Hk. rewrite Hk in H. exact H.
    + specialize (H "favoriteCombinations"). unfold shapeOk in H.
      rewrite favorite_not_entity, String.eqb_refl in H. exact H.
    + intros k Hk. specialize (H k). unfold shapeOk in H.
      destruct (planner_not_entity k Hk) as [E1 E2]. rewrite E1, E2 in H.
      apply mem_In in Hk. rewrite Hk in H. exact H.
Qed.

Lemma wf_set (st : AppState) (k : string) (v : value) :
  wf_state st = true -> shapeOk k v = true -> wf_state (set k v st) = true.
Proof.
  rewrite !wf_state_spec. intros H Hv k'.
  destruct (string_dec k' k) as [->|Hne].
  - rewrite get_set_same. exact Hv.
  - rewrite get_set_other by exact Hne. apply H.
Qed.

Lemma wf_set_all (kvs : list (string * value)) (st : AppState) :
  wf_state st = true ->
  forallb (fun kv => shapeOk (fst kv) (snd kv)) kvs = true ->
  wf_state (set_all kvs st) = true.
Proof.
  unfold set_all. revert st.
  induction kvs as [|[k v] kvs IH]; intros st H Hk; simpl; [exact H|].
  simpl in Hk. apply Bool.andb_true_iff in Hk. destruct Hk as [Hv Hk].
  apply IH; [|exact Hk]. apply wf_set; assumption.
Qed.

Lemma wf_entity (st : AppState) (k : string) :
  wf_state st = true -> mem k storedEntities = true ->
  exists l, get k st = VArr l /\ forallb is_object l = true.
Proof.
  rewrite wf_state_spec. intros H Hk. specialize (H k).
  unfold shapeOk in H. rewrite Hk in H.
  destruct (get k st) as [| | | | |l|]; try discriminate H.
  exists l. split; [reflexivity|exact H].
Qed.

End Shapes.

Section Total.

Import JS Value Store StoreSpec.
Local Open Scope string_scope.
Local Open Scope js_scope.

Variable h : Host.

(** Induction on actions, through the payload of a batch. *)
Lemma Action_induction (P : Action -> Prop) :
  (forall entity data, P (ADD_ENTITY entity data)) ->
  (forall entity data, P (UPDATE_ENTITY entity data)) ->
  (forall entity id, P (DELETE_ENTITY entity id)) ->
  (forall payload, P (RESTORE_STATE payload)) ->
  (forall date, P (TOGGLE_FAVORITE_COMBINATION date)) ->
  (forall payload, P (SET_PLANNER_DATA payload)) ->
  (forall payload, Forall P payload -> P (BATCH_UPDATE payload)) ->
  P HARD_RESET_TRANSACTIONS ->
  (forall entityType entityId, P (ADD_PLANNER_ENTITY entityType entityId)) ->
  (forall entityType entityId,
     P (REMOVE_PLANNER_ENTITY entityType entityId)) ->
  (forall type payload, P (OtherAction type payload)) ->
  forall a, P a.
Proof.
  intros Ha Hu Hd Hr Ht Hs Hb Hh Hp Hq Ho.
  fix IH 1. intros [e d|e d|e i|p|d|p|l| |t i|t i|t p].
  - apply Ha.
  - apply Hu.
  - apply Hd.
  - apply Hr.
  - apply Ht.
  - apply Hs.
  - apply Hb. induction l as [|a l IHl]; constructor; [apply IH|exact IHl].
  - exact Hh.
  - apply Hp.
  - apply Hq.
  - apply Ho.
Qed.

Lemma counter_shape (k : string) (v : value) :
  mem k storedEntities = false -> String.eqb k "favoriteCombinations" = false ->
  mem k plannerIdKeys = false -> shapeOk k v = true.
Proof. intros E1 E2 E3. unfold shapeOk. rewrite E1, E2, E3. reflexivity. Qed.

Lemma wf_bump (state ns : AppState) (counter : string) :
  wf_state ns = true ->
  mem counter storedEntities = false ->
  String.eqb counter "favoriteCombinations" = false ->
  mem counter plannerIdKeys = false ->
  wf_state (bump h state counter ns) = true.
Proof.
  intros H E1 E2 E3. unfold bump. apply wf_set; [exact H|].
  apply counter_shape; assumption.
Qed.

Lemma wf_bumpEntityCounters (state ns : AppState) (entity : string) :
  wf_state ns = true ->
  wf_state (bumpEntityCounters h state entity ns) = true.
Proof.
  unfold bumpEntityCounters.
  assert (T : forallb (fun ec => negb (mem (snd ec) storedEntities)
                                 && negb (String.eqb (snd ec)
                                            "favoriteCombinations")
                                 && negb (mem (snd ec) plannerIdKeys))
                      entityCounters = true) by (vm_compute; reflexivity).
  revert ns T. generalize entityCounters as table.
  induction table as [|[e c] table IH]; intros ns T H; simpl; [exact H|].
  simpl in T. apply Bool.andb_true_iff in T. destruct T as [Tc T].
  apply IH; [exact T|].
  destruct (String.eqb entity e); [|exact H].
  apply Bool.andb_true_iff in Tc. destruct Tc as [Tc T3].
  apply Bool.andb_true_iff in Tc. destruct Tc as [T1 T2].
  simpl in T1, T2, T3.
  apply Bool.negb_true_iff in T1, T2, T3.
  apply wf_bump; assumption.
Qed.

Lemma voucherCounter_shape (c : string) (v : value) :
  In c voucherCounters -> shapeOk c v = true.
Proof.
  intros Hc. vm_compute in Hc.
  repeat (destruct Hc as [<-|Hc]; [reflexivity|]). contradiction.
Qed.

Lemma preserves_add (entity : string) (data : value) :
  preserves h (ADD_ENTITY entity data).
Proof.
  intros st Hwf Ht. unfold supported in *; cbn [typedOver dataReducer] in *.
  apply Bool.andb_true_iff in Ht. destruct Ht as [He Hd].
  destruct (wf_entity st entity Hwf He) as [l [Hl Hobj]].
  assert (Hshape : forall d, is_object d = true ->
                     shapeOk entity (VArr (l ++ [d])) = true).
  { intros d Hdo. unfold shapeOk. rewrite He. simpl.
    rewrite forallb_app, Hobj. simpl. rewrite Hdo. reflexivity. }
  destruct (String.eqb entity "journalEntries") eqn:Ej.
  - apply String.eqb_eq in Ej. subst entity.
    destruct data as [| | | | | |d]; try discriminate Hd.
    unfold is_journalEntry in Hd.
    destruct (get "voucherId" d) as [| | | |vid| |] eqn:Hv;
      try discriminate Hd.
    rewrite (addEntity_journal h _ _ _ _ Hl Hobj Hv). cbv zeta.
    eexists. split; [reflexivity|].
    assert (Hns : wf_state (set "journalEntries" (VArr (l ++ [VObj d])) st)
                  = true)
      by (apply wf_set; [exact Hwf|apply Hshape; reflexivity]).
    destruct (voucherKnown l d); [exact Hns|].
    destruct (selected d (voucherSeries h)) as [c|] eqn:Hs; [|exact Hns].
    unfold bump. apply wf_set; [exact Hns|].
    apply voucherCounter_shape. apply (selected_counter h d c Hs).
  - apply String.eqb_neq in Ej.
    rewrite (addEntity_plain h _ _ data _ Ej Hl).
    eexists. split; [reflexivity|].
    apply wf_bumpEntityCounters. apply wf_set; [exact Hwf|].
    apply Hshape. exact Hd.
Qed.

Lemma preserves_update (entity : string) (data : value) :
  preserves h (UPDATE_ENTITY entity data).
Proof.
  intros st Hwf Ht. unfold supported in *; cbn [typedOver dataReducer] in *.
  apply Bool.andb_true_iff in Ht. destruct Ht as [He Hd].
  destruct (wf_entity st entity Hwf He) as [l [Hl Hobj]].
  unfold updateEntity. rewrite Hl. cbn [as_array bind].
  match goal with
  | |- context [map_r ?f l] =>
      destruct (map_r_objects f l) as [items [E [Ho _]]]
  end.
  - intros x Hx. destruct x; try discriminate Hx.
    destruct data; try discriminate Hd. simpl.
    match goal with
    | |- context [if ?b then _ else _] => destruct b
    end; eexists; split; reflexivity.
  - exact Hobj.
  - rewrite E. cbn [bind]. eexists. split; [reflexivity|].
    apply wf_set; [exact Hwf|]. unfold shapeOk. rewrite He. exact Ho.
Qed.

Lemma filter_r_objects (f : value -> result bool) (l : list value) :
  (forall x, is_object x = true -> exists b, f x = Ok b) ->
  forallb is_object l = true ->
  exists ys, filter_r f l = Ok ys /\ forallb is_object ys = true.
Proof.
  intros Hf. induction l as [|x l IH]; intros Hl; simpl.
  - exists []. split; reflexivity.
  - apply Bool.andb_true_iff in Hl. destruct Hl as [Hx Hl].
    destruct (Hf x Hx) as [b E]. rewrite E. simpl.
    destruct (IH Hl) as [ys [E' Hys]]. rewrite E'. simpl.
    eexists. split; [reflexivity|].
    destruct b; simpl; [rewrite Hx|]; exact Hys.
Qed.

Lemma preserves_delete (entity : string) (id : value) :
  preserves h (DELETE_ENTITY entity id).
Proof.
  intros st Hwf He. unfold supported in *; cbn [typedOver dataReducer] in *.
  destruct (wf_entity st entity Hwf He) as [l [Hl Hobj]].
  unfold deleteEntity. rewrite Hl. cbn [as_array bind].
  match goal with
  | |- context [filter_r ?f l] =>
      destruct (filter_r_objects f l) as [items [E Ho]]
  end.
  - intros x Hx. destruct x; try discriminate Hx. simpl.
    eexists. reflexivity.
  - exact Hobj.
  - rewrite E. cbn [bind]. eexists. split; [reflexivity|].
    apply wf_set; [exact Hwf|]. unfold shapeOk. rewrite He. exact Ho.
Qed.

Lemma entity_restored (k : string) :
  mem k storedEntities = true -> mem k restoreOrKeys = true.
Proof.
  intros H. apply mem_In in H. apply mem_In.
  vm_compute in H. vm_compute. intuition.
Qed.

Lemma defaults_shaped : wf_state getInitialState = true.
Proof. vm_compute. reflexivity. Qed.

Lemma wf_restoreFields (fs : obj) :
  wf_payload fs = true ->
  forall k, shapeOk k (get k (restoreFields fs)) = true.
Proof.
  unfold wf_payload. rewrite !Bool.andb_true_iff, !forallb_forall.
  intros [[He Hf] Hp] k.
  pose proof (proj1 (wf_state_spec getInitialState) defaults_shaped k) as D.
  rewrite get_restoreFields. unfold shapeOk in *.
  destruct (mem k storedEntities) eqn:Ek.
  - rewrite (entity_restored k Ek).
    apply or_collection; [|exact D|exact arrayOfObjects_truthy].
    apply He. apply mem_In. exact Ek.
  - destruct (String.eqb k "favoriteCombinations") eqn:Ef.
    + apply String.eqb_eq in Ef. subst k.
      change (mem "favoriteCombinations" restoreOrKeys) with true.
      cbv iota.
      apply or_collection; [exact Hf|exact D|exact arrayOfFavorites_truthy].
    + destruct (mem k plannerIdKeys) eqn:Ep; [|reflexivity].
      apply mem_In in Ep.
      assert (Hk : absentOr is_array (get k fs) = true) by (apply Hp; exact Ep).
      vm_compute in Ep.
      repeat (destruct Ep as [<-|Ep];
              [apply or_collection;
               [exact Hk|reflexivity|exact is_array_truthy]|]).
      contradiction.
Qed.

Lemma payload_restorable (fs : obj) :
  wf_payload fs = true -> restorable fs = true.
Proof.
  unfold wf_payload, restorable.
  rewrite !Bool.andb_true_iff, !forallb_forall.
  intros [[He _] _]. split; apply He; vm_compute; intuition.
Qed.

Lemma preserves_restore (payload : value) :
  preserves h (RESTORE_STATE payload).
Proof.
  intros st Hwf Ht. unfold supported in Ht; cbn [typedOver] in Ht.
  destruct payload as [| | | | | |fs];
    try (exists st; split; [reflexivity|exact Hwf]).
  destruct (has_key "customers" fs) eqn:Hc.
  - destruct (restore_result h st fs Hc (payload_restorable fs Ht))
      as [items [E [Ho _]]].
    eexists. split; [exact E|].
    apply wf_state_spec. intros k.
    destruct (string_dec k "items") as [->|Hne].
    + rewrite get_set_same. exact Ho.
    + rewrite get_set_other by exact Hne. apply wf_restoreFields. exact Ht.
  - exists st. split; [|exact Hwf].
    cbn [dataReducer]. unfold restoreState. rewrite Hc. reflexivity.
Qed.

(** ** Favourites *)

Lemma some_favorites (f : value -> result bool) (l : list value) :
  (forall x, is_favorite x = true -> exists b, f x = Ok b) ->
  forallb is_favorite l = true ->
  exists b, some f l = Ok b.
Proof.
  intros Hf. induction l as [|x l IH]; intros Hl; simpl.
  - exists false. reflexivity.
  - apply Bool.andb_true_iff in Hl. destruct Hl as [Hx Hl].
    destruct (Hf x Hx) as [b E]. rewrite E. simpl.
    destruct b; [exists true; reflexivity|apply IH; exact Hl].
Qed.

Lemma filter_r_favorites (f : value -> result bool) (l : list value) :
  (forall x, is_favorite x = true -> exists b, f x = Ok b) ->
  forallb is_favorite l = true ->
  exists ys, filter_r f l = Ok ys /\ forallb is_favorite ys = true.
Proof.
  intros Hf. induction l as [|x l IH]; intros Hl; simpl.
  - exists []. split; reflexivity.
  - apply Bool.andb_true_iff in Hl. destruct Hl as [Hx Hl].
    destruct (Hf x Hx) as [b E]. rewrite E. simpl.
    destruct (IH Hl) as [ys [E' Hys]]. rewrite E'. simpl.
    eexists. split; [reflexivity|].
    destruct b; simpl; [rewrite Hx|]; exact Hys.
Qed.

Lemma byDate_favorites (a b : value) :
  is_favorite a = true -> is_favorite b = true ->
  exists c, byDateDescending h a b = Ok c.
Proof.
  intros Ha Hb. destruct a as [| | | | | |oa]; try discriminate Ha.
  destruct b as [| | | | | |ob]; try discriminate Hb.
  unfold byDateDescending. simpl in *.
  destruct (get "date" ob); try discriminate Hb.
  simpl. eexists. reflexivity.
Qed.

Lemma insert_favorites (x : value) (l : list value) :
  is_favorite x = true -> forallb is_favorite l = true ->
  exists l', insert_sorted (byDateDescending h) x l = Ok l'
             /\ forallb is_favorite l' = true.
Proof.
  intros Hx. induction l as [|y l IH]; intros Hl; simpl.
  - exists [x]. split; [reflexivity|]. simpl. rewrite Hx. reflexivity.
  - apply Bool.andb_true_iff in Hl. destruct Hl as [Hy Hl].
    destruct (byDate_favorites y x Hy Hx) as [c E]. rewrite E. simpl.
    destruct (c <=? 0)%Z.
    + destruct (IH Hl) as [l' [E' Hl']]. rewrite E'. simpl.
      eexists. split; [reflexivity|]. simpl. rewrite Hy. exact Hl'.
    + eexists. split; [reflexivity|]. simpl. rewrite Hx, Hy. exact Hl.
Qed.

Lemma sort_favorites (l : list value) :
  forallb is_favorite l = true ->
  exists l', sort (byDateDescending h) l = Ok l'
             /\ forallb is_favorite l' = true.
Proof.
  unfold sort.
  assert (G : forall acc, forallb is_favorite acc = true ->
              forallb is_favorite l = true ->
              exists l', fold_r (fun acc x =>
                                   insert_sorted (byDateDescending h) x acc)
                                l acc = Ok l'
                         /\ forallb is_favorite l' = true).
  { induction l as [|x l IH]; intros acc Hacc Hl; simpl.
    - exists acc. split; [reflexivity|exact Hacc].
    - apply Bool.andb_true_iff in Hl. destruct Hl as [Hx Hl].
      destruct (insert_favorites x acc Hx Hacc) as [acc' [E Hacc']].
      rewrite E. simpl. apply IH; assumption. }
  intros Hl. apply G; [reflexivity|exact Hl].
Qed.

Lemma wf_favorites (st : AppState) :
  wf_state st = true ->
  exists l, get "favoriteCombinations" st = VArr l
            /\ forallb is_favorite l = true.
Proof.
  rewrite wf_state_spec. intros H.
  specialize (H "favoriteCombinations"). unfold shapeOk in H.
  rewrite favorite_not_entity, String.eqb_refl in H.
  destruct (get "favoriteCombinations" st) as [| | | | |l|];
    try discriminate H.
  exists l. split; [reflexivity|exact H].
Qed.

Lemma favorites_shape (l : list value) :
  forallb is_favorite l = true ->
  shapeOk "favoriteCombinations" (VArr l) = true.
Proof.
  intros H. unfold shapeOk.
  rewrite favorite_not_entity, String.eqb_refl. exact H.
Qed.

Lemma preserves_toggle (date : value) :
  preserves h (TOGGLE_FAVORITE_COMBINATION date).
Proof.
  intros st Hwf Ht. unfold supported in *; cbn [typedOver dataReducer] in *.
  destruct date as [| | | |s| |]; try discriminate Ht.
  destruct (wf_favorites st Hwf) as [l [Hl Hfav]].
  unfold toggleFavorite. rewrite Hl. cbn [as_array bind].
  assert (Hcb : forall (g : value -> bool) x, is_favorite x = true ->
                  exists b, (d <- get_prop x "date" ;; Ok (g d)) = Ok b).
  { intros g x Hx. destruct x; try discriminate Hx. simpl.
    eexists. reflexivity. }
  match goal with
  | |- context [some ?f l] =>
      destruct (some_favorites f l) as [b E];
        [intros x Hx; apply (Hcb (fun d => strict_eq d (VStr s)) x Hx)
        |exact Hfav|]
  end.
  rewrite E. cbn [bind]. destruct b.
  - match goal with
    | |- context [filter_r ?f l] =>
        destruct (filter_r_favorites f l) as [kept [E' Hk]];
          [intros x Hx;
           apply (Hcb (fun d => negb (strict_eq d (VStr s))) x Hx)
          |exact Hfav|]
    end.
    rewrite E'. cbn [bind]. eexists. split; [reflexivity|].
    apply wf_set; [exact Hwf|apply favorites_shape; exact Hk].
  - destruct (sort_favorites (l ++ [VObj [("date", VStr s)]]))
      as [sorted [E' Hs]].
    + rewrite forallb_app, Hfav. reflexivity.
    + rewrite E'. cbn [bind]. eexists. split; [reflexivity|].
      apply wf_set; [exact Hwf|apply favorites_shape; exact Hs].
Qed.

(** ** Planner *)

Lemma preserves_set_planner (payload : value) :
  preserves h (SET_PLANNER_DATA payload).
Proof.
  intros st Hwf Ht. unfold supported in *; cbn [typedOver dataReducer] in *.
  destruct payload as [| | | | | |o]; try discriminate Ht.
  eexists. split; [reflexivity|]. cbn [spread].
  apply wf_set_all; [exact Hwf|].
  unfold keys in Ht. rewrite forallb_forall in Ht.
  apply forallb_forall. intros [k v] Hin. simpl.
  assert (Hk : mem k plannerDataKeys = true).
  { apply Ht. apply in_map_iff. exists (k, v). split; [reflexivity|exact Hin]. }
  apply mem_In in Hk. vm_compute in Hk.
  repeat (destruct Hk as [<-|Hk]; [reflexivity|]). contradiction.
Qed.

Lemma plannerKey_cases (entityType : string) :
  In (plannerKey entityType) plannerIdKeys.
Proof.
  unfold plannerKey, plannerIdKeys.
  destruct (String.eqb entityType "customer"); [left; reflexivity|].
  destruct (String.eqb entityType "supplier");
    [right; left; reflexivity|right; right; left; reflexivity].
Qed.

Lemma wf_planner (st : AppState) (k : string) :
  wf_state st = true -> In k plannerIdKeys ->
  (exists l, get k st = VArr l)
  /\ forall l, shapeOk k (VArr l) = true.
Proof.
  rewrite wf_state_spec. intros H Hk. specialize (H k).
  unfold shapeOk in *.
  destruct (planner_not_entity k Hk) as [E1 E2]. rewrite E1, E2 in *.
  apply mem_In in Hk. rewrite Hk in *. split.
  - destruct (get k st) as [| | | | |l|]; try discriminate H.
    exists l. reflexivity.
  - intros l. reflexivity.
Qed.

Lemma preserves_add_planner (entityType : string) (entityId : value) :
  preserves h (ADD_PLANNER_ENTITY entityType entityId).
Proof.
  intros st Hwf _. cbn [dataReducer].
  destruct (wf_planner st _ Hwf (plannerKey_cases entityType))
    as [[l Hl] Hshape].
  unfold addPlannerEntity. rewrite Hl. cbn [js_or truthy bind iterate].
  destruct (existsb (same_value_zero entityId) l).
  - exists st. split; [reflexivity|exact Hwf].
  - eexists. split; [reflexivity|]. apply wf_set; [exact Hwf|apply Hshape].
Qed.

Lemma preserves_remove_planner (entityType : string) (entityId : value) :
  preserves h (REMOVE_PLANNER_ENTITY entityType entityId).
Proof.
  intros st Hwf _. cbn [dataReducer].
  destruct (wf_planner st _ Hwf (plannerKey_cases entityType))
    as [[l Hl] Hshape].
  unfold removePlannerEntity. rewrite Hl. cbn [js_or truthy bind as_array].
  eexists. split; [reflexivity|]. apply wf_set; [exact Hwf|apply Hshape].
Qed.

Lemma preserves_hard_reset : preserves h HARD_RESET_TRANSACTIONS.
Proof.
  intros st Hwf _. cbn [dataReducer]. eexists. split; [reflexivity|].
  unfold hardReset. apply wf_set_all; [exact Hwf|].
  vm_compute. reflexivity.
Qed.

Lemma preserves_batch (payload : list Action) :
  Forall (preserves h) payload -> preserves h (BATCH_UPDATE payload).
Proof.
  intros HF st Hwf Ht. unfold supported in *; cbn [typedOver dataReducer] in *.
  revert st Hwf Ht.
  induction HF as [|a l Ha _ IH]; intros st Hwf Ht; simpl.
  - exists st. split; [reflexivity|exact Hwf].
  - simpl in Ht. apply Bool.andb_true_iff in Ht. destruct Ht as [Hta Htl].
    destruct (Ha st Hwf Hta) as [st1 [E1 Hwf1]]. rewrite E1.
    apply IH; assumption.
Qed.

(** Every supported action on a well-formed state returns a well-formed
    state. *)
Lemma reducer_preserves (a : Action) : preserves h a.
Proof.
  induction a using Action_induction.
  - apply preserves_add.
  - apply preserves_update.
  - apply preserves_delete.
  - apply preserves_restore.
  - apply preserves_toggle.
  - apply preserves_set_planner.
  - apply preserves_batch. assumption.
  - apply preserves_hard_reset.
  - apply preserves_add_planner.
  - apply preserves_remove_planner.
  - intros st Hwf _. exists st. split; [reflexivity|exact Hwf].
Qed.

Lemma initialState_shaped : wf_state (initialState h) = true.
Proof.
  unfold initialState.
  destruct (processState_ok h getInitialState [] [] eq_refl eq_refl
              eq_refl eq_refl) as [items [E [_ Hlen]]].
  rewrite E. destruct items; [|discriminate Hlen].
  vm_compute. reflexivity.
Qed.

(** Outside the action type: an entity name under which the state holds
    no collection cannot be spread. *)
Lemma add_entity_unknown_collection (st : AppState) (entity : string)
    (data : value) :
  get entity st = VUndefined ->
  dataReducer h st (ADD_ENTITY entity data) = Throw.
Proof.
  intros H. cbn [dataReducer]. unfold addEntity. rewrite H. reflexivity.
Qed.

Lemma initialState_value :
  initialState h = set "items" (VArr []) getInitialState.
Proof. reflexivity. Qed.

(** C5.  The reducer is not total on the actions of its type.  The
    overtime registers dispatch ADD_ENTITY, UPDATE_ENTITY and
    DELETE_ENTITY under the entity names 'overtimeRecords' and
    'overtimePressRecords'; these are actions of the type [Action] (an
    overtime record added is typed), yet the initial state, which is
    well formed, holds no collection under either name, and on it the
    reducer throws on each of these actions, whatever they carry. *)
Theorem reducer_throws_on_overtime (data id : value) :
  typed (ADD_ENTITY "overtimeRecords" overtimeRecord) = true
  /\ wf_state (initialState h) = true
  /\ Forall (fun entity =>
               mem entity EntityName = true
               /\ get entity (initialState h) = VUndefined
               /\ dataReducer h (initialState h) (ADD_ENTITY entity data)
                  = Throw
               /\ dataReducer h (initialState h) (UPDATE_ENTITY entity data)
                  = Throw
               /\ dataReducer h (initialState h) (DELETE_ENTITY entity id)
                  = Throw)
            ["overtimeRecords"; "overtimePressRecords"].
Proof.
  split; [vm_compute; reflexivity|].
  split; [exact initialState_shaped|].
  rewrite initialState_value.
  repeat constructor;
    try (vm_compute; reflexivity);
    try (apply add_entity_unknown_collection; vm_compute; reflexivity).
Qed.

End Total.

(* ===================================================================== *)
(** * The synchronisation layer                                           *)
(* ===================================================================== *)

Section Synchronisation.

Import JS Value Store StoreSpec Sync.
Local Open Scope string_scope.
Local Open Scope js_scope.

Variable h : Host.









End Synchronisation.

Section SynchronisationExamples.

Import JS Value Store StoreSpec Sync SyncSpec.
Local Open Scope string_scope.


End SynchronisationExamples.

(* ===================================================================== *)
(** * [UPDATE_ENTITY] and [DELETE_ENTITY]                                 *)
(* ===================================================================== *)

Section UpdateDelete.

Import JS Value Store StoreSpec ReducerSpec.
Local Open Scope string_scope.
Local Open Scope js_scope.

Variable h : Host.

Lemma filter_r_total (f : value -> result bool) (p : value -> bool)
    (l : list value) :
  (forall x, is_object x = true -> f x = Ok (p x)) ->
  forallb is_object l = true ->
  filter_r f l = Ok (filter p l).
Proof.
  intros Hf. induction l as [|x l IH]; intros Hl; simpl; [reflexivity|].
  apply Bool.andb_true_iff in Hl. destruct Hl as [Hx Hl].
  rewrite (Hf x Hx). simpl. rewrite (IH Hl). simpl.
  destruct (p x); reflexivity.
Qed.

Lemma set_set (k : string) (v v' : value) (o : obj) :
  set k v (set k v' o) = set k v o.
Proof.
  induction o as [|[k' w] o IH]; simpl.
  - rewrite String.eqb_refl. reflexivity.
  - destruct (String.eqb k k') eqn:E; simpl.
    + rewrite String.eqb_refl. reflexivity.
    + rewrite E, IH. reflexivity.
Qed.

Lemma set_same (k : string) (v : value) (o : obj) :
  lookup k o = Some v -> set k v o = o.
Proof.
  induction o as [|[k' w] o IH]; simpl; [discriminate|].
  destruct (String.eqb k k') eqn:E.
  - intros H. injection H as ->. apply String.eqb_eq in E. subst k'.
    reflexivity.
  - intros H. rewrite (IH H). reflexivity.
Qed.

Lemma updateEntity_result (st : AppState) (entity : string) (d : obj)
    (l : list value) :
  get entity st = VArr l -> forallb is_object l = true ->
  dataReducer h st (UPDATE_ENTITY entity (VObj d))
  = Ok (set entity (VArr (map (merged d) l)) st).
Proof.
  intros Hl Ho. cbn [dataReducer]. unfold updateEntity. rewrite Hl.
  cbn [as_array bind].
  rewrite (map_r_total _ (merged d) l); [reflexivity| |exact Ho].
  intros x Hx. destruct x; try discriminate Hx.
  unfold merged, hasId, field. simpl.
  destruct (strict_eq (get "id" o) (get "id" d)); reflexivity.
Qed.

Lemma deleteEntity_result (st : AppState) (entity : string) (id : value)
    (l : list value) :
  get entity st = VArr l -> forallb is_object l = true ->
  dataReducer h st (DELETE_ENTITY entity id)
  = Ok (set entity (VArr (filter (fun item => negb (hasId id item)) l)) st).
Proof.
  intros Hl Ho. cbn [dataReducer]. unfold deleteEntity. rewrite Hl.
  cbn [as_array bind].
  rewrite (filter_r_total _ (fun item => negb (hasId id item)) l);
    [reflexivity| |exact Ho].
  intros x Hx. destruct x; try discriminate Hx. reflexivity.
Qed.

Lemma lookup_In (k : string) (v : value) (o : obj) :
  lookup k o = Some v -> In (k, v) o.
Proof.
  induction o as [|[k' w] o IH]; simpl; [discriminate|].
  destruct (String.eqb k k') eqn:E.
  - intros H. injection H as ->. apply String.eqb_eq in E. subst k'.
    left. reflexivity.
  - intros H. right. apply IH. exact H.
Qed.

(** The fields of a merged record. *)
Lemma merged_fields (d o : obj) (k : string) :
  NoDup (keys d) ->
  get k (set_all d o) = if has_key k d then get k d else get k o.
Proof.
  intros Hnd. unfold has_key, get at 2.
  destruct (lookup k d) as [v|] eqn:E.
  - apply get_set_all_in; [exact Hnd|]. apply lookup_In. exact E.
  - apply get_set_all_other. intros Hin.
    apply in_map_iff in Hin. destruct Hin as [[k' v] [Ek Hin]].
    simpl in Ek. subst k'.
    clear Hnd. induction d as [|[k'' w] d IH]; [contradiction|].
    simpl in E. destruct (String.eqb k k'') eqn:E'; [discriminate|].
    destruct Hin as [Hin|Hin].
    + injection Hin as -> _. rewrite String.eqb_refl in E'. discriminate.
    + apply IH; assumption.
Qed.

(** X1.  UPDATE_ENTITY merges its payload into every record of the
    collection whose id is strictly equal to the payload's: such a record
    takes every field of the payload and keeps its other fields; the
    other records, their number and order, and every other key of the
    state are unchanged.  In particular a payload whose id no record
    carries changes nothing: there is no insertion. *)
Theorem update_entity_merges (st : AppState) (entity : string) (d : obj)
    (l : list value) :
  get entity st = VArr l -> forallb is_object l = true ->
  NoDup (keys d) ->
  exists l',
    dataReducer h st (UPDATE_ENTITY entity (VObj d))
    = Ok (set entity (VArr l') st)
    /\ Forall2 (fun item item' =>
                  if hasId (get "id" d) item
                  then exists o', item' = VObj o'
                         /\ forall k, get k o'
                                      = if has_key k d then get k d
                                        else field k item
                  else item' = item) l l'
    /\ (existsb (hasId (get "id" d)) l = false -> l' = l)
    /\ (forall k, k <> entity ->
          get k (set entity (VArr l') st) = get k st).
Proof.
  intros Hl Ho Hnd. exists (map (merged d) l).
  split; [apply updateEntity_result; assumption|].
  split; [|split].
  - clear Hl. induction l as [|x l IH]; simpl; constructor.
    + simpl in Ho. apply Bool.andb_true_iff in Ho. destruct Ho as [Hx _].
      destruct x; try discriminate Hx. unfold merged.
      destruct (hasId (get "id" d) (VObj o)); [|reflexivity].
      eexists. split; [reflexivity|]. intros k. simpl.
      apply merged_fields. exact Hnd.
    + apply IH. simpl in Ho. apply Bool.andb_true_iff in Ho. apply Ho.
  - clear Hl Ho. induction l as [|x l IH]; simpl; [reflexivity|].
    intros H. apply Bool.orb_false_iff in H. destruct H as [Hx Hr].
    unfold merged at 1. rewrite Hx, (IH Hr). reflexivity.
  - intros k Hk. apply get_set_other. exact Hk.
Qed.

(** X2.  DELETE_ENTITY keeps, in their order, exactly the records whose
    id is not strictly equal to the given one; every other key of the
    state is unchanged; and deleting the same id again changes
    nothing. *)
Theorem delete_entity_filters (st : AppState) (entity : string)
    (id : value) (l : list value) :
  get entity st = VArr l -> forallb is_object l = true ->
  exists st',
    dataReducer h st (DELETE_ENTITY entity id) = Ok st'
    /\ get entity st'
       = VArr (filter (fun item => negb (hasId id item)) l)
    /\ (existsb (hasId id) l = false -> get entity st' = VArr l)
    /\ (forall k, k <> entity -> get k st' = get k st)
    /\ dataReducer h st' (DELETE_ENTITY entity id) = Ok st'.
Proof.
  intros Hl Ho.
  set (l' := filter (fun item => negb (hasId id item)) l).
  exists (set entity (VArr l') st).
  split; [apply deleteEntity_result; assumption|].
  split; [apply get_set_same|]. split; [|split].
  - intros Hn. rewrite get_set_same. f_equal. unfold l'.
    clear Hl Ho l'. induction l as [|x l IH]; simpl; [reflexivity|].
    simpl in Hn. apply Bool.orb_false_iff in Hn. destruct Hn as [Hx Hr].
    rewrite Hx. simpl. rewrite (IH Hr). reflexivity.
  - intros k Hk. apply get_set_other. exact Hk.
  - rewrite (deleteEntity_result _ entity id l').
    + rewrite set_set. f_equal. f_equal. f_equal. unfold l'.
      clear. induction l as [|x l IH]; simpl; [reflexivity|].
      destruct (hasId id x) eqn:E; simpl; [exact IH|].
      rewrite E. simpl. rewrite IH. reflexivity.
    + apply get_set_same.
    + unfold l'. clear Hl. induction l as [|x l IH]; simpl; [reflexivity|].
      simpl in Ho. apply Bool.andb_true_iff in Ho. destruct Ho as [Hx Hr].
      destruct (hasId id x); simpl; [apply IH; exact Hr|].
      rewrite Hx. apply IH. exact Hr.
Qed.

End UpdateDelete.

Section UpdateDeleteExamples.

Import JS Value Store StoreSpec ReducerSpec.
Local Open Scope string_scope.

Lemma update_entity_merges_witness :
  exists l',
    dataReducer ExampleHost.host
      (set "employees"
           (VArr [VObj [("id", VStr "E1"); ("fullName", VStr "A");
                        ("basicSalary", num_of_Z 1500)]])
           getInitialState)
      (UPDATE_ENTITY "employees"
         (VObj [("id", VStr "E1"); ("basicSalary", num_of_Z 1800)]))
    = Ok (set "employees" (VArr l')
            (set "employees"
               (VArr [VObj [("id", VStr "E1"); ("fullName", VStr "A");
                            ("basicSalary", num_of_Z 1500)]])
               getInitialState))
    /\ Forall2 (fun item item' =>
                  if hasId (VStr "E1") item
                  then exists o', item' = VObj o'
                         /\ forall k, get k o'
                              = if has_key k [("id", VStr "E1");
                                              ("basicSalary", num_of_Z 1800)]
                                then get k [("id", VStr "E1");
                                            ("basicSalary", num_of_Z 1800)]
                                else field k item
                  else item' = item)
               [VObj [("id", VStr "E1"); ("fullName", VStr "A");
                      ("basicSalary", num_of_Z 1500)]] l'.
Proof.
  destruct (update_entity_merges ExampleHost.host
              (set "employees"
                 (VArr [VObj [("id", VStr "E1"); ("fullName", VStr "A");
                              ("basicSalary", num_of_Z 1500)]])
                 getInitialState)
              "employees"
              [("id", VStr "E1"); ("basicSalary", num_of_Z 1800)]
              [VObj [("id", VStr "E1"); ("fullName", VStr "A");
                     ("basicSalary", num_of_Z 1500)]])
    as [l' [R [F _]]].
  - reflexivity.
  - reflexivity.
  - repeat (constructor; [simpl; intuition discriminate|]). constructor.
  - exists l'. split; [exact R|exact F].
Defined.

Lemma delete_entity_filters_witness :
  exists st',
    dataReducer ExampleHost.host
      (set "attendanceRecords"
           (VArr [VObj [("id", VStr "ATT-E1-2024-01-05")];
                  VObj [("id", VStr "ATT-E2-2024-01-05")]])
           getInitialState)
      (DELETE_ENTITY "attendanceRecords" (VStr "ATT-E1-2024-01-05"))
    = Ok st'
    /\ get "attendanceRecords" st'
       = VArr [VObj [("id", VStr "ATT-E2-2024-01-05")]].
Proof.
  destruct (delete_entity_filters ExampleHost.host
              (set "attendanceRecords"
                 (VArr [VObj [("id", VStr "ATT-E1-2024-01-05")];
                        VObj [("id", VStr "ATT-E2-2024-01-05")]])
                 getInitialState)
              "attendanceRecords" (VStr "ATT-E1-2024-01-05")
              [VObj [("id", VStr "ATT-E1-2024-01-05")];
               VObj [("id", VStr "ATT-E2-2024-01-05")]])
    as [st' [R [G _]]].
  - reflexivity.
  - reflexivity.
  - exists st'. split; [exact R|exact G].
Defined.

End UpdateDeleteExamples.

(* ===================================================================== *)
(** * How the actions compose                                             *)
(* ===================================================================== *)

Section Compose.

Import JS Value Store StoreSpec ReducerSpec.
Local Open Scope string_scope.
Local Open Scope js_scope.

Variable h : Host.

Lemma filter_fresh (id : value) (l : list value) :
  existsb (hasId id) l = false ->
  filter (fun item => negb (hasId id item)) l = l.
Proof.
  induction l as [|x l IH]; simpl; [reflexivity|].
  intros H. apply Bool.orb_false_iff in H. destruct H as [Hx Hr].
  rewrite Hx. simpl. rewrite (IH Hr). reflexivity.
Qed.

(** X3.  Adding a record whose string id no record of the collection
    carries and then deleting that id gives the collection back, yet the
    counter that the addition advanced stays advanced (DELETE_ENTITY
    writes nothing but the collection): a document number is not
    reused. *)
Theorem add_then_delete (st : AppState) (entity : string) (d : obj)
    (l : list value) (i : string) :
  get entity st = VArr l -> forallb is_object l = true ->
  entity <> "journalEntries" ->
  get "id" d = VStr i -> existsb (hasId (VStr i)) l = false ->
  exists st1 st2,
    dataReducer h st (ADD_ENTITY entity (VObj d)) = Ok st1
    /\ dataReducer h st1 (DELETE_ENTITY entity (VStr i)) = Ok st2
    /\ get entity st2 = VArr l
    /\ (forall k, k <> entity -> get k st2 = get k st1)
    /\ (forall counter n, In (entity, counter) entityCounters ->
          get counter st = VNum (Num n) ->
          get counter st2 = VNum (Num (n + 1))).
Proof.
  intros Hl Ho Hne Hi Hfresh.
  destruct (addEntity_result h st entity (VObj d) l Hl
              ltac:(intros E; contradiction)) as [st1 [R1 [G1 C1]]].
  assert (Ho1 : forallb is_object (l ++ [VObj d]) = true)
    by (rewrite forallb_app, Ho; reflexivity).
  pose proof (deleteEntity_result h st1 entity (VStr i) (l ++ [VObj d])
                G1 Ho1) as R2.
  assert (F2 : forall k, k <> entity ->
            get k (set entity
                     (VArr (filter (fun item => negb (hasId (VStr i) item))
                                   (l ++ [VObj d]))) st1) = get k st1)
    by (intros k Hk; apply get_set_other; exact Hk).
  exists st1. eexists. split; [exact R1|]. split; [exact R2|].
  split; [|split].
  - rewrite get_set_same, filter_app, (filter_fresh _ l Hfresh). simpl.
    unfold hasId at 1. simpl. rewrite Hi. simpl.
    rewrite String.eqb_refl. simpl. rewrite app_nil_r. reflexivity.
  - exact F2.
  - intros counter n Hin Hn. rewrite F2.
    + rewrite (C1 counter Hin), Hn. reflexivity.
    + intros E. subst counter.
      apply (entityCounters_disjoint entity).
      * apply in_map_iff. exists (entity, entity). split; [reflexivity|exact Hin].
      * apply in_map_iff. exists (entity, entity). split; [reflexivity|exact Hin].
Qed.

(** ** Planner lists *)

(** X4.  ADD_PLANNER_ENTITY adds an id at most once: an id already in the
    list (a missing list counting as empty) leaves the state as it is, so
    adding twice is adding once; and removing a string id that was not in
    the list before its addition gives the list back. *)
Theorem planner_add_once (st : AppState) (entityType : string)
    (id : string) (l : list value) :
  js_or (get (plannerKey entityType) st) (VArr []) = VArr l ->
  exists st1,
    dataReducer h st (ADD_PLANNER_ENTITY entityType (VStr id)) = Ok st1
    /\ (existsb (same_value_zero (VStr id)) l = true -> st1 = st)
    /\ (existsb (same_value_zero (VStr id)) l = false ->
        get (plannerKey entityType) st1 = VArr (l ++ [VStr id]))
    /\ dataReducer h st1 (ADD_PLANNER_ENTITY entityType (VStr id)) = Ok st1
    /\ (existsb (same_value_zero (VStr id)) l = false ->
        exists st2,
          dataReducer h st1 (REMOVE_PLANNER_ENTITY entityType (VStr id))
          = Ok st2
          /\ get (plannerKey entityType) st2 = VArr l).
Proof.
  intros Hl. cbn [dataReducer]. unfold addPlannerEntity. rewrite Hl.
  cbn [bind iterate].
  assert (Hself : forall l0, existsb (same_value_zero (VStr id))
                               (l0 ++ [VStr id]) = true).
  { intros l0. rewrite existsb_app. simpl. rewrite String.eqb_refl.
    simpl. apply Bool.orb_true_r. }
  destruct (existsb (same_value_zero (VStr id)) l) eqn:E.
  - exists st. split; [reflexivity|]. split; [reflexivity|].
    split; [discriminate|]. split; [|discriminate].
    rewrite Hl. cbn [bind]. rewrite E. reflexivity.
  - eexists. split; [reflexivity|]. split; [discriminate|].
    split; [intros _; apply get_set_same|]. split.
    + rewrite get_set_same. cbn [js_or truthy bind]. rewrite Hself.
      reflexivity.
    + intros _. unfold removePlannerEntity. rewrite get_set_same.
      cbn [js_or truthy bind as_array]. eexists. split; [reflexivity|].
      rewrite get_set_same. f_equal. rewrite filter_app. simpl.
      rewrite String.eqb_refl. simpl. rewrite app_nil_r.
      clear Hl Hself. induction l as [|x l IH]; simpl; [reflexivity|].
      simpl in E. apply Bool.orb_false_iff in E. destruct E as [Ex Er].
      assert (Es : strict_eq x (VStr id) = false).
      { destruct x as [| |b|n|s|l0|o]; try reflexivity;
          [destruct n; reflexivity|]. simpl in Ex |- *.
        rewrite String.eqb_sym. exact Ex. }
      rewrite Es. simpl. rewrite (IH Er). reflexivity.
Qed.

(** ** Batches *)

Lemma fold_throw (l : list Action) :
  fold_left (fun currentState currentAction =>
               s <- currentState ;; dataReducer h s currentAction)
            l Throw = Throw.
Proof. induction l as [|a l IH]; simpl; [reflexivity|exact IH]. Qed.

Lemma batch_cons (st : AppState) (a : Action) (l : list Action) :
  dataReducer h st (BATCH_UPDATE (a :: l))
  = (s <- dataReducer h st a ;; dataReducer h s (BATCH_UPDATE l)).
Proof.
  cbn [dataReducer fold_left bind].
  destruct (dataReducer h st a) as [s|]; cbn [bind]; [reflexivity|].
  apply fold_throw.
Qed.

(** X5.  BATCH_UPDATE is sequential composition: the empty batch is the
    identity, a batch of one action is that action, the batch of a
    concatenation is the first batch followed by the second, a batch
    nested in a batch can be flattened, and when a step throws the whole
    batch throws. *)
Theorem batch_composes (st : AppState) (a : Action) (l1 l2 : list Action) :
  dataReducer h st (BATCH_UPDATE []) = Ok st
  /\ dataReducer h st (BATCH_UPDATE [a]) = dataReducer h st a
  /\ dataReducer h st (BATCH_UPDATE (l1 ++ l2))
     = (s <- dataReducer h st (BATCH_UPDATE l1) ;;
        dataReducer h s (BATCH_UPDATE l2))
  /\ dataReducer h st (BATCH_UPDATE (BATCH_UPDATE l1 :: l2))
     = dataReducer h st (BATCH_UPDATE (l1 ++ l2))
  /\ (dataReducer h st (BATCH_UPDATE l1) = Throw ->
      dataReducer h st (BATCH_UPDATE (l1 ++ l2)) = Throw).
Proof.
  assert (App : forall l1 l2 st,
            dataReducer h st (BATCH_UPDATE (l1 ++ l2))
            = (s <- dataReducer h st (BATCH_UPDATE l1) ;;
               dataReducer h s (BATCH_UPDATE l2))).
  { clear. intros l1 l2. induction l1 as [|a l1 IH]; intros st.
    - reflexivity.
    - change ((a :: l1) ++ l2)%list with (a :: (l1 ++ l2))%list.
      rewrite !batch_cons.
      destruct (dataReducer h st a) as [s|]; cbn [bind]; [apply IH|].
      reflexivity. }
  split; [reflexivity|]. split.
  - rewrite batch_cons. destruct (dataReducer h st a); reflexivity.
  - split; [apply App|]. split.
    + rewrite batch_cons, App. reflexivity.
    + intros H. rewrite App, H. reflexivity.
Qed.

(** ** The reset *)

Lemma lookup_set_all_other (k : string) (kvs : list (string * value))
    (o : obj) :
  ~ In k (map fst kvs) -> lookup k (set_all kvs o) = lookup k o.
Proof.
  unfold set_all. revert o.
  induction kvs as [|[k' v'] kvs IH]; intros o Hn; simpl; [reflexivity|].
  rewrite IH by (intros Hin; apply Hn; right; exact Hin).
  apply lookup_set_other. intros E. apply Hn. left. symmetry. exact E.
Qed.

Lemma lookup_set_all_in (k : string) (v : value)
    (kvs : list (string * value)) (o : obj) :
  NoDup (map fst kvs) -> In (k, v) kvs ->
  lookup k (set_all kvs o) = Some v.
Proof.
  unfold set_all. revert o.
  induction kvs as [|[k' v'] kvs IH]; intros o Hnd Hin; simpl.
  - contradiction.
  - simpl in Hnd. inversion Hnd as [|? ? Hnotin Hnd']; subst.
    destruct Hin as [E|Hin].
    + inversion E; subst. fold (set_all kvs (set k v o)).
      rewrite lookup_set_all_other by exact Hnotin.
      apply lookup_set_same.
    + apply IH; assumption.
Qed.

(** Writes that the object already holds change nothing. *)
Lemma set_all_fixed (kvs : list (string * value)) (o : obj) :
  (forall k v, In (k, v) kvs -> lookup k o = Some v) ->
  set_all kvs o = o.
Proof.
  unfold set_all. induction kvs as [|[k v] kvs IH]; intros H; simpl.
  - reflexivity.
  - rewrite (set_same k v o) by (apply H; left; reflexivity).
    apply IH. intros k' v' Hin. apply H. right. exact Hin.
Qed.

(** X6.  HARD_RESET_TRANSACTIONS is idempotent: resetting a state that
    was just reset returns that very state. *)
Theorem hard_reset_idempotent (st : AppState) :
  exists st',
    dataReducer h st HARD_RESET_TRANSACTIONS = Ok st'
    /\ dataReducer h st' HARD_RESET_TRANSACTIONS = Ok st'.
Proof.
  exists (hardReset st). split; [reflexivity|].
  cbn [dataReducer]. f_equal. unfold hardReset at 1.
  apply set_all_fixed. intros k v Hin. unfold hardReset.
  apply lookup_set_all_in; [exact resetWrites_NoDup|exact Hin].
Qed.

End Compose.

Section ComposeExamples.

Import JS Value Store StoreSpec ReducerSpec.
Local Open Scope string_scope.

Lemma add_then_delete_witness :
  exists st1 st2,
    dataReducer ExampleHost.host getInitialState
      (ADD_ENTITY "salesInvoices" (VObj [("id", VStr "SI-1")])) = Ok st1
    /\ dataReducer ExampleHost.host st1
         (DELETE_ENTITY "salesInvoices" (VStr "SI-1")) = Ok st2
    /\ get "salesInvoices" st2 = VArr []
    /\ get "nextInvoiceNumber" st2 = VNum (Num (1 + 1)).
Proof.
  destruct (add_then_delete ExampleHost.host getInitialState "salesInvoices"
              [("id", VStr "SI-1")] [] "SI-1")
    as [st1 [st2 [R1 [R2 [G [_ C]]]]]].
  - reflexivity.
  - reflexivity.
  - intros E. discriminate E.
  - reflexivity.
  - reflexivity.
  - exists st1, st2. split; [exact R1|]. split; [exact R2|].
    split; [exact G|].
    apply (C "nextInvoiceNumber" 1%Q); [left; reflexivity|reflexivity].
Defined.

Lemma planner_add_once_witness :
  exists st1,
    dataReducer ExampleHost.host getInitialState
      (ADD_PLANNER_ENTITY "customer" (VStr "C1")) = Ok st1
    /\ dataReducer ExampleHost.host st1
         (ADD_PLANNER_ENTITY "customer" (VStr "C1")) = Ok st1.
Proof.
  destruct (planner_add_once ExampleHost.host getInitialState "customer"
              "C1" []) as [st1 [R1 [_ [_ [R2 _]]]]].
  - reflexivity.
  - exists st1. split; [exact R1|exact R2].
Defined.

End ComposeExamples.

(* ===================================================================== *)
(** * [processState] and [RESTORE_STATE], continued                       *)
(* ===================================================================== *)

Section ProcessState.

Import JS Value Store StoreSpec ReducerSpec.
Local Open Scope string_scope.
Local Open Scope js_scope.

Variable h : Host.

Lemma numbered_idempotent (byItem : obj) (item : value) :
  is_object item = true ->
  numbered h byItem (numbered h byItem item) = numbered h byItem item.
Proof.
  intros Hx. destruct item; try discriminate Hx.
  unfold numbered. cbn [field spread].
  rewrite !get_set_other by discriminate.
  rewrite set_set. reflexivity.
Qed.

Lemma numbered_objects (byItem : obj) (l : list value) :
  forallb is_object (map (numbered h byItem) l) = true.
Proof. induction l as [|x l IH]; simpl; [reflexivity|exact IH]. Qed.

Lemma dict_get_set_same (k : string) (v : value) (o : obj) :
  k <> "__proto__" -> dict_get h k (dict_set k v o) = v.
Proof.
  intros Hk. unfold dict_get, dict_set.
  apply String.eqb_neq in Hk. rewrite Hk.
  rewrite lookup_set_same. reflexivity.
Qed.

Lemma dict_get_set_other (k k' : string) (v : value) (o : obj) :
  k <> k' -> dict_get h k (dict_set k' v o) = dict_get h k o.
Proof.
  intros Hk. unfold dict_get, dict_set.
  destruct (String.eqb k' "__proto__"); [reflexivity|].
  rewrite lookup_set_other by exact Hk. reflexivity.
Qed.

(** The running totals: after the productions [l], the total read for
    an item [i] whose id names nothing inherited is the total read
    before plus what [l] produced of it. *)
Lemma tally_produced (i : string) (l : list value) (acc : obj) (q : Q) :
  i <> "__proto__" ->
  forallb isProduction l = true ->
  (exists x, js_or (dict_get h i acc) (num_of_Z 0) = VNum (Num x)
             /\ x == q) ->
  exists x,
    js_or (dict_get h i (fold_left (tallyStep h) l acc)) (num_of_Z 0)
    = VNum (Num x) /\ x == q + produced i l.
Proof.
  intros Hi. revert acc q.
  induction l as [|p l IH]; intros acc q Hl Hacc.
  - destruct Hacc as [x [E Hx]]. exists x. split; [exact E|].
    simpl. rewrite Hx. ring.
  - simpl in Hl. apply Bool.andb_true_iff in Hl. destruct Hl as [Hp Hl].
    simpl.
    destruct (IH (tallyStep h acc p) (q + quantityOf i p) Hl)
      as [x [E Hx]].
    + unfold tallyStep, quantityOf.
      unfold isProduction in Hp.
      destruct (field "itemId" p) as [| | | |s| |] eqn:Eid;
        try discriminate Hp.
      destruct (field "quantityProduced" p) as [| | |[|n]| | |] eqn:Eq;
        try discriminate Hp.
      cbn [to_str].
      destruct Hacc as [xi [Ei Hxi]].
      destruct (String.eqb s i) eqn:Esi.
      * apply String.eqb_eq in Esi. subst s. rewrite Ei.
        cbn [plus to_number add].
        rewrite (dict_get_set_same i _ acc Hi).
        unfold js_or. cbn [truthy].
        destruct (Qeq_bool (xi + n) 0) eqn:Ez; cbn [negb].
        -- exists 0. split; [reflexivity|].
           apply Qeq_bool_eq in Ez. rewrite <- Hxi, Ez. reflexivity.
        -- exists (xi + n). split; [reflexivity|].
           rewrite Hxi. reflexivity.
      * rewrite dict_get_set_other
          by (intros E'; subst i; rewrite String.eqb_refl in Esi;
              discriminate Esi).
        exists xi. split; [exact Ei|]. rewrite Hxi. ring.
    + exists x. split; [exact E|]. rewrite Hx. simpl. ring.
Qed.

(** X7.  The bale numbers: on productions that name their item by a
    string and carry a numeric quantity, [processState] gives every item
    record whose id names no property that a plain object inherits the
    number openingStock + (the quantities of all productions of the
    item) + 1, a missing opening stock counting as zero, and leaves every
    other field of every item, and the number and order of the items, as
    they were. *)
Theorem bale_numbers (st : AppState) (lp li : list value) :
  get "productions" st = VArr lp -> forallb isProduction lp = true ->
  get "items" st = VArr li -> forallb is_object li = true ->
  exists items,
    processState h st = Ok (set "items" (VArr items) st)
    /\ Forall2 (fun item item' =>
                  (forall k, k <> "nextBaleNumber" ->
                             field k item' = field k item)
                  /\ forall i a,
                       field "id" item = VStr i ->
                       Object_prototype h i = VUndefined ->
                       i <> "__proto__" ->
                       openingStockOf item = Some a ->
                       exists n, field "nextBaleNumber" item' = VNum (Num n)
                                 /\ n == a + produced i lp + 1)
               li items.
Proof.
  intros Hp Hprod Hi Hoi.
  assert (Hop : forallb is_object lp = true).
  { clear Hp. induction lp as [|p lp IH]; simpl; [reflexivity|].
    simpl in Hprod. apply Bool.andb_true_iff in Hprod.
    destruct Hprod as [Hx Hr]. rewrite (IH Hr), Bool.andb_true_r.
    unfold isProduction in Hx.
    destruct (field "itemId" p); try discriminate Hx.
    destruct (field "quantityProduced" p) as [| | |[|n]| | |];
      try discriminate Hx. exact Hx. }
  exists (map (numbered h (tally h lp)) li).
  split; [apply processState_explicit; assumption|].
  assert (T : forall i, Object_prototype h i = VUndefined ->
                        i <> "__proto__" ->
             exists x,
               js_or (dict_get h i (tally h lp)) (num_of_Z 0) = VNum (Num x)
               /\ x == produced i lp).
  { intros i Hu Hn.
    destruct (tally_produced i lp [] 0 Hn Hprod) as [x [E Hx]].
    - exists 0. unfold dict_get. cbn [lookup]. rewrite Hu.
      split; reflexivity.
    - exists x. split; [exact E|]. rewrite Hx. ring. }
  clear Hp Hi Hprod Hop.
  induction li as [|item li IH]; simpl; constructor.
  - simpl in Hoi. apply Bool.andb_true_iff in Hoi. destruct Hoi as [Hx _].
    destruct item; try discriminate Hx. split.
    + intros k Hk. unfold numbered. cbn [field spread].
      apply get_set_other. exact Hk.
    + intros i a Hid Hu Hn Hos. unfold numbered. cbn [field spread] in *.
      rewrite get_set_same, Hid. cbn [to_str].
      destruct (T i Hu Hn) as [x [E Hx']]. rewrite E.
      unfold openingStockOf in Hos. cbn [field] in Hos.
      destruct (get "openingStock" o) as [| | |[|b]| | |];
        try discriminate Hos; injection Hos as <-.
      * eexists. split; [reflexivity|]. rewrite Hx'. simpl. ring.
      * eexists. split; [reflexivity|]. rewrite Hx'. simpl. ring.
      * unfold js_or. cbn [truthy].
        destruct (Qeq_bool b 0) eqn:Ez; cbn [negb].
        -- eexists. split; [reflexivity|]. apply Qeq_bool_eq in Ez.
           rewrite Hx', Ez. simpl. ring.
        -- eexists. split; [reflexivity|]. rewrite Hx'. simpl. ring.
  - apply IH. simpl in Hoi. apply Bool.andb_true_iff in Hoi. apply Hoi.
Qed.

(** X8.  [processState] is idempotent: on a state whose productions
    and items are arrays of records, processing the processed state
    returns it unchanged. *)
Theorem processState_fixed (st : AppState) (lp li : list value) :
  get "productions" st = VArr lp -> forallb is_object lp = true ->
  get "items" st = VArr li -> forallb is_object li = true ->
  exists st', processState h st = Ok st' /\ processState h st' = Ok st'.
Proof.
  intros Hp Hop Hi Hoi. eexists.
  split; [apply processState_explicit; eassumption|].
  rewrite (processState_explicit h _ lp (map (numbered h (tally h lp)) li)).
  - rewrite set_set, map_map. f_equal. f_equal. f_equal.
    apply map_ext_in. intros x Hin. apply numbered_idempotent.
    rewrite forallb_forall in Hoi. apply Hoi. exact Hin.
  - rewrite get_set_other by discriminate. exact Hp.
  - exact Hop.
  - apply get_set_same.
  - apply numbered_objects.
Qed.

End ProcessState.

Section ProcessStateExamples.

Import JS Value Store StoreSpec ReducerSpec.
Local Open Scope string_scope.

Lemma bale_numbers_witness :
  exists items,
    processState ExampleHost.host
      (set "productions"
           (VArr [VObj [("itemId", VStr "I1");
                        ("quantityProduced", num_of_Z 4)];
                  VObj [("itemId", VStr "I2");
                        ("quantityProduced", num_of_Z 7)];
                  VObj [("itemId", VStr "I1");
                        ("quantityProduced", num_of_Z 5)]])
           (set "items"
                (VArr [VObj [("id", VStr "I1");
                             ("openingStock", num_of_Z 10)]])
                getInitialState))
    = Ok (set "items" (VArr items)
            (set "productions"
               (VArr [VObj [("itemId", VStr "I1");
                            ("quantityProduced", num_of_Z 4)];
                      VObj [("itemId", VStr "I2");
                            ("quantityProduced", num_of_Z 7)];
                      VObj [("itemId", VStr "I1");
                            ("quantityProduced", num_of_Z 5)]])
               (set "items"
                    (VArr [VObj [("id", VStr "I1");
                                 ("openingStock", num_of_Z 10)]])
                    getInitialState)))
    /\ exists item' n, items = [item']
         /\ field "nextBaleNumber" item' = VNum (Num n) /\ n == 20.
Proof.
  destruct (bale_numbers ExampleHost.host
              (set "productions"
                 (VArr [VObj [("itemId", VStr "I1");
                              ("quantityProduced", num_of_Z 4)];
                        VObj [("itemId", VStr "I2");
                              ("quantityProduced", num_of_Z 7)];
                        VObj [("itemId", VStr "I1");
                              ("quantityProduced", num_of_Z 5)]])
                 (set "items"
                      (VArr [VObj [("id", VStr "I1");
                                   ("openingStock", num_of_Z 10)]])
                      getInitialState))
              [VObj [("itemId", VStr "I1");
                     ("quantityProduced", num_of_Z 4)];
               VObj [("itemId", VStr "I2");
                     ("quantityProduced", num_of_Z 7)];
               VObj [("itemId", VStr "I1");
                     ("quantityProduced", num_of_Z 5)]]
              [VObj [("id", VStr "I1"); ("openingStock", num_of_Z 10)]])
    as [items [R F]].
  - reflexivity.
  - reflexivity.
  - reflexivity.
  - reflexivity.
  - exists items. split; [exact R|].
    inversion F as [|x y l l' [_ N] T]; subst.
    inversion T; subst.
    destruct (N "I1" (inject_Z 10) eq_refl eq_refl) as [n [E Hn]];
      [discriminate|reflexivity|].
    exists y, n. split; [reflexivity|]. split; [exact E|].
    rewrite Hn. reflexivity.
Defined.

(** An item whose id is [constructor]: the total read for it is what the
    tally object inherits under that key, and the bale number is a
    string. *)
Lemma bale_number_of_inherited_id :
  processState ExampleHost.host
    (set "items" (VArr [VObj [("id", VStr "constructor")]]) getInitialState)
  = Ok (set "items"
            (VArr [VObj [("id", VStr "constructor");
                         ("nextBaleNumber", VStr "0[object Object]1")]])
            (set "items" (VArr [VObj [("id", VStr "constructor")]])
                 getInitialState)).
Proof. vm_compute. reflexivity. Qed.

End ProcessStateExamples.

Section RestoreAgain.

Import JS Value Store StoreSpec ReducerSpec.
Local Open Scope string_scope.
Local Open Scope js_scope.

Variable h : Host.

Lemma distinct_NoDup (l : list string) : distinct l = true -> NoDup l.
Proof.
  induction l as [|k l IH]; simpl; intros H; constructor.
  - apply Bool.andb_true_iff in H. destruct H as [H _].
    apply Bool.negb_true_iff in H. apply mem_false. exact H.
  - apply IH. apply Bool.andb_true_iff in H. apply H.
Qed.

Lemma restoreKeys_NoDup : NoDup restoreKeys.
Proof. apply distinct_NoDup. vm_compute. reflexivity. Qed.

Lemma keys_restoreFields (fs : obj) : keys (restoreFields fs) = restoreKeys.
Proof.
  unfold keys, restoreFields, restoreKeys.
  rewrite !map_app, !map_map. simpl. reflexivity.
Qed.

Lemma keys_set (k : string) (v : value) (o : obj) :
  has_key k o = true -> keys (set k v o) = keys o.
Proof.
  unfold has_key, keys. induction o as [|[k' w] o IH]; simpl.
  - discriminate.
  - destruct (String.eqb k k') eqn:E; simpl.
    + intros _. apply String.eqb_eq in E. subst k'. reflexivity.
    + intros H. rewrite (IH H). reflexivity.
Qed.

Lemma lookup_absent (k : string) (o : obj) :
  ~ In k (keys o) -> lookup k o = None.
Proof.
  unfold keys. induction o as [|[k' w] o IH]; simpl; [reflexivity|].
  intros H. destruct (String.eqb k k') eqn:E.
  - apply String.eqb_eq in E. subst k'. exfalso. apply H. left. reflexivity.
  - apply IH. intros Hin. apply H. right. exact Hin.
Qed.

(** Two objects with the same keys in the same order, none twice, and
    the same value at every key are the same object. *)
Lemma obj_ext (o1 o2 : obj) :
  keys o1 = keys o2 -> NoDup (keys o1) ->
  (forall k, get k o1 = get k o2) -> o1 = o2.
Proof.
  unfold keys. revert o2.
  induction o1 as [|[k1 v1] o1 IH]; intros [|[k2 v2] o2] Hk Hnd Hg;
    try discriminate Hk; [reflexivity|].
  simpl in Hk. injection Hk as -> Hk.
  simpl in Hnd. inversion Hnd as [|? ? Hnotin Hnd']; subst.
  pose proof (Hg k2) as Hh. unfold get in Hh. simpl in Hh.
  rewrite String.eqb_refl in Hh. subst v2. f_equal.
  apply IH; [exact Hk|exact Hnd'|].
  intros k. destruct (String.eqb k k2) eqn:E.
  - apply String.eqb_eq in E. subst k. unfold get.
    rewrite (lookup_absent k2 o1 Hnotin).
    rewrite (lookup_absent k2 o2) by (unfold keys; rewrite <- Hk; exact Hnotin).
    reflexivity.
  - specialize (Hg k). unfold get in Hg |- *. simpl in Hg.
    rewrite E in Hg. exact Hg.
Qed.

Lemma Ok_injective (A : Type) (a b : A) : Ok a = Ok b -> a = b.
Proof. intros H. injection H as ->. reflexivity. Qed.

Lemma js_or_again (a d : value) : js_or (js_or a d) d = js_or a d.
Proof.
  unfold js_or. destruct (truthy a) eqn:E; [rewrite E; reflexivity|].
  destruct (truthy d); reflexivity.
Qed.

Lemma nullish_again (a d : value) : nullish (nullish a d) d = nullish a d.
Proof. destruct a; try reflexivity; destruct d; reflexivity. Qed.

(** The literal of [RESTORE_STATE] built from a state that is itself a
    restored snapshot whose items were renumbered is that state. *)
Lemma restoreFields_again (fs : obj) (items : list value) :
  restoreFields (set "items" (VArr items) (restoreFields fs))
  = set "items" (VArr items) (restoreFields fs).
Proof.
  assert (Hi : has_key "items" (restoreFields fs) = true)
    by (rewrite has_key_restoreFields; reflexivity).
  apply obj_ext.
  - rewrite keys_set by exact Hi. rewrite !keys_restoreFields. reflexivity.
  - rewrite keys_restoreFields. exact restoreKeys_NoDup.
  - intros k. rewrite get_restoreFields.
    destruct (String.eqb k "items") eqn:E.
    + apply String.eqb_eq in E. subst k. rewrite !get_set_same.
      reflexivity.
    + assert (Hk : k <> "items")
        by (intros ->; rewrite String.eqb_refl in E; discriminate E).
      rewrite !get_set_other by exact Hk. rewrite get_restoreFields.
      destruct (mem k restoreOrKeys); [apply js_or_again|].
      destruct (mem k restoreNullishKeys); [apply nullish_again|].
      destruct (mem k restorePlannerKeys); [apply js_or_again|].
      reflexivity.
Qed.

(** The literal of [RESTORE_STATE] and [getInitialState] name the same
    keys, in another order. *)
Lemma restoreKeys_permutation : Permutation restoreKeys (keys getInitialState).
Proof.
  apply NoDup_Permutation.
  - exact restoreKeys_NoDup.
  - apply distinct_NoDup. vm_compute. reflexivity.
  - intros k. rewrite <- !mem_In.
    assert (A : forallb (fun k => mem k (keys getInitialState)) restoreKeys
                = true) by (vm_compute; reflexivity).
    assert (B : forallb (fun k => mem k restoreKeys) (keys getInitialState)
                = true) by (vm_compute; reflexivity).
    rewrite forallb_forall in A, B. split; intros H; apply mem_In in H.
    + apply A. exact H.
    + apply B. exact H.
Qed.

Lemma get_In (k : string) (o : obj) :
  get k o <> VUndefined -> In k (keys o).
Proof.
  intros H. destruct (in_dec string_dec k (keys o)) as [Hin|Hout];
    [exact Hin|].
  exfalso. apply H. unfold get. rewrite (lookup_absent k o Hout).
  reflexivity.
Qed.

(** X9.  RESTORE_STATE builds its result over the keys of the default
    state: the restored state has exactly the keys of [getInitialState]
    (in the order of the literal of RESTORE_STATE, which is another), so
    a key of the snapshot that [getInitialState] does not name is
    dropped; a key whose default is the number 1, that is a counter, is
    taken from the snapshot unless it is missing or null there (a stored
    0 is kept), in which case it is 1; every other key but [items] is
    taken from the snapshot unless it is falsy there, in which case it is
    the default. *)
Theorem restore_exact (st : AppState) (fs : obj) :
  has_key "customers" fs = true -> restorable fs = true ->
  exists st',
    dataReducer h st (RESTORE_STATE (VObj fs)) = Ok st'
    /\ Permutation (keys st') (keys getInitialState)
    /\ (forall k, ~ In k (keys getInitialState) -> get k st' = VUndefined)
    /\ (forall k, get k getInitialState = one ->
                  get k st' = nullish (get k fs) one)
    /\ (forall k, In k (keys getInitialState) ->
                  get k getInitialState <> one -> k <> "items" ->
                  get k st' = js_or (get k fs) (get k getInitialState)).
Proof.
  intros Hc Hr.
  destruct (restore_explicit h st fs Hc Hr) as [lp [li [_ [_ [_ [_ R]]]]]].
  eexists. split; [exact R|].
  assert (Hi : has_key "items" (restoreFields fs) = true)
    by (rewrite has_key_restoreFields; reflexivity).
  assert (K : keys (set "items" (VArr (map (numbered h (tally h lp)) li))
                        (restoreFields fs)) = restoreKeys)
    by (rewrite keys_set by exact Hi; apply keys_restoreFields).
  split; [rewrite K; exact restoreKeys_permutation|]. split; [|split].
  - intros k Hk. unfold get. rewrite lookup_absent; [reflexivity|].
    rewrite K. intros Hin. apply Hk.
    apply (Permutation_in k restoreKeys_permutation Hin).
  - intros k Hk.
    assert (Hin : In k (keys getInitialState))
      by (apply get_In; rewrite Hk; discriminate).
    assert (Hne : k <> "items")
      by (intros ->; vm_compute in Hk; discriminate Hk).
    rewrite get_set_other by exact Hne. rewrite get_restoreFields.
    vm_compute in Hin.
    repeat (destruct Hin as [<-|Hin];
            [first [reflexivity|vm_compute in Hk; discriminate Hk]|]).
    contradiction.
  - intros k Hin Hd Hne. rewrite get_set_other by exact Hne.
    rewrite get_restoreFields.
    vm_compute in Hin.
    repeat (destruct Hin as [<-|Hin];
            [first [reflexivity
                   |exfalso; apply Hd; reflexivity
                   |exfalso; apply Hne; reflexivity]|]).
    contradiction.
Qed.

(** X10.  RESTORE_STATE is idempotent: restoring the state that a
    restore produced, into any state, produces that state again. *)
Theorem restore_idempotent (st st1 st' : AppState) (fs : obj) :
  has_key "customers" fs = true -> restorable fs = true ->
  dataReducer h st (RESTORE_STATE (VObj fs)) = Ok st' ->
  dataReducer h st1 (RESTORE_STATE (VObj st')) = Ok st'.
Proof.
  intros Hc Hr R.
  destruct (restore_explicit h st fs Hc Hr)
    as [lp [li [Ep [Hlp [Ei [Hli R']]]]]].
  rewrite R' in R. apply Ok_injective in R. subst st'.
  cbn [dataReducer]. unfold restoreState.
  assert (Hk : forall items,
            has_key "customers"
              (set "items" (VArr items) (restoreFields fs)) = true)
    by (intros items; rewrite has_key_set, has_key_restoreFields;
        apply Bool.orb_true_iff; right; vm_compute; reflexivity).
  rewrite (Hk (map (numbered h (tally h lp)) li)), restoreFields_again.
  rewrite (processState_explicit h _ lp (map (numbered h (tally h lp)) li)).
  - rewrite set_set, map_map.
    rewrite (map_ext_in _ (numbered h (tally h lp)) li); [reflexivity|].
    intros x Hin. apply numbered_idempotent.
    rewrite forallb_forall in Hli. apply Hli. exact Hin.
  - rewrite get_set_other by discriminate. exact Ep.
  - exact Hlp.
  - apply get_set_same.
  - apply numbered_objects.
Qed.

End RestoreAgain.

Section RestoreAgainExamples.

Import JS Value Store StoreSpec ReducerSpec.
Local Open Scope string_scope.

Lemma processState_fixed_witness :
  exists st',
    processState ExampleHost.host
      (set "items" (VArr [VObj [("id", VStr "I1")]]) getInitialState)
    = Ok st'
    /\ processState ExampleHost.host st' = Ok st'.
Proof.
  apply (processState_fixed ExampleHost.host
           (set "items" (VArr [VObj [("id", VStr "I1")]]) getInitialState)
           [] [VObj [("id", VStr "I1")]]); reflexivity.
Defined.

Lemma restore_exact_witness :
  exists st',
    dataReducer ExampleHost.host getInitialState
      (RESTORE_STATE
         (VObj [("customers", VArr []);
                ("nextInvoiceNumber", num_of_Z 0);
                ("overtimeRecords",
                 VArr [VObj [("id", VStr "OT-E1-2024-01-05")]])]))
    = Ok st'
    /\ get "overtimeRecords" st' = VUndefined
    /\ get "nextInvoiceNumber" st' = num_of_Z 0
    /\ get "nextHRTaskId" st' = one.
Proof.
  destruct (restore_exact ExampleHost.host getInitialState
              [("customers", VArr []);
               ("nextInvoiceNumber", num_of_Z 0);
               ("overtimeRecords",
                VArr [VObj [("id", VStr "OT-E1-2024-01-05")]])]
              eq_refl eq_refl) as [st' [R [_ [D [N _]]]]].
  exists st'. split; [exact R|]. split; [|split].
  - apply D. vm_compute. intuition discriminate.
  - apply (N "nextInvoiceNumber"). reflexivity.
  - apply (N "nextHRTaskId"). reflexivity.
Defined.

Lemma restore_idempotent_witness :
  exists st',
    dataReducer ExampleHost.host getInitialState
      (RESTORE_STATE
         (VObj [("customers", VArr [VObj [("id", VStr "C1")]]);
                ("items", VArr [VObj [("id", VStr "I1")]])]))
    = Ok st'
    /\ dataReducer ExampleHost.host [] (RESTORE_STATE (VObj st')) = Ok st'.
Proof.
  destruct (restore_explicit ExampleHost.host getInitialState
              [("customers", VArr [VObj [("id", VStr "C1")]]);
               ("items", VArr [VObj [("id", VStr "I1")]])]
              eq_refl eq_refl) as [lp [li [_ [_ [_ [_ R]]]]]].
  eexists. split; [exact R|].
  apply (restore_idempotent ExampleHost.host getInitialState []
           _ [("customers", VArr [VObj [("id", VStr "C1")]]);
              ("items", VArr [VObj [("id", VStr "I1")]])]
           eq_refl eq_refl R).
Defined.

End RestoreAgainExamples.

(* ===================================================================== *)
(** * [TOGGLE_FAVORITE_COMBINATION]                                       *)
(* ===================================================================== *)

Section Favorites.

Import JS Value Store StoreSpec ReducerSpec.
Local Open Scope string_scope.
Local Open Scope js_scope.

Variable h : Host.

Lemma favorite_object (x : value) : is_favorite x = true -> is_object x = true.
Proof. destruct x; try discriminate. reflexivity. Qed.

Lemma favorites_objects (l : list value) :
  forallb is_favorite l = true -> forallb is_object l = true.
Proof.
  induction l as [|x l IH]; simpl; [reflexivity|].
  intros H. apply Bool.andb_true_iff in H. destruct H as [Hx Hl].
  rewrite (favorite_object x Hx), (IH Hl). reflexivity.
Qed.

Lemma some_total (f : value -> result bool) (p : value -> bool)
    (l : list value) :
  (forall x, is_object x = true -> f x = Ok (p x)) ->
  forallb is_object l = true ->
  some f l = Ok (existsb p l).
Proof.
  intros Hf. induction l as [|x l IH]; intros Hl; simpl; [reflexivity|].
  apply Bool.andb_true_iff in Hl. destruct Hl as [Hx Hl].
  rewrite (Hf x Hx). simpl. destruct (p x); [reflexivity|].
  apply IH. exact Hl.
Qed.

Lemma insert_sorted_permutation (cmp : value -> value -> result Z)
    (x : value) (l l' : list value) :
  insert_sorted cmp x l = Ok l' -> Permutation l' (x :: l).
Proof.
  revert l'. induction l as [|y l IH]; intros l'; simpl.
  - intros E. apply Ok_injective in E. subst l'. apply Permutation_refl.
  - destruct (cmp y x) as [c|]; simpl; [|discriminate].
    destruct (c <=? 0)%Z.
    + destruct (insert_sorted cmp x l) as [l''|]; simpl; [|discriminate].
      intros E. apply Ok_injective in E. subst l'.
      apply perm_trans with (y :: x :: l).
      * apply perm_skip. apply IH. reflexivity.
      * apply perm_swap.
    + intros E. apply Ok_injective in E. subst l'. apply Permutation_refl.
Qed.

Lemma sort_permutation (cmp : value -> value -> result Z)
    (l l' : list value) :
  sort cmp l = Ok l' -> Permutation l' l.
Proof.
  unfold sort.
  assert (G : forall acc l',
            fold_r (fun acc x => insert_sorted cmp x acc) l acc = Ok l' ->
            Permutation l' (l ++ acc)).
  { induction l as [|x l IH]; intros acc l1; simpl.
    - intros E. apply Ok_injective in E. subst l1. apply Permutation_refl.
    - destruct (insert_sorted cmp x acc) as [acc'|] eqn:E; simpl;
        [|discriminate].
      intros F. apply perm_trans with (l ++ acc')%list.
      + apply IH. exact F.
      + apply perm_trans with (l ++ x :: acc)%list.
        * apply Permutation_app_head.
          apply (insert_sorted_permutation cmp x acc acc' E).
        * apply Permutation_sym. apply Permutation_middle. }
  intros E. rewrite <- (app_nil_r l). apply G. exact E.
Qed.

Lemma existsb_permutation (p : value -> bool) (l l' : list value) :
  Permutation l l' -> existsb p l = existsb p l'.
Proof.
  intros P. induction P; simpl.
  - reflexivity.
  - rewrite IHP. reflexivity.
  - destruct (p x), (p y); reflexivity.
  - rewrite IHP1. exact IHP2.
Qed.

Lemma filter_permutation (p : value -> bool) (l l' : list value) :
  Permutation l l' -> Permutation (filter p l) (filter p l').
Proof.
  intros P. induction P; simpl.
  - apply perm_nil.
  - destruct (p x); [apply perm_skip|]; exact IHP.
  - destruct (p x), (p y); try apply Permutation_refl. apply perm_swap.
  - apply perm_trans with (filter p l'); assumption.
Qed.

Lemma filter_none (p : value -> bool) (l : list value) :
  existsb p l = false -> filter (fun x => negb (p x)) l = l.
Proof.
  induction l as [|x l IH]; simpl; [reflexivity|].
  intros H. apply Bool.orb_false_iff in H. destruct H as [Hx Hr].
  rewrite Hx. simpl. rewrite (IH Hr). reflexivity.
Qed.

Lemma existsb_filter_out (p : value -> bool) (l : list value) :
  existsb p (filter (fun x => negb (p x)) l) = false.
Proof.
  induction l as [|x l IH]; simpl; [reflexivity|].
  destruct (p x) eqn:E; simpl; [exact IH|]. rewrite E. exact IH.
Qed.

Lemma permutation_favorites (l l' : list value) :
  Permutation l l' -> forallb is_favorite l = true ->
  forallb is_favorite l' = true.
Proof.
  intros P Hl. apply forallb_forall. intros x Hin.
  rewrite forallb_forall in Hl. apply Hl.
  apply (Permutation_in x (Permutation_sym P)). exact Hin.
Qed.

(** One toggle. *)
Lemma toggle_step (st : AppState) (l : list value) (s : string) :
  get "favoriteCombinations" st = VArr l ->
  forallb is_favorite l = true ->
  exists l1,
    dataReducer h st (TOGGLE_FAVORITE_COMBINATION (VStr s))
    = Ok (set "favoriteCombinations" (VArr l1) st)
    /\ (existsb (datedAt (VStr s)) l = true ->
        l1 = filter (fun fav => negb (datedAt (VStr s) fav)) l)
    /\ (existsb (datedAt (VStr s)) l = false ->
        Permutation l1 (VObj [("date", VStr s)] :: l)).
Proof.
  intros Hl Hf. pose proof (favorites_objects l Hf) as Ho.
  cbn [dataReducer]. unfold toggleFavorite. rewrite Hl.
  cbn [as_array bind].
  rewrite (some_total _ (datedAt (VStr s)) l);
    [|clear; intros x Hx; destruct x; try discriminate Hx; reflexivity
     |exact Ho].
  cbn [bind]. destruct (existsb (datedAt (VStr s)) l) eqn:E.
  - rewrite (filter_r_total _ (fun fav => negb (datedAt (VStr s) fav)) l);
      [|clear; intros x Hx; destruct x; try discriminate Hx; reflexivity
       |exact Ho].
    cbn [bind]. eexists. split; [reflexivity|].
    split; [reflexivity|discriminate].
  - destruct (sort_favorites h (l ++ [VObj [("date", VStr s)]]))
      as [l1 [S _]].
    { rewrite forallb_app, Hf. reflexivity. }
    rewrite S. cbn [bind]. exists l1. split; [reflexivity|].
    split; [discriminate|]. intros _.
    apply perm_trans with (l ++ [VObj [("date", VStr s)]])%list.
    + apply (sort_permutation _ _ _ S).
    + apply Permutation_sym. apply Permutation_cons_append.
Qed.

(** X11.  TOGGLE_FAVORITE_COMBINATION toggles: after it, a favourite of
    the given date exists exactly if none did before.  Where one did,
    every favourite of that date is removed and the others keep their
    order; where none did, the new list is a rearrangement of the old
    favourites and one new of that date, and a second toggle gives back
    the old favourites up to their order. *)
Theorem toggle_favorite (st : AppState) (l : list value) (s : string) :
  get "favoriteCombinations" st = VArr l ->
  forallb is_favorite l = true ->
  exists l1,
    dataReducer h st (TOGGLE_FAVORITE_COMBINATION (VStr s))
    = Ok (set "favoriteCombinations" (VArr l1) st)
    /\ existsb (datedAt (VStr s)) l1 = negb (existsb (datedAt (VStr s)) l)
    /\ (existsb (datedAt (VStr s)) l = true ->
        l1 = filter (fun fav => negb (datedAt (VStr s) fav)) l)
    /\ (existsb (datedAt (VStr s)) l = false ->
        Permutation l1 (VObj [("date", VStr s)] :: l)
        /\ exists l2,
             dataReducer h (set "favoriteCombinations" (VArr l1) st)
               (TOGGLE_FAVORITE_COMBINATION (VStr s))
             = Ok (set "favoriteCombinations" (VArr l2) st)
             /\ Permutation l2 l).
Proof.
  intros Hl Hf.
  destruct (toggle_step st l s Hl Hf) as [l1 [R [Hin Hout]]].
  exists l1. split; [exact R|].
  assert (Hnew : datedAt (VStr s) (VObj [("date", VStr s)]) = true).
  { unfold datedAt. simpl. apply String.eqb_refl. }
  split; [|split; [exact Hin|]].
  - destruct (existsb (datedAt (VStr s)) l) eqn:E.
    + rewrite (Hin eq_refl). apply existsb_filter_out.
    + rewrite (existsb_permutation _ _ _ (Hout eq_refl)). simpl.
      rewrite Hnew. reflexivity.
  - intros E. specialize (Hout E). split; [exact Hout|].
    assert (Hf1 : forallb is_favorite l1 = true).
    { apply (permutation_favorites _ _ (Permutation_sym Hout)).
      simpl. exact Hf. }
    destruct (toggle_step (set "favoriteCombinations" (VArr l1) st) l1 s
                (get_set_same _ _ _) Hf1) as [l2 [R2 [Hin2 _]]].
    exists l2. split; [rewrite R2, set_set; reflexivity|].
    rewrite Hin2.
    + apply perm_trans
        with (filter (fun fav => negb (datedAt (VStr s) fav))
                     (VObj [("date", VStr s)] :: l)).
      * apply filter_permutation. exact Hout.
      * simpl. rewrite Hnew. simpl. rewrite (filter_none _ l E).
        apply Permutation_refl.
    + rewrite (existsb_permutation _ _ _ Hout). simpl. rewrite Hnew.
      reflexivity.
Qed.

End Favorites.

Section FavoritesExamples.

Import JS Value Store StoreSpec ReducerSpec.
Local Open Scope string_scope.

Lemma toggle_favorite_witness :
  exists l1,
    dataReducer ExampleHost.host getInitialState
      (TOGGLE_FAVORITE_COMBINATION (VStr "2024-01-05"))
    = Ok (set "favoriteCombinations" (VArr l1) getInitialState)
    /\ existsb (datedAt (VStr "2024-01-05")) l1 = true.
Proof.
  destruct (toggle_favorite ExampleHost.host getInitialState []
              "2024-01-05" eq_refl eq_refl) as [l1 [R [E _]]].
  exists l1. split; [exact R|exact E].
Defined.

End FavoritesExamples.

(* ===================================================================== *)
(** * The synchronisation layer, continued                                *)
(* ===================================================================== *)

Section SyncMore.

Import JS Value Store StoreSpec ReducerSpec Sync SyncSpec SyncRun.
Local Open Scope string_scope.
Local Open Scope js_scope.

Variable h : Host.

Lemma seen_In (s : string) (seen : list value) :
  existsb (same_value_zero (VStr s)) seen = true <-> In (VStr s) seen.
Proof.
  rewrite existsb_exists. split.
  - intros [x [Hin E]]. destruct x as [| |b|n|t|l|o]; try discriminate E.
    simpl in E. apply String.eqb_eq in E. subst t. exact Hin.
  - intros Hin. exists (VStr s). split; [exact Hin|].
    simpl. apply String.eqb_refl.
Qed.

Lemma division_id (x : value) :
  isDivision x = true ->
  exists o s, x = VObj o /\ get "id" o = VStr s.
Proof.
  unfold isDivision. destruct x as [| |b|n|t|l|o]; simpl; try discriminate.
  destruct (get "id" o) as [| |b|n|s|l|o'] eqn:E; try discriminate.
  intros _. exists o, s. split; [reflexivity|exact E].
Qed.

Lemma hasId_str (s : string) (x : value) :
  hasId (VStr s) x = true <-> field "id" x = VStr s.
Proof.
  unfold hasId. split.
  - destruct (field "id" x) as [| |b|[|n]|t|l|o]; simpl; try discriminate.
    intros E. apply String.eqb_eq in E. subst t. reflexivity.
  - intros ->. simpl. apply String.eqb_refl.
Qed.

(** The loop over the divisions, for any set of ids seen so far. *)
Lemma uniqueDivisions_first (l : list value) :
  forallb isDivision l = true ->
  forall seen,
  exists r dup,
    uniqueDivisions seen l = Ok (r, dup)
    /\ NoDup (map (field "id") r)
    /\ (forall y, In y r -> ~ In (field "id" y) seen)
    /\ (forall y, In y r -> find (hasId (field "id" y)) l = Some y)
    /\ (forall x, In x l ->
          In (field "id" x) seen
          \/ exists y, In y r /\ field "id" y = field "id" x)
    /\ (dup = false -> r = l)
    /\ (NoDup (map (field "id") l) ->
        (forall x, In x l -> ~ In (field "id" x) seen) -> dup = false).
Proof.
  induction l as [|x l IH]; intros Hl seen.
  - exists [], false. split; [reflexivity|]. split; [constructor|].
    split; [intros y []|]. split; [intros y []|]. split; [intros y []|].
    split; reflexivity.
  - simpl in Hl. apply Bool.andb_true_iff in Hl. destruct Hl as [Hx Hl].
    destruct (division_id x Hx) as [o [s [-> Hid]]].
    cbn [uniqueDivisions get_prop bind]. rewrite Hid.
    destruct (existsb (same_value_zero (VStr s)) seen) eqn:E.
    + apply seen_In in E.
      destruct (IH Hl seen) as [r [dup [R [Nd [Ns [Hf [Hc [_ _]]]]]]]].
      rewrite R. cbn [bind fst]. exists r, true.
      split; [reflexivity|]. split; [exact Nd|]. split; [exact Ns|].
      split; [|split; [|split]].
      * intros y Hy. cbn [find].
        destruct (hasId (field "id" y) (VObj o)) eqn:Eh; [|apply Hf; exact Hy].
        exfalso. apply (Ns y Hy).
        unfold hasId in Eh. cbn [field] in Eh. rewrite Hid in Eh.
        destruct (field "id" y) as [| |b|n|t|l'|o'];
          try discriminate Eh.
        simpl in Eh. apply String.eqb_eq in Eh. subst t. exact E.
      * intros x' [<-|Hin]; [left; cbn [field]; rewrite Hid; exact E|].
        apply Hc. exact Hin.
      * discriminate.
      * intros _ Hns. exfalso. apply (Hns (VObj o) (or_introl eq_refl)).
        cbn [field]. rewrite Hid. exact E.
    + assert (Hnot : ~ In (VStr s) seen).
      { intros Hin. apply seen_In in Hin. rewrite Hin in E. discriminate. }
      destruct (IH Hl (seen ++ [VStr s])%list)
        as [r [dup [R [Nd [Ns [Hf [Hc [Hd He]]]]]]]].
      rewrite R. cbn [bind fst snd]. exists (VObj o :: r), dup.
      split; [reflexivity|].
      assert (Hfresh : forall y, In y r -> field "id" y <> VStr s).
      { intros y Hy Ey. apply (Ns y Hy). apply in_or_app. right.
        left. symmetry. exact Ey. }
      split; [|split; [|split; [|split; [|split]]]].
      * cbn [map field]. rewrite Hid. constructor; [|exact Nd].
        intros Hin. apply in_map_iff in Hin.
        destruct Hin as [y [Ey Hy]]. apply (Hfresh y Hy Ey).
      * intros y [<-|Hy]; [cbn [field]; rewrite Hid; exact Hnot|].
        intros Hin. apply (Ns y Hy). apply in_or_app. left. exact Hin.
      * intros y [<-|Hy]; cbn [find].
        -- cbn [field]. rewrite Hid.
           replace (hasId (VStr s) (VObj o)) with true; [reflexivity|].
           symmetry. apply hasId_str. exact Hid.
        -- destruct (hasId (field "id" y) (VObj o)) eqn:Eh;
             [|apply Hf; exact Hy].
           exfalso. apply (Hfresh y Hy).
           unfold hasId in Eh. cbn [field] in Eh. rewrite Hid in Eh.
           destruct (field "id" y) as [| |b|n|t|l'|o'];
             try discriminate Eh.
           simpl in Eh. apply String.eqb_eq in Eh. subst t. reflexivity.
      * intros x' [<-|Hin].
        -- right. exists (VObj o). split; [left|]; reflexivity.
        -- destruct (Hc x' Hin) as [Hs|[y [Hy Ey]]].
           ++ apply in_app_or in Hs. destruct Hs as [Hs|[Hs|[]]].
              ** left. exact Hs.
              ** right. exists (VObj o). split; [left; reflexivity|].
                 cbn [field]. rewrite Hid. exact Hs.
           ++ right. exists y. split; [right; exact Hy|exact Ey].
      * intros Hdup. rewrite (Hd Hdup). reflexivity.
      * intros Hnd Hns. cbn [map field] in Hnd. rewrite Hid in Hnd.
        inversion Hnd as [|? ? Hnotin Hnd']; subst. apply He; [exact Hnd'|].
        intros x' Hin Hs. apply in_app_or in Hs.
        destruct Hs as [Hs|[Hs|[]]].
        -- apply (Hns x' (or_intror Hin) Hs).
        -- apply Hnotin. rewrite Hs. apply in_map. exact Hin.
Qed.

(** X12.  The listener keeps, of the divisions of a received document,
    the first of every id: the divisions kept carry pairwise distinct
    ids, each is the first division of its id in the document, every id
    of the document is kept, and no other key of the document changes.
    A document whose divisions carry distinct ids passes unchanged. *)
Theorem dedupe_divisions (data : obj) (l : list value) :
  get "divisions" data = VArr l -> forallb isDivision l = true ->
  exists fd r,
    dedupeDivisions data = Ok fd
    /\ get "divisions" fd = VArr r
    /\ NoDup (map (field "id") r)
    /\ (forall y, In y r -> find (hasId (field "id" y)) l = Some y)
    /\ (forall x, In x l -> exists y, In y r /\ field "id" y = field "id" x)
    /\ (forall k, k <> "divisions" -> get k fd = get k data)
    /\ (NoDup (map (field "id") l) -> fd = data).
Proof.
  intros Hl Hd. unfold dedupeDivisions. rewrite Hl.
  destruct (uniqueDivisions_first l Hd [])
    as [r [dup [R [Nd [_ [Hf [Hc [Hdup He]]]]]]]].
  rewrite R. cbn [bind fst snd].
  assert (Hc' : forall x, In x l ->
            exists y, In y r /\ field "id" y = field "id" x).
  { intros x Hin. destruct (Hc x Hin) as [[]|H]. exact H. }
  destruct dup.
  - exists (set "divisions" (VArr r) data), r.
    split; [reflexivity|]. split; [apply get_set_same|].
    split; [exact Nd|]. split; [exact Hf|]. split; [exact Hc'|].
    split; [intros k Hk; apply get_set_other; exact Hk|].
    intros Hnd. assert (F : true = false)
      by (apply He; [exact Hnd|intros x _ []]).
    discriminate F.
  - exists data, r. split; [reflexivity|].
    rewrite (Hdup eq_refl) in *.
    split; [exact Hl|]. split; [exact Nd|]. split; [exact Hf|].
    split; [exact Hc'|]. split; reflexivity.
Qed.

(** ** What reaches the store *)

Lemma initialState_noUndefined :
  noUndefinedField (VObj (initialState h)) = true.
Proof. vm_compute. reflexivity. Qed.

Lemma step_written (e : Event) (p p' : Provider) :
  step h e p = Ok p' ->
  forallb noUndefinedField (written p) = true ->
  forallb noUndefinedField (written p') = true.
Proof.
  destruct e as [a|doc|]; cbn [step].
  - unfold wrappedDispatch, dispatch. cbn [state with_isLocalChange].
    destruct (dataReducer h (state p) a) as [s|]; cbn [bind];
      [|discriminate].
    intros E. apply Ok_injective in E. subst p'. intros H. exact H.
  - unfold onSnapshot. destruct (isLocalChange p).
    + intros E. apply Ok_injective in E. subst p'. intros H. exact H.
    + destruct doc as [data|].
      * destruct (dedupeDivisions data) as [fd|]; cbn [bind];
          [|discriminate].
        destruct (dataReducer h (state p) (RESTORE_STATE (VObj fd)))
          as [s|]; cbn [bind]; [|discriminate].
        intros E. apply Ok_injective in E. subst p'. intros H. exact H.
      * cbn [bind]. intros E. apply Ok_injective in E. subst p'.
        intros H. cbn [written forallb].
        rewrite initialState_noUndefined, H. reflexivity.
  - intros E. apply Ok_injective in E. subst p'. intros H.
    unfold saveEffect. destruct (isUpdatingFromFirestore p); [exact H|].
    destruct (negb (isFirestoreLoaded p) || negb (signedIn p));
      [exact H|].
    cbn [written forallb]. rewrite convert_noUndefinedField, H.
    reflexivity.
Qed.

(** X13.  No document with an [undefined] field is ever written: along
    any sequence of dispatches, notifications and runs of the save
    effect, every document written to the store is free of [undefined]
    fields, whatever the actions put into the state. *)
Theorem written_without_undefined (es : list Event) (p p' : Provider) :
  forallb noUndefinedField (written p) = true ->
  run h es p = Ok p' ->
  forallb noUndefinedField (written p') = true.
Proof.
  revert p. induction es as [|e es IH]; intros p Hp; cbn [run].
  - intros E. apply Ok_injective in E. subst p'. exact Hp.
  - destruct (step h e p) as [p1|] eqn:E; cbn [bind]; [|discriminate].
    apply IH. apply (step_written e p p1 E Hp).
Qed.

(** X14.  A received document is not written back: the run of the save
    effect that follows its restore writes nothing and clears the flag,
    and the next run, for a signed-in user, writes the restored state. *)
Theorem restore_not_written_back (p p1 : Provider) (data : obj) :
  isLocalChange p = false ->
  onSnapshot h (Some data) p = Ok p1 ->
  written (saveEffect p1) = written p
  /\ state (saveEffect p1) = state p1
  /\ isUpdatingFromFirestore (saveEffect p1) = false
  /\ (signedIn p = true ->
      written (saveEffect (saveEffect p1))
      = convertUndefinedToNull (VObj (state p1)) :: written p).
Proof.
  intros Hl. unfold onSnapshot. rewrite Hl.
  destruct (dedupeDivisions data) as [fd|]; cbn [bind]; [|discriminate].
  destruct (dataReducer h (state p) (RESTORE_STATE (VObj fd))) as [s|];
    cbn [bind]; [|discriminate].
  intros E. apply Ok_injective in E. subst p1.
  unfold saveEffect. cbn.
  split; [reflexivity|]. split; [reflexivity|]. split; [reflexivity|].
  intros Hs. rewrite Hs. reflexivity.
Qed.


End SyncMore.

Section SyncMoreExamples.

Import JS Value Store StoreSpec ReducerSpec Sync SyncSpec SyncRun.
Local Open Scope string_scope.

Lemma dedupe_divisions_witness :
  exists fd r,
    dedupeDivisions
      [("customers", VArr []);
       ("divisions",
        VArr [VObj [("id", VStr "D1"); ("name", VStr "Press")];
              VObj [("id", VStr "D2"); ("name", VStr "Sorting")];
              VObj [("id", VStr "D1"); ("name", VStr "Press again")]])]
    = Ok fd
    /\ get "divisions" fd = VArr r
    /\ NoDup (map (field "id") r)
    /\ get "customers" fd = VArr [].
Proof.
  destruct (dedupe_divisions
              [("customers", VArr []);
               ("divisions",
                VArr [VObj [("id", VStr "D1"); ("name", VStr "Press")];
                      VObj [("id", VStr "D2"); ("name", VStr "Sorting")];
                      VObj [("id", VStr "D1");
                            ("name", VStr "Press again")]])]
              [VObj [("id", VStr "D1"); ("name", VStr "Press")];
               VObj [("id", VStr "D2"); ("name", VStr "Sorting")];
               VObj [("id", VStr "D1"); ("name", VStr "Press again")]]
              eq_refl eq_refl)
    as [fd [r [R [G [Nd [_ [_ [F _]]]]]]]].
  exists fd, r. split; [exact R|]. split; [exact G|]. split; [exact Nd|].
  rewrite (F "customers"); [reflexivity|discriminate].
Defined.

Lemma written_without_undefined_witness :
  exists p',
    run ExampleHost.host
      [Dispatch (ADD_ENTITY "customers"
                   (VObj [("id", VStr "C1"); ("phone", VUndefined)]));
       Effect]
      loaded = Ok p'
    /\ length (written p') = 1%nat
    /\ forallb noUndefinedField (written p') = true.
Proof.
  assert (E : exists p',
            run ExampleHost.host
              [Dispatch (ADD_ENTITY "customers"
                           (VObj [("id", VStr "C1");
                                  ("phone", VUndefined)]));
               Effect]
              loaded = Ok p'
            /\ length (written p') = 1%nat)
    by (eexists; split; [lazy; reflexivity|reflexivity]).
  destruct E as [p' [E L]]. exists p'. split; [exact E|].
  split; [exact L|].
  apply (written_without_undefined ExampleHost.host _ loaded p' eq_refl E).
Defined.

Lemma restore_not_written_back_witness :
  exists p1,
    onSnapshot ExampleHost.host
      (Some [("customers", VArr [VObj [("id", VStr "C1")]])]) loaded
    = Ok p1
    /\ written (saveEffect p1) = []
    /\ isUpdatingFromFirestore (saveEffect p1) = false.
Proof.
  assert (E : exists p1,
            onSnapshot ExampleHost.host
              (Some [("customers", VArr [VObj [("id", VStr "C1")]])])
              loaded = Ok p1)
    by (eexists; lazy; reflexivity).
  destruct E as [p1 E]. exists p1. split; [exact E|].
  destruct (restore_not_written_back ExampleHost.host loaded p1
              [("customers", VArr [VObj [("id", VStr "C1")]])]
              eq_refl E) as [W [_ [U _]]].
  split; [exact W|exact U].
Defined.


End SyncMoreExamples.

(* ===================================================================== *)
(** * The payroll calculator, continued                                   *)
(* ===================================================================== *)

Section PayrollMore.

Import JS Payroll PayrollSpec.
Local Open Scope Q_scope.

Lemma Qsum_map_eq (A : Type) (f g : A -> Q) (l : list A) :
  (forall x, f x == g x) -> Qsum (map f l) == Qsum (map g l).
Proof.
  intros H. induction l as [|x l IH]; simpl; [reflexivity|].
  rewrite (H x), IH. reflexivity.
Qed.

Lemma filter_rows (h : JSDate.Host) (st : State) (year month : Z)
    (p : Employee -> bool) (l : list Employee) :
  filter (fun row => p (employee row)) (map (payrollRow h st year month) l)
  = map (payrollRow h st year month) (filter p l).
Proof.
  induction l as [|e l IH]; simpl; [reflexivity|].
  destruct (p e); simpl; rewrite IH; reflexivity.
Qed.

(** X16.  The columns of a payroll row beside the three amounts: the row
    carries its employee; payable days = days of the month - (Absent
    records + 0.5 x HalfDay records), so that the deduction is the unpaid
    days at one thirtieth of the basic salary whatever the length of the
    month; overtime hours = hourly hours + the hours of every press
    record, those paid by a pooled amount included; advances = the
    employee's advances, zero where the field is missing. *)
Theorem payroll_row_columns (h : JSDate.Host) (st : State)
    (year month : Z) (e : Employee) :
  let row := payrollRow h st year month e in
  let unpaid := Q_of_nat (countStatus Absent st e year month)
                + 0.5 * Q_of_nat (countStatus HalfDay st e year month) in
  employee row = e
  /\ payableDays row == inject_Z (JSDate.daysInMonth year month) - unpaid
  /\ deductions row
     == (inject_Z (JSDate.daysInMonth year month) - payableDays row)
        * (basicSalary e / 30)
  /\ otHours row
     == hourlyHours st e year month
        + Qsum (map otp_hours (pressRecordsOf st e year month))
  /\ row_advances row
     == match advances e with Some a => a | None => 0 end.
Proof.
  intros row unpaid. subst row unpaid.
  unfold payrollRow;
    cbn [employee payableDays deductions otHours row_advances].
  split; [reflexivity|]. split; [|split; [|split]].
  - unfold countStatus, absentDays, halfDays, attendanceForMonth, inMonth.
    rewrite !filter_filter. ring.
  - ring.
  - unfold hourlyHours, pressRecordsOf, otRecords, otPressRecords, inMonth.
    rewrite !fold_left_Qsum.
    rewrite (Qsum_map_eq _ (fun r => or0 (otp_hours r)) otp_hours)
      by (intros r; apply or0_eq).
    ring.
  - unfold opt_or0. destruct (advances e); [apply or0_eq|reflexivity].
Qed.

(** X17.  The report has one row for every active employee record, in
    the order of the employees; a filter id that is not empty selects,
    of these rows, those of the employees with that id. *)
Theorem report_filter (h : JSDate.Host) (st : State) (year month : Z)
    (filterEmployeeId : string) :
  filterEmployeeId <> EmptyString ->
  map employee (reportData h st year month "")
  = filter (fun emp => String.eqb (status emp) "Active") (employees st)
  /\ reportData h st year month filterEmployeeId
     = filter (fun row => String.eqb (id (employee row)) filterEmployeeId)
              (reportData h st year month "").
Proof.
  intros Hf. unfold reportData. cbn [String.eqb].
  apply String.eqb_neq in Hf. rewrite Hf. split.
  - rewrite map_map. cbn [employee payrollRow]. apply map_id.
  - symmetry.
    apply (filter_rows h st year month
             (fun emp => String.eqb (id emp) filterEmployeeId)).
Qed.

(** X18.  A joining date that does not parse makes the years of service
    NaN: the leave salary accrued of the row is NaN, and so is the
    gratuity of a Labour employee, while the gratuity of any other
    employee is 0 (the comparison [NaN >= 1] fails). *)
Theorem unparsable_joining_date (h : JSDate.Host) (st : State)
    (year month : Z) (e : Employee) :
  JSDate.Date_parse h (joiningDate e) = None ->
  leaveSalaryAccrued (payrollRow h st year month e) = NaN
  /\ gratuityAmount (payrollRow h st year month e)
     = if String.eqb (employeeType e) "Labour" then NaN else Num 0.
Proof.
  intros Hp. rewrite leave_of_row, gratuity_of_row.
  unfold yearsOfService, gratuityAccrued. rewrite Hp.
  split; [reflexivity|].
  destruct (String.eqb (employeeType e) "Labour"); reflexivity.
Qed.

(** X19.  An employee who joins at or after the end of the month has no
    service yet ([Math.max(0, ...)]): gratuity and leave salary accrued
    are zero, whatever the type and the salary. *)
Theorem joining_after_month_end (h : JSDate.Host) (st : State)
    (year month : Z) (e : Employee) (joined : Z) :
  JSDate.Date_parse h (joiningDate e) = Some joined ->
  (JSDate.Date_local h year (month + 1) 0 <= joined)%Z ->
  num_eq (leaveSalaryAccrued (payrollRow h st year month e)) (Num 0)
  /\ num_eq (gratuityAmount (payrollRow h st year month e)) (Num 0).
Proof.
  intros Hp Hle. rewrite leave_of_row, gratuity_of_row.
  unfold yearsOfService, gratuityAccrued. rewrite Hp.
  cbn [Math_max mul ge le num_eq].
  set (x := (inject_Z (JSDate.Date_local h year (month + 1) 0)
             - inject_Z joined) / (1000 * 60 * 60 * 24 * 365.25)).
  assert (Hx : x <= 0).
  { unfold x. change (1000 * 60 * 60 * 24 * 365.25) with msPerYear.
    rewrite div_msPerYear.
    assert (Hd : inject_Z (JSDate.Date_local h year (month + 1) 0)
                 - inject_Z joined <= 0).
    { rewrite Zle_Qle in Hle.
      set (a := inject_Z (JSDate.Date_local h year (month + 1) 0)) in *.
      set (b := inject_Z joined) in *. clearbody a b. lra. }
    set (d := inject_Z (JSDate.Date_local h year (month + 1) 0)
              - inject_Z joined) in *. clearbody d. lra. }
  assert (Hm : Qmax 0 x == 0).
  { apply Q.max_l. exact Hx. }
  clearbody x. split.
  - rewrite Hm. reflexivity.
  - destruct (String.eqb (employeeType e) "Labour").
    + cbn [num_eq]. rewrite Hm. reflexivity.
    + rewrite (@Qle_bool_false 1 (Qmax 0 x)) by (rewrite Hm; lra).
      cbn [num_eq]. reflexivity.
Qed.

(** X20.  The gratuity rule never lowers an accrual as service grows:
    for a salary that is not negative, more years of service give at
    least as much gratuity, across the thresholds at one and at five
    years as well, and the accrual is never negative. *)
Theorem gratuity_monotone (e : Employee) (y1 y2 : Q) :
  0 <= basicSalary e -> 0 <= y1 -> y1 <= y2 ->
  exists g1 g2,
    gratuityAccrued e (Num y1) = Num g1
    /\ gratuityAccrued e (Num y2) = Num g2
    /\ 0 <= g1 /\ g1 <= g2.
Proof.
  intros Hb H0 H12. unfold gratuityAccrued. cbn [ge le mul].
  destruct (String.eqb (employeeType e) "Labour").
  - exists (y1 * 600), (y2 * 600). split; [reflexivity|].
    split; [reflexivity|]. split; lra.
  - assert (Hw : 0 <= basicSalary e / 30).
    { unfold Qdiv. change (/ 30) with (1 # 30).
      set (b := basicSalary e) in *. clearbody b. lra. }
    set (w := basicSalary e / 30) in *. clearbody w.
    assert (M : forall a b c d : Q,
              0 <= w -> 0 <= a -> a <= b -> 0 <= c -> c <= d ->
              w * c * a <= w * d * b).
    { intros a b c d Hw' Ha Hab Hc Hcd.
      assert (Hwc : 0 <= w * c) by (apply Qmult_le_0_compat; assumption).
      apply Qle_trans with (w * c * b).
      - rewrite (Qmult_comm (w * c) a), (Qmult_comm (w * c) b).
        apply Qmult_le_compat_r; assumption.
      - apply Qmult_le_compat_r; [|apply Qle_trans with a; assumption].
        rewrite (Qmult_comm w c), (Qmult_comm w d).
        apply Qmult_le_compat_r; assumption. }
    assert (P : forall c a, 0 <= c -> 0 <= a -> 0 <= w * c * a).
    { intros c a Hc Ha. apply Qmult_le_0_compat; [|exact Ha].
      apply Qmult_le_0_compat; assumption. }
    destruct (Qle_bool 1 y1) eqn:E1.
    + apply Qle_bool_iff in E1.
      assert (E2 : Qle_bool 1 y2 = true)
        by (apply Qle_bool_iff; lra).
      rewrite E2.
      destruct (Qle_bool y1 5) eqn:E3, (Qle_bool y2 5) eqn:E4;
        eexists; eexists; (split; [reflexivity|]);
        (split; [reflexivity|]).
      * split; [apply P; lra|apply M; lra].
      * split; [apply P; lra|apply M; lra].
      * exfalso. apply Qle_bool_iff in E4.
        assert (F : Qle_bool y1 5 = true) by (apply Qle_bool_iff; lra).
        rewrite F in E3. discriminate E3.
      * split; [apply P; lra|apply M; lra].
    + destruct (Qle_bool 1 y2) eqn:E2.
      * apply Qle_bool_iff in E2.
        destruct (Qle_bool y2 5); eexists; eexists;
          (split; [reflexivity|]); (split; [reflexivity|]);
          (split; [lra|apply P; lra]).
      * exists 0, 0. split; [reflexivity|]. split; [reflexivity|].
        split; lra.
Qed.

End PayrollMore.

Section PayrollMoreExamples.

Import JS Payroll PayrollSpec AccrualSpec.
Local Open Scope Q_scope.

Lemma report_filter_witness :
  reportData ExampleHost.dates
    (emptyState [employeeOf "E1" "Labour" "2020-01-01" 1500;
                 employeeOf "E2" "Office" "2021-06-01" 3000])
    2024 0 "E2"
  = filter (fun row => String.eqb (id (employee row)) "E2")
      (reportData ExampleHost.dates
         (emptyState [employeeOf "E1" "Labour" "2020-01-01" 1500;
                      employeeOf "E2" "Office" "2021-06-01" 3000])
         2024 0 "").
Proof.
  apply (report_filter ExampleHost.dates
           (emptyState [employeeOf "E1" "Labour" "2020-01-01" 1500;
                        employeeOf "E2" "Office" "2021-06-01" 3000])
           2024 0 "E2").
  discriminate.
Defined.

Lemma unparsable_joining_date_witness :
  leaveSalaryAccrued
    (payrollRow ExampleHost.dates
       (emptyState [employeeOf "E1" "Office" "soon" 3000]) 2024 0
       (employeeOf "E1" "Office" "soon" 3000)) = NaN
  /\ gratuityAmount
       (payrollRow ExampleHost.dates
          (emptyState [employeeOf "E1" "Office" "soon" 3000]) 2024 0
          (employeeOf "E1" "Office" "soon" 3000)) = Num 0.
Proof.
  apply (unparsable_joining_date ExampleHost.dates
           (emptyState [employeeOf "E1" "Office" "soon" 3000]) 2024 0
           (employeeOf "E1" "Office" "soon" 3000)).
  reflexivity.
Defined.

Lemma joining_after_month_end_witness :
  num_eq (leaveSalaryAccrued
            (payrollRow ExampleHost.dates
               (emptyState [employeeOf "E1" "Labour" "2024-03-01" 1500])
               2024 0 (employeeOf "E1" "Labour" "2024-03-01" 1500)))
         (Num 0)
  /\ num_eq (gratuityAmount
               (payrollRow ExampleHost.dates
                  (emptyState [employeeOf "E1" "Labour" "2024-03-01" 1500])
                  2024 0 (employeeOf "E1" "Labour" "2024-03-01" 1500)))
            (Num 0).
Proof.
  apply (joining_after_month_end ExampleHost.dates
           (emptyState [employeeOf "E1" "Labour" "2024-03-01" 1500])
           2024 0 (employeeOf "E1" "Labour" "2024-03-01" 1500)
           (JSDate.utcMidnight 2024 3 1)).
  - vm_compute. reflexivity.
  - vm_compute. discriminate.
Defined.

Lemma gratuity_monotone_witness :
  exists g1 g2,
    gratuityAccrued (employeeOf "E2" "Office" "2018-01-01" 3000) (Num 5)
    = Num g1
    /\ gratuityAccrued (employeeOf "E2" "Office" "2018-01-01" 3000)
                       (Num 6) = Num g2
    /\ 0 <= g1 /\ g1 <= g2.
Proof.
  apply (gratuity_monotone (employeeOf "E2" "Office" "2018-01-01" 3000)
           5 6).
  - vm_compute. discriminate.
  - vm_compute. discriminate.
  - vm_compute. discriminate.
Defined.

End PayrollMoreExamples.

(* ===================================================================== *)
(** * The grids of the registers                                          *)
(* ===================================================================== *)

Section Cells.

Import JS Value Store StoreSpec ReducerSpec Registers.
Local Open Scope string_scope.
Local Open Scope js_scope.

Variable h : Host.

Lemma append_cancel (p a b : string) :
  String.eqb (p ++ a) (p ++ b) = String.eqb a b.
Proof.
  induction p as [|c p IH]; simpl; [reflexivity|].
  rewrite Ascii.eqb_refl. exact IH.
Qed.

Lemma append_nonempty (p e d : string) :
  truthy (VStr (p ++ e ++ "-" ++ d)) = true.
Proof.
  simpl. destruct p as [|c p]; [|reflexivity].
  destruct e as [|c e]; reflexivity.
Qed.

Lemma cell_fields (p : string) (x : value) :
  isCellRecord p x = true ->
  exists o e d,
    x = VObj o /\ get "employeeId" o = VStr e /\ get "date" o = VStr d
    /\ get "id" o = VStr (p ++ e ++ "-" ++ d)
    /\ keyOf x = e ++ "-" ++ d.
Proof.
  unfold isCellRecord, keyOf.
  destruct x as [| |b|n|t|l|o]; try discriminate. cbn [field].
  destruct (get "employeeId" o) as [| |b|n|e|l|o'] eqn:Ee;
    try discriminate.
  destruct (get "date" o) as [| |b|n|d|l|o'] eqn:Ed; try discriminate.
  destruct (get "id" o) as [| |b|n|i|l|o'] eqn:Ei; try discriminate.
  intros E. apply String.eqb_eq in E. subst i.
  exists o, e, d. repeat split; assumption.
Qed.

Lemma cell_object (p : string) (l : list value) :
  forallb (isCellRecord p) l = true -> forallb is_object l = true.
Proof.
  induction l as [|x l IH]; simpl; [reflexivity|].
  intros H. apply Bool.andb_true_iff in H. destruct H as [Hx Hl].
  rewrite (IH Hl), Bool.andb_true_r.
  destruct x; try discriminate Hx. reflexivity.
Qed.

Lemma cell_hasId (p k : string) (x : value) :
  isCellRecord p x = true ->
  hasId (VStr (p ++ k)) x = String.eqb (keyOf x) k.
Proof.
  intros Hx. destruct (cell_fields p x Hx) as [o [e [d [-> [_ [_ [Hi Hk]]]]]]].
  unfold hasId. cbn [field]. rewrite Hi, Hk. simpl. apply append_cancel.
Qed.

Lemma cell_recordKey (p : string) (x : value) :
  isCellRecord p x = true -> recordKey h x = Ok (keyOf x).
Proof.
  intros Hx.
  destruct (cell_fields p x Hx) as [o [e [d [-> [He [Hd [_ Hk]]]]]]].
  unfold recordKey. cbn [get_prop bind]. rewrite He, Hd, Hk. reflexivity.
Qed.

(** The map read at a key is the last record of that key. *)
Lemma overtimeMap_from (p : string) (l : list value) :
  forallb (isCellRecord p) l = true ->
  forall (m0 : obj) (f0 : string -> option value),
    (forall k, get k m0 = match f0 k with Some r => r | None => VUndefined end) ->
    exists m,
      fold_r (fun map record =>
                key <- recordKey h record ;; Ok (set key record map))
             l m0 = Ok m
      /\ forall k,
           get k m
           = match fold_left (fun acc r => if String.eqb (keyOf r) k
                                           then Some r else acc)
                             l (f0 k) with
             | Some r => r
             | None => VUndefined
             end.
Proof.
  induction l as [|x l IH]; intros Hl m0 f0 H0.
  - exists m0. split; [reflexivity|exact H0].
  - simpl in Hl. apply Bool.andb_true_iff in Hl. destruct Hl as [Hx Hl].
    cbn [fold_r]. rewrite (cell_recordKey p x Hx). cbn [bind].
    destruct (IH Hl (set (keyOf x) x m0)
                 (fun k => if String.eqb (keyOf x) k then Some x else f0 k))
      as [m [E G]].
    + intros k. destruct (String.eqb (keyOf x) k) eqn:Ek.
      * apply String.eqb_eq in Ek. subst k. apply get_set_same.
      * rewrite get_set_other; [apply H0|].
        intros ->. rewrite String.eqb_refl in Ek. discriminate Ek.
    + exists m. split; [exact E|]. intros k. rewrite G. reflexivity.
Qed.

Lemma overtimeMap_cells (p : string) (l : list value) :
  forallb (isCellRecord p) l = true ->
  exists m, overtimeMap h (VArr l) = Ok m
            /\ forall k, get k m = cellAt k l.
Proof.
  intros Hl. unfold overtimeMap. cbn [as_array bind].
  destruct (overtimeMap_from p l Hl [] (fun _ => None)) as [m [E G]].
  - intros k. reflexivity.
  - exists m. split; [exact E|]. intros k. rewrite G. reflexivity.
Qed.

(** ** The last record of a cell *)

Lemma lastFrom_some (k : string) (l : list value) (acc : option value) :
  fold_left (fun acc r => if String.eqb (keyOf r) k then Some r else acc)
            l acc
  = match lastFound k l with
    | Some r => Some r
    | None => acc
    end.
Proof.
  unfold lastFound. revert acc.
  induction l as [|x l IH]; intros acc; simpl; [reflexivity|].
  rewrite IH. rewrite (IH (if String.eqb (keyOf x) k then Some x else None)).
  destruct (fold_left _ l None); [reflexivity|].
  destruct (String.eqb (keyOf x) k); reflexivity.
Qed.

Lemma lastFound_cons (k : string) (x : value) (l : list value) :
  lastFound k (x :: l)
  = match lastFound k l with
    | Some r => Some r
    | None => if String.eqb (keyOf x) k then Some x else None
    end.
Proof. unfold lastFound at 1. simpl. apply lastFrom_some. Qed.

Lemma lastFound_app (k : string) (l : list value) (x : value) :
  lastFound k (l ++ [x])
  = if String.eqb (keyOf x) k then Some x else lastFound k l.
Proof. unfold lastFound. rewrite fold_left_app. reflexivity. Qed.

Lemma lastFound_filter_out (k k' : string) (l : list value) :
  lastFound k' (filter (fun x => negb (String.eqb (keyOf x) k)) l)
  = if String.eqb k' k then None else lastFound k' l.
Proof.
  induction l as [|x l IH]; simpl.
  - destruct (String.eqb k' k); reflexivity.
  - destruct (String.eqb (keyOf x) k) eqn:Ex; simpl.
    + rewrite IH, lastFound_cons. destruct (String.eqb k' k) eqn:Ek;
        [reflexivity|].
      apply String.eqb_eq in Ex.
      assert (F : String.eqb (keyOf x) k' = false).
      { apply String.eqb_neq. intros E. rewrite Ex in E. subst k'.
        rewrite String.eqb_refl in Ek. discriminate Ek. }
      rewrite F. destruct (lastFound k' l); reflexivity.
    + rewrite !lastFound_cons, IH.
      destruct (String.eqb k' k) eqn:Ek; [|reflexivity].
      apply String.eqb_eq in Ek. subst k'. rewrite Ex. reflexivity.
Qed.

Lemma lastFound_In (k : string) (l : list value) (r : value) :
  lastFound k l = Some r -> In r l /\ keyOf r = k.
Proof.
  induction l as [|x l IH]; [discriminate|].
  rewrite lastFound_cons. destruct (lastFound k l) as [r'|].
  - intros E. injection E as ->. destruct (IH eq_refl) as [Hin Hk].
    split; [right; exact Hin|exact Hk].
  - destruct (String.eqb (keyOf x) k) eqn:E; [|discriminate].
    intros E'. injection E' as ->. split; [left; reflexivity|].
    apply String.eqb_eq. exact E.
Qed.

Lemma cellAt_truthy (p k : string) (l : list value) :
  forallb (isCellRecord p) l = true ->
  truthy (cellAt k l)
  = match lastFound k l with Some _ => true | None => false end.
Proof.
  intros Hl. unfold cellAt. destruct (lastFound k l) as [r|] eqn:E;
    [|reflexivity].
  destruct (lastFound_In k l r E) as [Hin _].
  rewrite forallb_forall in Hl. specialize (Hl r Hin).
  destruct r; try discriminate Hl. reflexivity.
Qed.

(** ** Writing a cell *)

Lemma merged_cell (p k : string) (d : obj) (x : value) :
  isCellRecord p (VObj d) = true -> keyOf (VObj d) = k ->
  NoDup (keys d) ->
  isCellRecord p x = true ->
  isCellRecord p (merged d x) = true
  /\ keyOf (merged d x) = keyOf x
  /\ (String.eqb (keyOf x) k = false -> merged d x = x)
  /\ (String.eqb (keyOf x) k = true ->
      exists o', merged d x = VObj o'
                 /\ forall f, get f o' = if has_key f d then get f d
                                         else field f x).
Proof.
  intros Hd Hk Hnd Hx.
  destruct (cell_fields p (VObj d) Hd)
    as [d' [e [dt [Ed [He [Hdt [Hi Hkd]]]]]]].
  injection Ed as <-. rewrite Hk in Hkd.
  assert (Hid : hasId (get "id" d) x = String.eqb (keyOf x) k).
  { rewrite Hi, <- Hkd. apply (cell_hasId p k x Hx). }
  unfold merged. rewrite Hid.
  destruct (String.eqb (keyOf x) k) eqn:E.
  - destruct (cell_fields p x Hx) as [o [e' [d' [-> _]]]].
    cbn [spread].
    assert (G : forall f, get f (set_all d o)
                          = if has_key f d then get f d else get f o)
      by (intros f; apply merged_fields; exact Hnd).
    assert (K : forall f s, get f d = VStr s -> get f (set_all d o) = VStr s).
    { intros f s Hf. rewrite G. unfold has_key, get in *.
      destruct (lookup f d); [exact Hf|discriminate Hf]. }
    split; [|split; [|split]].
    + unfold isCellRecord.
      rewrite (K _ _ He), (K _ _ Hdt), (K _ _ Hi). apply String.eqb_refl.
    + apply String.eqb_eq in E. rewrite E.
      unfold keyOf. cbn [field]. rewrite (K _ _ He), (K _ _ Hdt).
      symmetry. exact Hkd.
    + discriminate.
    + intros _. eexists. split; [reflexivity|]. exact G.
  - split; [exact Hx|]. split; [reflexivity|]. split; [reflexivity|].
    discriminate.
Qed.

Lemma merged_cells (p k : string) (d : obj) (l : list value) :
  isCellRecord p (VObj d) = true -> keyOf (VObj d) = k ->
  NoDup (keys d) ->
  forallb (isCellRecord p) l = true ->
  forallb (isCellRecord p) (map (merged d) l) = true
  /\ (forall k', k' <> k ->
        lastFound k' (map (merged d) l) = lastFound k' l)
  /\ (forall r, lastFound k l = Some r ->
        exists o', lastFound k (map (merged d) l) = Some (VObj o')
                   /\ forall f, get f o' = if has_key f d then get f d
                                           else field f r).
Proof.
  intros Hd Hk Hnd Hl.
  assert (A : forall x, In x l -> isCellRecord p x = true)
    by (apply forallb_forall; exact Hl).
  split; [|split].
  - apply forallb_forall. intros y Hy. apply in_map_iff in Hy.
    destruct Hy as [x [<- Hx]].
    apply (merged_cell p k d x Hd Hk Hnd (A x Hx)).
  - intros k' Hk'. clear Hl.
    induction l as [|x l IH]; [reflexivity|].
    cbn [map]. rewrite !lastFound_cons.
    rewrite IH by (intros y Hy; apply A; right; exact Hy).
    destruct (merged_cell p k d x Hd Hk Hnd (A x (or_introl eq_refl)))
      as [_ [Kx [Ix _]]].
    rewrite Kx. destruct (lastFound k' l); [reflexivity|].
    destruct (String.eqb (keyOf x) k') eqn:E; [|reflexivity].
    rewrite Ix; [reflexivity|]. apply String.eqb_eq in E. rewrite E.
    apply String.eqb_neq. exact Hk'.
  - clear Hl. induction l as [|x l IH]; intros r; [discriminate|].
    cbn [map]. rewrite !lastFound_cons.
    destruct (lastFound k l) as [r'|] eqn:El.
    + intros E. injection E as <-.
      destruct (IH (fun y Hy => A y (or_intror Hy)) r' eq_refl)
        as [o' [E' G]].
      rewrite E'. exists o'. split; [reflexivity|exact G].
    + destruct (merged_cell p k d x Hd Hk Hnd (A x (or_introl eq_refl)))
        as [_ [Kx [_ Mx]]].
      assert (N : lastFound k (map (merged d) l) = None).
      { clear IH. induction l as [|y l IHl]; [reflexivity|].
        cbn [map]. rewrite lastFound_cons. rewrite lastFound_cons in El.
        destruct (lastFound k l) eqn:El'; [discriminate El|].
        rewrite IHl; [|intros z [Hz|Hz]; apply A;
                        [left; exact Hz|right; right; exact Hz]
                      |reflexivity].
        destruct (merged_cell p k d y Hd Hk Hnd
                    (A y (or_intror (or_introl eq_refl))))
          as [_ [Ky _]].
        rewrite Ky. destruct (String.eqb (keyOf y) k);
          [discriminate El|reflexivity]. }
      rewrite N, Kx. destruct (String.eqb (keyOf x) k) eqn:E;
        [|discriminate].
      intros E'. injection E' as <-.
      destruct (Mx eq_refl) as [o' [Eo G]]. rewrite Eo.
      exists o'. split; [reflexivity|exact G].
Qed.

Lemma no_counter (entity : string) (st st' : AppState) :
  ~ In entity (map fst entityCounters) ->
  bumpEntityCounters h st entity st' = st'.
Proof.
  intros Hn. unfold bumpEntityCounters.
  assert (G : forall (l : list (string * string)) s,
            ~ In entity (map fst l) ->
            fold_left (fun ns ec =>
                         if String.eqb entity (fst ec)
                         then bump h st (snd ec) ns else ns) l s = s).
  { induction l as [|[e c] l IH]; intros s Hl; simpl; [reflexivity|].
    rewrite IH by (intros Hin; apply Hl; right; exact Hin).
    destruct (String.eqb entity e) eqn:E; [|reflexivity].
    exfalso. apply Hl. left. apply String.eqb_eq in E. symmetry. exact E. }
  apply G. exact Hn.
Qed.

Lemma get_absent (f : string) (d : obj) :
  has_key f d = false -> get f d = VUndefined.
Proof. unfold has_key, get. destruct (lookup f d); [discriminate|reflexivity]. Qed.

(** Writing the record [d] of the cell [k]: an update where the cell has
    a record, an addition where it has none. *)
Lemma upsert_cell (p entity : string) (st : AppState) (l : list value)
    (d : obj) (k : string) (b : bool) :
  entity <> "journalEntries" ->
  ~ In entity (map fst entityCounters) ->
  get entity st = VArr l -> forallb (isCellRecord p) l = true ->
  isCellRecord p (VObj d) = true -> keyOf (VObj d) = k ->
  NoDup (keys d) -> b = truthy (cellAt k l) ->
  exists l',
    dataReducer h st (if b then UPDATE_ENTITY entity (VObj d)
                      else ADD_ENTITY entity (VObj d))
    = Ok (set entity (VArr l') st)
    /\ forallb (isCellRecord p) l' = true
    /\ (forall k', k' <> k -> lastFound k' l' = lastFound k' l)
    /\ (exists o', lastFound k l' = Some (VObj o')
                   /\ forall f, get f o' = if has_key f d then get f d
                                           else field f (cellAt k l))
    /\ (forall y, In y l' ->
          In y l
          \/ exists o', y = VObj o'
                        /\ forall f, has_key f d = true ->
                                     get f o' = get f d).
Proof.
  intros Hj Hc Hl Ht Hd Hk Hnd ->.
  rewrite (cellAt_truthy p k l Ht). unfold cellAt.
  destruct (lastFound k l) as [r|] eqn:E.
  - exists (map (merged d) l).
    split; [apply updateEntity_result; [exact Hl|apply (cell_object p l Ht)]|].
    destruct (merged_cells p k d l Hd Hk Hnd Ht) as [T [O M]].
    split; [exact T|]. split; [exact O|]. split; [apply M; exact E|].
    intros y Hy. apply in_map_iff in Hy. destruct Hy as [x [<- Hx]].
    assert (Hcx : isCellRecord p x = true)
      by (rewrite forallb_forall in Ht; apply Ht; exact Hx).
    destruct (merged_cell p k d x Hd Hk Hnd Hcx) as [_ [_ [Same Mx]]].
    destruct (String.eqb (keyOf x) k) eqn:Ex.
    + right. destruct (Mx eq_refl) as [o' [Eo G]]. exists o'.
      split; [exact Eo|]. intros f Hf. rewrite G, Hf. reflexivity.
    + left. rewrite (Same eq_refl). exact Hx.
  - exists (l ++ [VObj d])%list. split.
    + cbn [dataReducer]. rewrite (addEntity_plain h st entity (VObj d) l Hj Hl).
      rewrite (no_counter entity st _ Hc). reflexivity.
    + split; [rewrite forallb_app, Ht; cbn [forallb]; rewrite Hd; reflexivity|].
      split.
      * intros k' Hk'. rewrite lastFound_app, Hk.
        replace (String.eqb k k') with false; [reflexivity|].
        symmetry. apply String.eqb_neq. intros E'. apply Hk'.
        symmetry. exact E'.
      * split.
        -- exists d. split.
           ++ rewrite lastFound_app, Hk, String.eqb_refl. reflexivity.
           ++ intros f. cbn [field].
              destruct (has_key f d) eqn:F; [reflexivity|].
              apply get_absent. exact F.
        -- intros y Hy. apply in_app_or in Hy.
           destruct Hy as [Hy|[<-|[]]]; [left; exact Hy|].
           right. exists d. split; [reflexivity|]. intros f _.
           reflexivity.
Qed.

(** Clearing the cell [k]. *)
Lemma delete_cell (p entity : string) (st : AppState) (l : list value)
    (k : string) :
  get entity st = VArr l -> forallb (isCellRecord p) l = true ->
  exists l',
    dataReducer h st (DELETE_ENTITY entity (VStr (p ++ k)))
    = Ok (set entity (VArr l') st)
    /\ forallb (isCellRecord p) l' = true
    /\ (forall k', k' <> k -> lastFound k' l' = lastFound k' l)
    /\ lastFound k l' = None.
Proof.
  intros Hl Ht.
  exists (filter (fun x => negb (String.eqb (keyOf x) k)) l).
  assert (F : filter (fun item => negb (hasId (VStr (p ++ k)) item)) l
              = filter (fun x => negb (String.eqb (keyOf x) k)) l).
  { apply filter_ext_in. intros x Hx. f_equal.
    apply cell_hasId. rewrite forallb_forall in Ht. apply Ht. exact Hx. }
  split.
  - rewrite (deleteEntity_result h st entity (VStr (p ++ k)) l Hl
               (cell_object p l Ht)), F. reflexivity.
  - split; [|split].
    + apply forallb_forall. intros x Hx. apply filter_In in Hx.
      rewrite forallb_forall in Ht. apply Ht. apply Hx.
    + intros k' Hk'. rewrite lastFound_filter_out.
      apply String.eqb_neq in Hk'. rewrite Hk'. reflexivity.
    + rewrite lastFound_filter_out, String.eqb_refl. reflexivity.
Qed.

(** A change of a cell of a grid, read back through the map of the
    grid. *)
Lemma gridChange_cell (p entity : string) (st : AppState)
    (year month : Z) (employeeId : string) (day : Z) (hours : number)
    (l : list value) :
  entity <> "journalEntries" ->
  ~ In entity (map fst entityCounters) ->
  get entity st = VArr l -> forallb (isCellRecord p) l = true ->
  exists st' l' m m',
    overtimeMap h (get entity st) = Ok m
    /\ gridChange h p entity st year month employeeId day hours = Ok st'
    /\ get entity st' = VArr l'
    /\ forallb (isCellRecord p) l' = true
    /\ (forall key, key <> entity -> get key st' = get key st)
    /\ overtimeMap h (get entity st') = Ok m'
    /\ (forall k', k' <> employeeId ++ "-" ++ dateStr year month day ->
          get k' m' = get k' m)
    /\ (noHours hours = true ->
        get (employeeId ++ "-" ++ dateStr year month day) m' = VUndefined)
    /\ (noHours hours = false ->
        exists o',
          get (employeeId ++ "-" ++ dateStr year month day) m' = VObj o'
          /\ get "hours" o' = VNum hours
          /\ get "employeeId" o' = VStr employeeId
          /\ get "date" o' = VStr (dateStr year month day)
          /\ get "id" o'
             = VStr (p ++ employeeId ++ "-" ++ dateStr year month day)
          /\ forall f, ~ In f ["id"; "employeeId"; "date"; "hours"] ->
               get f o'
               = field f (get (employeeId ++ "-"
                                 ++ dateStr year month day) m)).
Proof.
  intros Hj Hc Hl Ht.
  set (date := dateStr year month day).
  set (k := employeeId ++ "-" ++ date).
  destruct (overtimeMap_cells p l Ht) as [m [Em Gm]].
  assert (Obs : forall l', forallb (isCellRecord p) l' = true ->
            (forall k', k' <> k -> lastFound k' l' = lastFound k' l) ->
            exists m', overtimeMap h (VArr l') = Ok m'
                       /\ (forall k', get k' m' = cellAt k' l')
                       /\ forall k', k' <> k -> get k' m' = get k' m).
  { intros l' Ht' Ho. destruct (overtimeMap_cells p l' Ht') as [m' [Em' Gm']].
    exists m'. split; [exact Em'|]. split; [exact Gm'|].
    intros k' Hk'. rewrite Gm', Gm. unfold cellAt. rewrite (Ho k' Hk').
    reflexivity. }
  unfold gridChange. rewrite Hl, Em. cbn [bind].
  fold date. fold k. rewrite (Gm k).
  destruct (noHours hours) eqn:Hn.
  - rewrite (cellAt_truthy p k l Ht). unfold cellAt at 1.
    destruct (lastFound k l) as [r|] eqn:E.
    + destruct (lastFound_In k l r E) as [Hin Hkr].
      assert (Hr : isCellRecord p r = true)
        by (rewrite forallb_forall in Ht; apply Ht; exact Hin).
      destruct (cell_fields p r Hr) as [o [e [d [-> [_ [_ [Hi Hko]]]]]]].
      cbn [get_prop bind]. rewrite Hi, <- Hko, Hkr.
      destruct (delete_cell p entity st l k Hl Ht) as [l' [R [T [O N]]]].
      destruct (Obs l' T O) as [m' [Em' [Gm' Fm']]].
      exists (set entity (VArr l') st), l', m, m'.
      split; [reflexivity|]. split; [exact R|].
      split; [apply get_set_same|]. split; [exact T|].
      split; [intros key Hkey; apply get_set_other; exact Hkey|].
      split; [rewrite get_set_same; exact Em'|]. split; [exact Fm'|].
      split; [|discriminate].
      intros _. rewrite Gm'. unfold cellAt. rewrite N. reflexivity.
    + exists st, l, m, m. split; [reflexivity|]. split; [reflexivity|].
      split; [exact Hl|]. split; [exact Ht|].
      split; [reflexivity|]. split; [rewrite Hl; exact Em|].
      split; [reflexivity|]. split; [|discriminate].
      intros _. rewrite Gm. unfold cellAt. rewrite E. reflexivity.
  - assert (Eid : exists i,
              opt_prop (cellAt k l) "id" = Ok i
              /\ js_or i (VStr (p ++ k)) = VStr (p ++ k)).
    { unfold cellAt. destruct (lastFound k l) as [r|] eqn:E.
      - destruct (lastFound_In k l r E) as [Hin Hkr].
        assert (Hr : isCellRecord p r = true)
          by (rewrite forallb_forall in Ht; apply Ht; exact Hin).
        destruct (cell_fields p r Hr) as [o [e [d [-> [_ [_ [Hi Hko]]]]]]].
        exists (VStr (p ++ k)). cbn [opt_prop get_prop].
        rewrite Hi, <- Hko, Hkr. split; [reflexivity|].
        unfold js_or. unfold k at 1. rewrite append_nonempty.
        reflexivity.
      - exists VUndefined. split; reflexivity. }
    destruct Eid as [i [Ei Eor]]. rewrite Ei. cbn [bind]. rewrite Eor.
    set (d := [("id", VStr (p ++ k)); ("employeeId", VStr employeeId);
               ("date", VStr date); ("hours", VNum hours)]).
    assert (Hd : isCellRecord p (VObj d) = true).
    { unfold isCellRecord, d. cbn. apply String.eqb_refl. }
    assert (Hnd : NoDup (keys d)).
    { unfold d. cbn.
      repeat (constructor; [simpl; intuition discriminate|]). constructor. }
    destruct (upsert_cell p entity st l d k (truthy (cellAt k l))
                Hj Hc Hl Ht Hd eq_refl Hnd eq_refl)
      as [l' [R [T [O [[o' [Eo Go]] _]]]]].
    destruct (Obs l' T O) as [m' [Em' [Gm' Fm']]].
    exists (set entity (VArr l') st), l', m, m'.
    split; [reflexivity|]. split.
    { destruct (truthy (cellAt k l)); exact R. }
    split; [apply get_set_same|]. split; [exact T|].
    split; [intros key Hkey; apply get_set_other; exact Hkey|].
    split; [rewrite get_set_same; exact Em'|]. split; [exact Fm'|].
    split; [discriminate|]. intros _. exists o'.
    split; [rewrite Gm'; unfold cellAt; rewrite Eo; reflexivity|].
    split; [rewrite Go; reflexivity|]. split; [rewrite Go; reflexivity|].
    split; [rewrite Go; reflexivity|]. split; [rewrite Go; reflexivity|].
    intros f Hf. rewrite Go.
    assert (F : has_key f d = false).
    { unfold has_key, d. cbn [lookup].
      destruct (String.eqb f "id") eqn:E1;
        [apply String.eqb_eq in E1; subst f; exfalso; apply Hf;
         simpl; tauto|].
      destruct (String.eqb f "employeeId") eqn:E2;
        [apply String.eqb_eq in E2; subst f; exfalso; apply Hf;
         simpl; tauto|].
      destruct (String.eqb f "date") eqn:E3;
        [apply String.eqb_eq in E3; subst f; exfalso; apply Hf;
         simpl; tauto|].
      destruct (String.eqb f "hours") eqn:E4;
        [apply String.eqb_eq in E4; subst f; exfalso; apply Hf;
         simpl; tauto|].
      reflexivity. }
    rewrite F, (Gm k). reflexivity.
Qed.

(** X21.  [handleOvertimeChange] keeps the overtime grid a map from
    cells to records: on records whose id is "OT-" followed by their
    cell (employee and date), a change leaves such records, touches no
    other key of the state, and, read back through [overtimeMap], leaves
    every other cell as it was; hours that are NaN or 0 empty the cell;
    other hours leave in it a record of these hours, employee and date
    with the id of the cell, which keeps the other fields of the record
    that was there. *)
Theorem overtime_cell_change (st : AppState) (year month : Z)
    (employeeId : string) (day : Z) (hours : number) (l : list value) :
  get "overtimeRecords" st = VArr l ->
  forallb (isCellRecord "OT-") l = true ->
  exists st' l' m m',
    overtimeMap h (get "overtimeRecords" st) = Ok m
    /\ handleOvertimeChange h st year month employeeId day hours = Ok st'
    /\ get "overtimeRecords" st' = VArr l'
    /\ forallb (isCellRecord "OT-") l' = true
    /\ (forall key, key <> "overtimeRecords" -> get key st' = get key st)
    /\ overtimeMap h (get "overtimeRecords" st') = Ok m'
    /\ (forall k', k' <> employeeId ++ "-" ++ dateStr year month day ->
          get k' m' = get k' m)
    /\ (noHours hours = true ->
        get (employeeId ++ "-" ++ dateStr year month day) m' = VUndefined)
    /\ (noHours hours = false ->
        exists o',
          get (employeeId ++ "-" ++ dateStr year month day) m' = VObj o'
          /\ get "hours" o' = VNum hours
          /\ get "employeeId" o' = VStr employeeId
          /\ get "date" o' = VStr (dateStr year month day)
          /\ get "id" o'
             = VStr ("OT-" ++ employeeId ++ "-" ++ dateStr year month day)
          /\ forall f, ~ In f ["id"; "employeeId"; "date"; "hours"] ->
               get f o'
               = field f (get (employeeId ++ "-"
                                 ++ dateStr year month day) m)).
Proof.
  intros Hl Ht.
  apply (gridChange_cell "OT-" "overtimeRecords" st year month employeeId
           day hours l); [discriminate| |exact Hl|exact Ht].
  vm_compute. intuition discriminate.
Qed.

(** X22.  [handleGridChange] does the same for the press grid, with ids
    "OTP-" followed by the cell: in particular a change of the hours of
    a cell keeps the pooled amount of its record, and emptying the hours
    removes the record together with its amount. *)
Theorem press_cell_change (st : AppState) (year month : Z)
    (employeeId : string) (day : Z) (hours : number) (l : list value) :
  get "overtimePressRecords" st = VArr l ->
  forallb (isCellRecord "OTP-") l = true ->
  exists st' l' m m',
    overtimeMap h (get "overtimePressRecords" st) = Ok m
    /\ handleGridChange h st year month employeeId day hours = Ok st'
    /\ get "overtimePressRecords" st' = VArr l'
    /\ forallb (isCellRecord "OTP-") l' = true
    /\ overtimeMap h (get "overtimePressRecords" st') = Ok m'
    /\ (forall k', k' <> employeeId ++ "-" ++ dateStr year month day ->
          get k' m' = get k' m)
    /\ (noHours hours = true ->
        get (employeeId ++ "-" ++ dateStr year month day) m' = VUndefined)
    /\ (noHours hours = false ->
        exists o',
          get (employeeId ++ "-" ++ dateStr year month day) m' = VObj o'
          /\ get "hours" o' = VNum hours
          /\ get "amount" o'
             = field "amount"
                 (get (employeeId ++ "-" ++ dateStr year month day) m)).
Proof.
  intros Hl Ht.
  destruct (gridChange_cell "OTP-" "overtimePressRecords" st year month
              employeeId day hours l)
    as [st' [l' [m [m' [Em [R [G [T [_ [Em' [O [Z N]]]]]]]]]]]];
    [discriminate|vm_compute; intuition discriminate|exact Hl|exact Ht|].
  exists st', l', m, m'. split; [exact Em|]. split; [exact R|].
  split; [exact G|]. split; [exact T|]. split; [exact Em'|].
  split; [exact O|]. split; [exact Z|].
  intros Hn. destruct (N Hn) as [o' [Eo [Hh [_ [_ [_ F]]]]]].
  exists o'. split; [exact Eo|]. split; [exact Hh|].
  apply F. simpl. intuition discriminate.
Qed.

(** ** The pool of a production team *)

Lemma length_append (a b : string) :
  String.length (a ++ b) = (String.length a + String.length b)%nat.
Proof. induction a as [|c a IH]; simpl; [reflexivity|]. rewrite IH. reflexivity. Qed.

Lemma append_cancel_r (a b s : string) : a ++ s = b ++ s -> a = b.
Proof.
  revert b. induction a as [|c a IH]; intros [|c' b] E.
  - reflexivity.
  - exfalso. apply (f_equal String.length) in E.
    simpl in E. rewrite length_append in E. lia.
  - exfalso. apply (f_equal String.length) in E.
    simpl in E. rewrite length_append in E. lia.
  - simpl in E. injection E as -> E. f_equal. apply IH. exact E.
Qed.

Lemma workerKey_injective (date w w' : string) :
  workerKey date w = workerKey date w' -> w = w'.
Proof. unfold workerKey. apply append_cancel_r. Qed.

Lemma press_cells (l : list value) :
  forallb isPressRecord l = true ->
  forallb (isCellRecord "OTP-") l = true.
Proof.
  induction l as [|x l IH]; simpl; [reflexivity|].
  intros H. apply Bool.andb_true_iff in H. destruct H as [Hx Hl].
  unfold isPressRecord in Hx. apply Bool.andb_true_iff in Hx.
  rewrite (proj1 Hx), (IH Hl). reflexivity.
Qed.

(** The cell of a worker: empty, or a press record. *)
Lemma cell_cases (l : list value) (k : string) :
  forallb isPressRecord l = true ->
  cellAt k l = VUndefined /\ lastFound k l = None
  \/ exists o, cellAt k l = VObj o /\ isPressRecord (VObj o) = true
                /\ keyOf (VObj o) = k.
Proof.
  intros Hl. unfold cellAt. destruct (lastFound k l) as [r|] eqn:E.
  - right. destruct (lastFound_In k l r E) as [Hin Hk].
    rewrite forallb_forall in Hl. specialize (Hl r Hin).
    destruct r; try discriminate Hl. exists o. repeat split; assumption.
  - left. split; reflexivity.
Qed.

Lemma amount_plus (v : value) (share : number) :
  match field "amount" v with
  | VNum (Num _) | VUndefined | VNull => true
  | _ => false
  end = true ->
  exists q,
    plus h (js_or (field "amount" v) (num_of_Z 0)) (VNum share)
    = VNum (add (Num q) share)
    /\ (q == amountOf v)%Q.
Proof.
  unfold amountOf.
  destruct (field "amount" v) as [| |b|[|a]|t|l|o]; try discriminate;
    intros _.
  - exists 0%Q. split; reflexivity.
  - exists 0%Q. split; reflexivity.
  - unfold js_or. cbn [truthy].
    destruct (Qeq_bool a 0) eqn:E; cbn [negb].
    + exists 0%Q. split; [reflexivity|].
      apply Qeq_bool_eq in E. symmetry. exact E.
    + exists a. split; reflexivity.
Qed.

Lemma teamRecord_cell (existing : value) (date : string) (share : number)
    (w : string) :
  isCellRecord "OTP-" (VObj (teamRecord h existing date share w)) = true
  /\ keyOf (VObj (teamRecord h existing date share w)) = workerKey date w
  /\ NoDup (keys (teamRecord h existing date share w)).
Proof.
  split; [|split].
  - unfold isCellRecord.
    change (get "employeeId" (teamRecord h existing date share w))
      with (VStr w).
    change (get "date" (teamRecord h existing date share w))
      with (VStr date).
    change (get "id" (teamRecord h existing date share w))
      with (VStr ("OTP-" ++ w ++ "-" ++ date)).
    apply String.eqb_refl.
  - reflexivity.
  - unfold teamRecord. cbn.
    repeat (constructor; [simpl; intuition discriminate|]). constructor.
Qed.

Lemma teamAction_value (m : obj) (l : list value) (date : string)
    (share : number) (w : string) :
  forallb isPressRecord l = true ->
  (forall k, get k m = cellAt k l) ->
  teamAction h m date share w
  = Ok (if truthy (cellAt (workerKey date w) l)
        then UPDATE_ENTITY "overtimePressRecords"
               (VObj (teamRecord h (cellAt (workerKey date w) l) date
                                 share w))
        else ADD_ENTITY "overtimePressRecords"
               (VObj (teamRecord h (cellAt (workerKey date w) l) date
                                 share w))).
Proof.
  intros Hl Gm. unfold teamAction.
  change (w ++ "-" ++ date) with (workerKey date w). rewrite Gm.
  destruct (cell_cases l (workerKey date w) Hl) as [[E _]|[o [E [Hp Hk]]]];
    rewrite E.
  - reflexivity.
  - unfold isPressRecord in Hp. apply Bool.andb_true_iff in Hp.
    destruct Hp as [Hc _].
    destruct (cell_fields "OTP-" (VObj o) Hc)
      as [o' [e [d [Eo [_ [_ [Hi Hk']]]]]]].
    injection Eo as <-. rewrite Hk in Hk'.
    cbn [opt_prop get_prop bind truthy]. unfold teamRecord. cbn [field].
    rewrite Hi, <- Hk'. unfold js_or at 1.
    change (truthy (VStr ("OTP-" ++ workerKey date w)))
      with (truthy (VStr ("OTP-" ++ w ++ "-" ++ date))).
    rewrite append_nonempty. reflexivity.
Qed.

Lemma teamActions_value (m : obj) (l : list value) (date : string)
    (share : number) (ids : list string) :
  forallb isPressRecord l = true ->
  (forall k, get k m = cellAt k l) ->
  teamActions h m date share ids
  = Ok (map (fun w =>
               if truthy (cellAt (workerKey date w) l)
               then UPDATE_ENTITY "overtimePressRecords"
                      (VObj (teamRecord h (cellAt (workerKey date w) l)
                                        date share w))
               else ADD_ENTITY "overtimePressRecords"
                      (VObj (teamRecord h (cellAt (workerKey date w) l)
                                        date share w)))
            ids).
Proof.
  intros Hl Gm. induction ids as [|w ids IH]; [reflexivity|].
  cbn [teamActions map]. rewrite (teamAction_value m l date share w Hl Gm).
  cbn [bind]. rewrite IH. reflexivity.
Qed.

(** The batch of a team, action by action: every action writes the cell
    of its worker and no other. *)
Lemma team_batch (date : string) (share : number) (l0 : list value)
    (ids : list string) :
  NoDup ids ->
  forall (st : AppState) (l : list value),
    get "overtimePressRecords" st = VArr l ->
    forallb (isCellRecord "OTP-") l = true ->
    (forall w, In w ids ->
       lastFound (workerKey date w) l = lastFound (workerKey date w) l0) ->
    exists l',
      dataReducer h st
        (BATCH_UPDATE
           (map (fun w =>
                   if truthy (cellAt (workerKey date w) l0)
                   then UPDATE_ENTITY "overtimePressRecords"
                          (VObj (teamRecord h (cellAt (workerKey date w) l0)
                                            date share w))
                   else ADD_ENTITY "overtimePressRecords"
                          (VObj (teamRecord h (cellAt (workerKey date w) l0)
                                            date share w)))
                ids))
      = Ok (set "overtimePressRecords" (VArr l') st)
      /\ forallb (isCellRecord "OTP-") l' = true
      /\ (forall k', (forall w, In w ids -> k' <> workerKey date w) ->
            lastFound k' l' = lastFound k' l)
      /\ (forall w, In w ids ->
            exists o',
              lastFound (workerKey date w) l' = Some (VObj o')
              /\ forall f,
                   get f o'
                   = if has_key f (teamRecord h (cellAt (workerKey date w) l0)
                                              date share w)
                     then get f (teamRecord h (cellAt (workerKey date w) l0)
                                            date share w)
                     else field f (cellAt (workerKey date w) l0))
      /\ (forall y, In y l' ->
            In y l
            \/ exists w o',
                 In w ids /\ y = VObj o'
                 /\ get "amount" o'
                    = get "amount"
                        (teamRecord h (cellAt (workerKey date w) l0)
                                    date share w)).
Proof.
  induction ids as [|w ids IH]; intros Hnd st l Hl Ht Hs.
  - exists l. split.
    + cbn [map]. cbn [dataReducer fold_left]. f_equal. symmetry.
      apply set_same. unfold get in Hl.
      destruct (lookup "overtimePressRecords" st); [|discriminate Hl].
      rewrite Hl. reflexivity.
    + split; [exact Ht|]. split; [reflexivity|].
      split; [intros w []|]. intros y Hy. left. exact Hy.
  - inversion Hnd as [|? ? Hnotin Hnd']; subst.
    cbn [map]. rewrite batch_cons.
    set (d := teamRecord h (cellAt (workerKey date w) l0) date share w).
    destruct (teamRecord_cell (cellAt (workerKey date w) l0) date share w)
      as [Hd [Hk Hkeys]]. fold d in Hd, Hk, Hkeys.
    assert (Hb : truthy (cellAt (workerKey date w) l0)
                 = truthy (cellAt (workerKey date w) l)).
    { unfold cellAt. rewrite (Hs w (or_introl eq_refl)). reflexivity. }
    destruct (upsert_cell "OTP-" "overtimePressRecords" st l d
                (workerKey date w) (truthy (cellAt (workerKey date w) l0)))
      as [l1 [R [T [O [[o1 [Eo Go]] Hin1]]]]];
      [discriminate|vm_compute; intuition discriminate|exact Hl|exact Ht
      |exact Hd|exact Hk|exact Hkeys|exact Hb|].
    rewrite R. cbn [bind].
    assert (Hne : forall w', In w' ids -> workerKey date w' <> workerKey date w).
    { intros w' Hw' E. apply workerKey_injective in E. subst w'.
      apply Hnotin. exact Hw'. }
    destruct (IH Hnd' (set "overtimePressRecords" (VArr l1) st) l1
                (get_set_same _ _ _) T)
      as [l' [R' [T' [O' [W' Hin']]]]].
    { intros w' Hw'. rewrite (O _ (Hne w' Hw')). apply Hs. right. exact Hw'. }
    exists l'. split; [rewrite R', set_set; reflexivity|].
    split; [exact T'|]. split; [|split].
    + intros k' Hk'. rewrite O'.
      * apply O. apply Hk'. left. reflexivity.
      * intros w' Hw'. apply Hk'. right. exact Hw'.
    + intros w' [<-|Hw'].
      * exists o1. split.
        -- rewrite O'; [exact Eo|].
           intros w' Hw' E. apply (Hne w' Hw'). symmetry. exact E.
        -- intros f. rewrite Go. unfold cellAt.
           rewrite (Hs w (or_introl eq_refl)). reflexivity.
      * apply W'. exact Hw'.
    + intros y Hy. destruct (Hin' y Hy) as [Hy1|[w' [o' [Hw' [Ey G]]]]].
      * destruct (Hin1 y Hy1) as [Hyl|[o' [Ey G]]]; [left; exact Hyl|].
        right. exists w, o'. split; [left; reflexivity|].
        split; [exact Ey|]. apply G. reflexivity.
      * right. exists w', o'. split; [right; exact Hw'|].
        split; [exact Ey|exact G].
Qed.

Lemma team_result (st : AppState) (l : list value) (extra rate : number)
    (ids : list string) (date : string) :
  get "overtimePressRecords" st = VArr l ->
  forallb isPressRecord l = true ->
  ids <> [] -> le extra (Num 0) = false ->
  handleSaveProductionTeam h st extra rate ids date true
  = dataReducer h st
      (BATCH_UPDATE
         (map (fun w =>
                 if truthy (cellAt (workerKey date w) l)
                 then UPDATE_ENTITY "overtimePressRecords"
                        (VObj (teamRecord h (cellAt (workerKey date w) l)
                                 date (poolShare extra rate (length ids)) w))
                 else ADD_ENTITY "overtimePressRecords"
                        (VObj (teamRecord h (cellAt (workerKey date w) l)
                                 date (poolShare extra rate (length ids)) w)))
              ids)).
Proof.
  intros Hl Hp Hne Hle. unfold handleSaveProductionTeam. rewrite Hl.
  destruct (overtimeMap_cells "OTP-" l (press_cells l Hp)) as [m [Em Gm]].
  rewrite Em. cbn [bind]. rewrite Hle.
  destruct ids as [|w ids]; [contradiction Hne; reflexivity|].
  cbn [length Nat.eqb negb].
  fold (poolShare extra rate (S (length ids))).
  rewrite (teamActions_value m l date _ (w :: ids) Hp Gm).
  reflexivity.
Qed.

(** X23.  [handleSaveProductionTeam] gives every worker of the team the
    same share of the pool: for a positive number of extra bales, a team
    of distinct workers that is not empty and press records whose amounts
    are numbers, every worker of the team has afterwards, on the day of
    the tool, a record whose amount is the amount that was there (0 where
    there was none) plus the share extra x rate / team size that the code
    computes, and whose hours are the hours that were there (0 where
    there were none); no other cell of the grid and no other key of the
    state changes.  (Amounts are the exact values of the code's formula;
    nothing is said of the sum of the shares, which in double arithmetic
    need not be the pool.) *)
Theorem team_pool (st : AppState) (l : list value) (x r : Q)
    (ids : list string) (date : string) :
  get "overtimePressRecords" st = VArr l ->
  forallb isPressRecord l = true ->
  NoDup ids -> ids <> [] -> (0 < x)%Q ->
  exists st' l',
    handleSaveProductionTeam h st (Num x) (Num r) ids date true = Ok st'
    /\ get "overtimePressRecords" st' = VArr l'
    /\ forallb isPressRecord l' = true
    /\ (forall key, key <> "overtimePressRecords" ->
          get key st' = get key st)
    /\ (forall w, In w ids ->
          (amountOf (cellAt (workerKey date w) l')
           == amountOf (cellAt (workerKey date w) l)
              + x * r / inject_Z (Z.of_nat (length ids)))%Q
          /\ field "hours" (cellAt (workerKey date w) l')
             = js_or (field "hours" (cellAt (workerKey date w) l))
                     (num_of_Z 0))
    /\ (forall k', (forall w, In w ids -> k' <> workerKey date w) ->
          cellAt k' l' = cellAt k' l).
Proof.
  intros Hl Hp Hnd Hne Hx.
  assert (Hle : le (Num x) (Num 0) = false)
    by (cbn [le]; apply Qle_bool_false; exact Hx).
  rewrite (team_result st l (Num x) (Num r) ids date Hl Hp Hne Hle).
  unfold poolShare. cbn [mul].
  set (n := inject_Z (Z.of_nat (length ids))).
  set (share := (x * r / n)%Q).
  destruct (team_batch date (Num share) l ids Hnd st l Hl (press_cells l Hp)
              (fun w _ => eq_refl))
    as [l' [R [T [O [W Hin]]]]].
  assert (A : forall w, In w ids ->
            (amountOf (cellAt (workerKey date w) l')
             == amountOf (cellAt (workerKey date w) l) + share)%Q
            /\ field "hours" (cellAt (workerKey date w) l')
               = js_or (field "hours" (cellAt (workerKey date w) l))
                       (num_of_Z 0)).
  { intros w Hw. destruct (W w Hw) as [o' [Eo G]].
    unfold cellAt at 1 3. rewrite Eo. cbn [field]. split.
    - unfold amountOf at 1. cbn [field]. rewrite G.
      change (has_key "amount" (teamRecord h (cellAt (workerKey date w) l)
                                  date (Num share) w)) with true.
      cbv iota.
      change (get "amount" (teamRecord h (cellAt (workerKey date w) l)
                              date (Num share) w))
        with (plus h (js_or (field "amount" (cellAt (workerKey date w) l))
                            (num_of_Z 0)) (VNum (Num share))).
      destruct (amount_plus (cellAt (workerKey date w) l) (Num share))
        as [q [E Hq]].
      + destruct (cell_cases l (workerKey date w) Hp)
          as [[E _]|[o [E [Ho _]]]]; rewrite E; [reflexivity|].
        unfold isPressRecord in Ho. apply Bool.andb_true_iff in Ho.
        apply Ho.
      + rewrite E. cbn [add]. rewrite Hq. reflexivity.
    - rewrite G. reflexivity. }
  exists (set "overtimePressRecords" (VArr l') st), l'.
  split; [exact R|]. split; [apply get_set_same|]. split; [|split].
  - apply forallb_forall. intros y Hy. unfold isPressRecord.
    rewrite forallb_forall in T. rewrite (T y Hy). cbn [andb].
    destruct (Hin y Hy) as [Hyl|[w [o' [Hw [-> G]]]]].
    + rewrite forallb_forall in Hp. specialize (Hp y Hyl).
      unfold isPressRecord in Hp. apply Bool.andb_true_iff in Hp.
      apply Hp.
    + cbn [field]. rewrite G.
      change (get "amount" (teamRecord h (cellAt (workerKey date w) l)
                              date (Num share) w))
        with (plus h (js_or (field "amount" (cellAt (workerKey date w) l))
                            (num_of_Z 0)) (VNum (Num share))).
      destruct (amount_plus (cellAt (workerKey date w) l) (Num share))
        as [q [E _]].
      * destruct (cell_cases l (workerKey date w) Hp)
          as [[E _]|[o [E [Ho _]]]]; rewrite E; [reflexivity|].
        unfold isPressRecord in Ho. apply Bool.andb_true_iff in Ho.
        apply Ho.
      * rewrite E. reflexivity.
  - intros key Hkey. apply get_set_other. exact Hkey.
  - split; [exact A|].
    intros k' Hk'. unfold cellAt. rewrite (O k' Hk'). reflexivity.
Qed.

(** X24.  A number of extra bales that is NaN is not rejected by the
    guard [extra <= 0]: the batch is dispatched and the record of every
    worker of the team gets the amount NaN. *)
Theorem team_pool_nan (st : AppState) (l : list value) (rate : number)
    (ids : list string) (date : string) :
  get "overtimePressRecords" st = VArr l ->
  forallb isPressRecord l = true ->
  NoDup ids -> ids <> [] ->
  exists st' l',
    handleSaveProductionTeam h st NaN rate ids date true = Ok st'
    /\ get "overtimePressRecords" st' = VArr l'
    /\ forall w, In w ids ->
         field "amount" (cellAt (workerKey date w) l') = VNum NaN.
Proof.
  intros Hl Hp Hnd Hne.
  rewrite (team_result st l NaN rate ids date Hl Hp Hne eq_refl).
  change (poolShare NaN rate (length ids)) with NaN.
  destruct (team_batch date NaN l ids Hnd st l Hl (press_cells l Hp)
              (fun w _ => eq_refl))
    as [l' [R [_ [_ [W _]]]]].
  exists (set "overtimePressRecords" (VArr l') st), l'.
  split; [exact R|]. split; [apply get_set_same|].
  intros w Hw. destruct (W w Hw) as [o' [Eo G]].
  unfold cellAt at 1. rewrite Eo. cbn [field]. rewrite G.
  change (has_key "amount" (teamRecord h (cellAt (workerKey date w) l)
                              date NaN w)) with true.
  cbv iota.
  change (get "amount" (teamRecord h (cellAt (workerKey date w) l)
                          date NaN w))
    with (plus h (js_or (field "amount" (cellAt (workerKey date w) l))
                        (num_of_Z 0)) (VNum NaN)).
  destruct (amount_plus (cellAt (workerKey date w) l) NaN) as [q [E _]].
  - destruct (cell_cases l (workerKey date w) Hp)
      as [[E _]|[o [E [Ho _]]]]; rewrite E; [reflexivity|].
    unfold isPressRecord in Ho. apply Bool.andb_true_iff in Ho. apply Ho.
  - rewrite E. reflexivity.
Qed.

End Cells.

(* ===================================================================== *)
(** * Recording a salary payment                                          *)
(* ===================================================================== *)

Section Payments.

Import JS Value Store StoreSpec ReducerSpec Registers.
Local Open Scope string_scope.
Local Open Scope js_scope.

Variable h : Host.

Lemma find_r_total (f : value -> result bool) (p : value -> bool)
    (l : list value) :
  (forall x, is_object x = true -> f x = Ok (p x)) ->
  forallb is_object l = true ->
  find_r f l = Ok (match find p l with Some x => x | None => VUndefined end).
Proof.
  intros Hf. induction l as [|x l IH]; intros Hl; simpl; [reflexivity|].
  apply Bool.andb_true_iff in Hl. destruct Hl as [Hx Hl].
  rewrite (Hf x Hx). simpl. destruct (p x); [reflexivity|].
  apply IH. exact Hl.
Qed.

Lemma find_truthy (p : value -> bool) (l : list value) :
  forallb is_object l = true ->
  truthy (match find p l with Some x => x | None => VUndefined end)
  = existsb p l.
Proof.
  induction l as [|x l IH]; intros Hl; simpl; [reflexivity|].
  simpl in Hl. apply Bool.andb_true_iff in Hl. destruct Hl as [Hx Hl].
  destruct (p x); [|apply IH; exact Hl].
  destruct x; try discriminate Hx. reflexivity.
Qed.

(** The records of a merge, by their id. *)
Lemma merged_by_id (d : obj) (i : string) (l : list value) :
  get "id" d = VStr i -> NoDup (keys d) ->
  forallb is_object l = true ->
  filter (fun x => negb (hasId (VStr i) x)) (map (merged d) l)
  = filter (fun x => negb (hasId (VStr i) x)) l
  /\ length (filter (hasId (VStr i)) (map (merged d) l))
     = length (filter (hasId (VStr i)) l)
  /\ existsb (hasId (VStr i)) (map (merged d) l)
     = existsb (hasId (VStr i)) l
  /\ forall y, In y (map (merged d) l) -> hasId (VStr i) y = true ->
       forall f, has_key f d = true -> field f y = get f d.
Proof.
  intros Hi Hnd Hl.
  assert (M : forall x, is_object x = true ->
            hasId (VStr i) (merged d x) = hasId (VStr i) x
            /\ (hasId (VStr i) x = false -> merged d x = x)
            /\ (hasId (VStr i) x = true ->
                forall f, has_key f d = true ->
                          field f (merged d x) = get f d)).
  { intros x Hx. destruct x as [| |b|n|t|l0|o]; try discriminate Hx.
    unfold merged. rewrite Hi.
    destruct (hasId (VStr i) (VObj o)) eqn:E.
    - split; [|split; [discriminate|]].
      + unfold hasId. cbn [field spread].
        rewrite (merged_fields d o "id" Hnd).
        assert (K : has_key "id" d = true).
        { unfold has_key. unfold get in Hi.
          destruct (lookup "id" d); [reflexivity|discriminate Hi]. }
        rewrite K, Hi. simpl. apply String.eqb_refl.
      + intros _ f Hf. cbn [field spread].
        rewrite (merged_fields d o f Hnd), Hf. reflexivity.
    - split; [exact E|]. split; [reflexivity|discriminate]. }
  induction l as [|x l IH].
  - split; [reflexivity|]. split; [reflexivity|]. split; [reflexivity|].
    intros y [].
  - simpl in Hl. apply Bool.andb_true_iff in Hl. destruct Hl as [Hx Hl].
    destruct (IH Hl) as [F [L [X Y]]].
    destruct (M x Hx) as [Mh [Ms Mf]].
    cbn [map filter existsb]. rewrite Mh.
    destruct (hasId (VStr i) x) eqn:E; cbn [negb].
    + split; [exact F|]. split; [cbn [length]; rewrite L; reflexivity|].
      split; [reflexivity|].
      intros y [<-|Hy] Hh; [apply Mf; reflexivity|apply Y; assumption].
    + rewrite (Ms eq_refl). split; [rewrite F; reflexivity|].
      split; [exact L|]. split; [cbn [orb]; exact X|].
      intros y [<-|Hy] Hh; [rewrite E in Hh; discriminate Hh|].
      apply Y; assumption.
Qed.

Lemma existsb_filter_length (p : value -> bool) (l : list value) :
  existsb p l = true -> (1 <= length (filter p l))%nat.
Proof.
  induction l as [|x l IH]; simpl; [discriminate|].
  destruct (p x); simpl; [lia|exact IH].
Qed.

Lemma filter_none_length (p : value -> bool) (l : list value) :
  existsb p l = false -> filter p l = [].
Proof.
  induction l as [|x l IH]; simpl; [reflexivity|].
  destruct (p x); simpl; [discriminate|exact IH].
Qed.

(** X25.  [handleConfirmPayment] is an upsert by the id
    "SP-" employee "-" month: afterwards the payments hold a record of
    that id, as many as before if there were any and one if there was
    none, each with the employee, month, date, method and amount of this
    payment, and with the bank of this payment, which is [undefined]
    unless the method is Bank (a bank recorded before is lost); the
    payments of other ids and every other key of the state are
    unchanged. *)
Theorem confirm_payment_upsert (st : AppState) (year month : Z)
    (employeeId : string) (netSalary : number)
    (method bankId today : string) (l : list value) :
  get "salaryPayments" st = VArr l -> forallb is_object l = true ->
  exists st' l',
    handleConfirmPayment h st year month (Some (employeeId, netSalary))
      method bankId today = Ok st'
    /\ get "salaryPayments" st' = VArr l'
    /\ (forall key, key <> "salaryPayments" -> get key st' = get key st)
    /\ filter (fun x => negb (hasId (VStr ("SP-" ++ employeeId ++ "-"
                                ++ Payroll.monthStr year month)) x)) l'
       = filter (fun x => negb (hasId (VStr ("SP-" ++ employeeId ++ "-"
                                  ++ Payroll.monthStr year month)) x)) l
    /\ length (filter (hasId (VStr ("SP-" ++ employeeId ++ "-"
                                ++ Payroll.monthStr year month))) l')
       = Nat.max 1 (length (filter (hasId (VStr ("SP-" ++ employeeId ++ "-"
                                ++ Payroll.monthStr year month))) l))
    /\ forall y, In y l' ->
         hasId (VStr ("SP-" ++ employeeId ++ "-"
                        ++ Payroll.monthStr year month)) y = true ->
         field "employeeId" y = VStr employeeId
         /\ field "monthYear" y = VStr (Payroll.monthStr year month)
         /\ field "paymentDate" y = VStr today
         /\ field "paymentMethod" y = VStr method
         /\ field "amountPaid" y = VNum netSalary
         /\ field "bankId" y
            = if String.eqb method "Bank" then VStr bankId else VUndefined.
Proof.
  intros Hl Ho.
  set (monthYear := Payroll.monthStr year month).
  set (i := "SP-" ++ employeeId ++ "-" ++ monthYear).
  set (d := [("id", VStr i); ("employeeId", VStr employeeId);
             ("monthYear", VStr monthYear); ("paymentDate", VStr today);
             ("paymentMethod", VStr method);
             ("bankId", if String.eqb method "Bank" then VStr bankId
                        else VUndefined);
             ("amountPaid", VNum netSalary)]).
  assert (Hnd : NoDup (keys d)).
  { unfold d. cbn.
    repeat (constructor; [simpl; intuition discriminate|]). constructor. }
  assert (Fd : field "employeeId" (VObj d) = VStr employeeId
               /\ field "monthYear" (VObj d) = VStr monthYear
               /\ field "paymentDate" (VObj d) = VStr today
               /\ field "paymentMethod" (VObj d) = VStr method
               /\ field "amountPaid" (VObj d) = VNum netSalary
               /\ field "bankId" (VObj d)
                  = if String.eqb method "Bank" then VStr bankId
                    else VUndefined)
    by (repeat split; reflexivity).
  unfold handleConfirmPayment. fold monthYear. fold i. fold d.
  rewrite Hl. cbn [as_array bind].
  change (get "id" d) with (VStr i).
  rewrite (find_r_total _ (hasId (VStr i)) l);
    [|clear; intros x Hx; destruct x; try discriminate Hx; reflexivity
     |exact Ho].
  cbn [bind]. rewrite (find_truthy (hasId (VStr i)) l Ho).
  destruct (existsb (hasId (VStr i)) l) eqn:E.
  - rewrite (updateEntity_result h st "salaryPayments" d l Hl Ho).
    destruct (merged_by_id d i l eq_refl Hnd Ho) as [F [L [_ Y]]].
    exists (set "salaryPayments" (VArr (map (merged d) l)) st),
           (map (merged d) l).
    split; [reflexivity|]. split; [apply get_set_same|].
    split; [intros key Hk; apply get_set_other; exact Hk|].
    split; [exact F|]. split.
    + rewrite L. pose proof (existsb_filter_length _ l E). lia.
    + intros y Hy Hh. pose proof (Y y Hy Hh) as G.
      rewrite !G by reflexivity. exact Fd.
  - cbn [dataReducer].
    rewrite (addEntity_plain h st "salaryPayments" (VObj d) l
               ltac:(discriminate) Hl).
    rewrite (no_counter h "salaryPayments" st _
               ltac:(vm_compute; intuition discriminate)).
    assert (Hd : hasId (VStr i) (VObj d) = true)
      by (unfold hasId; simpl; apply String.eqb_refl).
    exists (set "salaryPayments" (VArr (l ++ [VObj d])) st),
           (l ++ [VObj d])%list.
    split; [reflexivity|]. split; [apply get_set_same|].
    split; [intros key Hk; apply get_set_other; exact Hk|].
    split; [|split].
    + rewrite filter_app. cbn [filter]. rewrite Hd. cbn [negb].
      apply app_nil_r.
    + rewrite filter_app, (filter_none_length _ l E). cbn [filter].
      rewrite Hd. reflexivity.
    + intros y Hy Hh. apply in_app_or in Hy.
      destruct Hy as [Hy|[<-|[]]]; [|exact Fd].
      exfalso. assert (X : existsb (hasId (VStr i)) l = true)
        by (apply existsb_exists; exists y; split; assumption).
      rewrite X in E. discriminate E.
Qed.

End Payments.

Section RegistersExamples.

Import JS Value Store StoreSpec ReducerSpec Registers.
Local Open Scope string_scope.

Lemma overtime_cell_change_witness :
  exists st' m',
    handleOvertimeChange ExampleHost.host
      (set "overtimeRecords" (VArr []) getInitialState)
      2024 0 "E1" 5 (Num 2) = Ok st'
    /\ overtimeMap ExampleHost.host (get "overtimeRecords" st') = Ok m'
    /\ exists o', get ("E1" ++ "-" ++ dateStr 2024 0 5) m' = VObj o'
                  /\ get "hours" o' = VNum (Num 2).
Proof.
  destruct (overtime_cell_change ExampleHost.host
              (set "overtimeRecords" (VArr []) getInitialState)
              2024 0 "E1" 5 (Num 2) [] eq_refl eq_refl)
    as [st' [l' [m [m' [_ [R [_ [_ [_ [Em' [_ [_ N]]]]]]]]]]]].
  exists st', m'. split; [exact R|]. split; [exact Em'|].
  destruct (N eq_refl) as [o' [Eo [Hh _]]].
  exists o'. split; [exact Eo|exact Hh].
Defined.

Lemma press_cell_change_witness :
  exists st' m',
    handleGridChange ExampleHost.host
      (set "overtimePressRecords"
           (VArr [VObj [("id", VStr "OTP-E1-2024-01-05");
                        ("employeeId", VStr "E1");
                        ("date", VStr "2024-01-05");
                        ("hours", num_of_Z 0);
                        ("amount", num_of_Z 25)]])
           getInitialState)
      2024 0 "E1" 5 (Num 3) = Ok st'
    /\ overtimeMap ExampleHost.host (get "overtimePressRecords" st')
       = Ok m'
    /\ exists o', get ("E1" ++ "-" ++ dateStr 2024 0 5) m' = VObj o'
                  /\ get "hours" o' = VNum (Num 3)
                  /\ get "amount" o' = num_of_Z 25.
Proof.
  destruct (press_cell_change ExampleHost.host
              (set "overtimePressRecords"
                 (VArr [VObj [("id", VStr "OTP-E1-2024-01-05");
                              ("employeeId", VStr "E1");
                              ("date", VStr "2024-01-05");
                              ("hours", num_of_Z 0);
                              ("amount", num_of_Z 25)]])
                 getInitialState)
              2024 0 "E1" 5 (Num 3)
              [VObj [("id", VStr "OTP-E1-2024-01-05");
                     ("employeeId", VStr "E1");
                     ("date", VStr "2024-01-05");
                     ("hours", num_of_Z 0);
                     ("amount", num_of_Z 25)]]
              eq_refl eq_refl)
    as [st' [l' [m [m' [Em [R [_ [_ [Em' [_ [_ N]]]]]]]]]]].
  exists st', m'. split; [exact R|]. split; [exact Em'|].
  destruct (N eq_refl) as [o' [Eo [Hh Ha]]].
  exists o'. split; [exact Eo|]. split; [exact Hh|].
  rewrite Ha. vm_compute in Em. apply Ok_injective in Em.
  rewrite <- Em. reflexivity.
Defined.

Lemma team_pool_witness :
  exists st' l',
    handleSaveProductionTeam ExampleHost.host
      (set "overtimePressRecords" (VArr []) getInitialState)
      (Num 10) (Num 5) ["E1"; "E2"] "2024-01-05" true = Ok st'
    /\ get "overtimePressRecords" st' = VArr l'
    /\ (amountOf (cellAt (workerKey "2024-01-05" "E1") l') == 25)%Q
    /\ (amountOf (cellAt (workerKey "2024-01-05" "E2") l') == 25)%Q.
Proof.
  destruct (team_pool ExampleHost.host
              (set "overtimePressRecords" (VArr []) getInitialState) []
              10 5 ["E1"; "E2"] "2024-01-05")
    as [st' [l' [R [G [_ [_ [S _]]]]]]].
  - reflexivity.
  - reflexivity.
  - repeat (constructor; [simpl; intuition discriminate|]). constructor.
  - discriminate.
  - reflexivity.
  - exists st', l'. split; [exact R|]. split; [exact G|]. split.
    + destruct (S "E1") as [A _]; [left; reflexivity|].
      rewrite A. vm_compute. reflexivity.
    + destruct (S "E2") as [A _]; [right; left; reflexivity|].
      rewrite A. vm_compute. reflexivity.
Defined.

Lemma team_pool_nan_witness :
  exists st' l',
    handleSaveProductionTeam ExampleHost.host
      (set "overtimePressRecords" (VArr []) getInitialState)
      NaN (Num 5) ["E1"] "2024-01-05" true = Ok st'
    /\ get "overtimePressRecords" st' = VArr l'
    /\ field "amount" (cellAt (workerKey "2024-01-05" "E1") l') = VNum NaN.
Proof.
  destruct (team_pool_nan ExampleHost.host
              (set "overtimePressRecords" (VArr []) getInitialState) []
              (Num 5) ["E1"] "2024-01-05")
    as [st' [l' [R [G A]]]].
  - reflexivity.
  - reflexivity.
  - repeat (constructor; [simpl; intuition discriminate|]). constructor.
  - discriminate.
  - exists st', l'. split; [exact R|]. split; [exact G|].
    apply A. left. reflexivity.
Defined.

Lemma confirm_payment_upsert_witness :
  exists st' l',
    handleConfirmPayment ExampleHost.host
      (set "salaryPayments"
           (VArr [VObj [("id", VStr "SP-E1-2024-01");
                        ("employeeId", VStr "E1");
                        ("monthYear", VStr "2024-01");
                        ("paymentMethod", VStr "Bank");
                        ("bankId", VStr "B1");
                        ("amountPaid", num_of_Z 1500)]])
           getInitialState)
      2024 0 (Some ("E1", Num 1600)) "Cash" "" "2024-02-01" = Ok st'
    /\ get "salaryPayments" st' = VArr l'
    /\ length l' = 1%nat
    /\ forall y, In y l' ->
         field "amountPaid" y = VNum (Num 1600)
         /\ field "bankId" y = VUndefined.
Proof.
  destruct (confirm_payment_upsert ExampleHost.host
              (set "salaryPayments"
                 (VArr [VObj [("id", VStr "SP-E1-2024-01");
                              ("employeeId", VStr "E1");
                              ("monthYear", VStr "2024-01");
                              ("paymentMethod", VStr "Bank");
                              ("bankId", VStr "B1");
                              ("amountPaid", num_of_Z 1500)]])
                 getInitialState)
              2024 0 "E1" (Num 1600) "Cash" "" "2024-02-01"
              [VObj [("id", VStr "SP-E1-2024-01");
                     ("employeeId", VStr "E1");
                     ("monthYear", VStr "2024-01");
                     ("paymentMethod", VStr "Bank");
                     ("bankId", VStr "B1");
                     ("amountPaid", num_of_Z 1500)]]
              eq_refl eq_refl)
    as [st' [l' [R [G [_ [F [L Y]]]]]]].
  exists st', l'. split; [exact R|]. split; [exact G|].
  assert (Hall : forall y, In y l' ->
            hasId (VStr ("SP-" ++ "E1" ++ "-" ++ Payroll.monthStr 2024 0)) y
            = true).
  { intros y Hy.
    destruct (hasId (VStr ("SP-" ++ "E1" ++ "-" ++ Payroll.monthStr 2024 0)) y)
      eqn:E; [reflexivity|]. exfalso.
    assert (Hin : In y (filter (fun x =>
                     negb (hasId (VStr ("SP-" ++ "E1" ++ "-"
                                   ++ Payroll.monthStr 2024 0)) x)) l'))
      by (apply filter_In; split; [exact Hy|rewrite E; reflexivity]).
    rewrite F in Hin. exact Hin. }
  split.
  - assert (Hf : filter (hasId (VStr ("SP-" ++ "E1" ++ "-"
                                       ++ Payroll.monthStr 2024 0))) l' = l').
    { clear - Hall. induction l' as [|y l' IH]; [reflexivity|].
      cbn [filter]. rewrite (Hall y (or_introl eq_refl)). f_equal.
      apply IH. intros z Hz. apply Hall. right. exact Hz. }
    rewrite Hf in L. rewrite L. reflexivity.
  - intros y Hy. destruct (Y y Hy (Hall y Hy)) as [_ [_ [_ [_ [A B]]]]].
    split; [exact A|exact B].
Defined.

End RegistersExamples.

(* ===================================================================== *)
(** * The settlement register                                             *)
(* ===================================================================== *)

Section SettlementFacts.

Import JS.
Local Open Scope Q_scope.

(** X27.  The two gratuity rules disagree: for an employee who is not
    Labour, with a positive basic salary and at least one year of
    service, the salary calculator accrues a positive gratuity, while
    the settlement register accrues none, whatever the day, and, the
    gratuity paid so far not being negative, shows none due. *)
Theorem gratuity_rules_disagree (hd : JSDate.Host) (st : Payroll.State)
    (year month today : Z) (pe : Payroll.Employee)
    (se : Settlement.Employee) (s : Settlement.Stats) (y : Q) :
  Payroll.employeeType pe <> "Labour"%string ->
  Settlement.employeeType se = Payroll.employeeType pe ->
  0 < Payroll.basicSalary pe ->
  Payroll.yearsOfService hd year month (Payroll.joiningDate pe) = Num y ->
  1 <= y ->
  0 <= Payroll.opt_or0 (Settlement.gratuityPaid se) ->
  Settlement.stats hd today (Some se) = Some s ->
  (exists g, Payroll.gratuityAmount (Payroll.payrollRow hd st year month pe)
             = Num g /\ 0 < g)
  /\ Settlement.totalAccruedGratuity s = Num 0
  /\ num_eq (Settlement.dueGratuity s) (Num 0).
Proof.
  intros Ht Hse Hb Hy H1 Hpaid Hs. split.
  - rewrite gratuity_of_row, Hy. unfold Payroll.gratuityAccrued.
    rewrite (not_labour pe Ht). cbn [ge le mul].
    rewrite (Qle_bool_true H1).
    assert (Hw : 0 < Payroll.basicSalary pe / 30).
    { unfold Qdiv. change (/ 30) with (1 # 30).
      set (b := Payroll.basicSalary pe) in *. clearbody b. lra. }
    set (w := Payroll.basicSalary pe / 30) in *. clearbody w.
    assert (P : forall c, 0 < c -> 0 < w * c * y).
    { intros c Hc. apply Qmult_lt_0_compat; [|lra].
      apply Qmult_lt_0_compat; assumption. }
    destruct (Qle_bool y 5); eexists; (split; [reflexivity|]);
      apply P; lra.
  - unfold Settlement.stats in Hs. injection Hs as <-.
    cbn [Settlement.totalAccruedGratuity Settlement.dueGratuity].
    rewrite Hse, (not_labour pe Ht). split; [reflexivity|].
    cbn [Settlement.sub Math_max num_eq].
    apply Q.max_l.
    set (p := Payroll.opt_or0 (Settlement.gratuityPaid se)) in *.
    clearbody p. lra.
Qed.

(** X28.  The guard of [handleRecordSettlement] rejects a settlement
    only if neither amount is positive: a negative gratuity entered
    beside a positive leave salary is recorded, and lowers the gratuity
    paid so far. *)
Theorem negative_settlement_recorded (e : Settlement.Employee)
    (s : Settlement.Stats) (g lv : Q) :
  g < 0 -> 0 < lv ->
  exists e' p,
    Settlement.handleRecordSettlement (Some e) (Some s) (Num g) (Num lv)
                                      true = Some e'
    /\ Settlement.gratuityPaid e' = Some p
    /\ p == Payroll.opt_or0 (Settlement.gratuityPaid e) + g
    /\ p < Payroll.opt_or0 (Settlement.gratuityPaid e).
Proof.
  intros Hg Hl. unfold Settlement.handleRecordSettlement.
  cbn [Settlement.amountOr0].
  assert (Guard : Qle_bool (Payroll.or0 g) 0
                  && Qle_bool (Payroll.or0 lv) 0 = false).
  { apply Bool.andb_false_iff. right.
    assert (H : 0 < Payroll.or0 lv) by (rewrite or0_eq; exact Hl).
    apply (Qle_bool_false H). }
  rewrite Guard. cbn [negb]. eexists. eexists.
  split; [reflexivity|]. cbn [Settlement.gratuityPaid].
  split; [reflexivity|]. rewrite or0_eq.
  set (p := Payroll.opt_or0 (Settlement.gratuityPaid e)). clearbody p.
  split; lra.
Qed.

End SettlementFacts.

Section SettlementExamples.

Import JS.
Local Open Scope Q_scope.

Lemma gratuity_rules_disagree_witness :
  (exists g,
     Payroll.gratuityAmount
       (Payroll.payrollRow ExampleHost.dates
          (AccrualSpec.emptyState
             [AccrualSpec.employeeOf "E2" "Office" "2020-01-01" 3000])
          2024 0 (AccrualSpec.employeeOf "E2" "Office" "2020-01-01" 3000))
     = Num g /\ 0 < g)
  /\ exists s,
       Settlement.stats ExampleHost.dates (JSDate.utcMidnight 2024 1 31)
         (Some {| Settlement.joiningDate := "2020-01-01";
                  Settlement.employeeType := "Office";
                  Settlement.gratuityPaid := None;
                  Settlement.leaveSalaryPaid := None |}) = Some s
       /\ Settlement.totalAccruedGratuity s = Num 0.
Proof.
  assert (Y : exists y,
            Payroll.yearsOfService ExampleHost.dates 2024 0 "2020-01-01"
            = Num y /\ 1 <= y).
  { eexists. split; [vm_compute; reflexivity|]. vm_compute. discriminate. }
  destruct Y as [y [Ey Hy]].
  destruct (Settlement.stats ExampleHost.dates (JSDate.utcMidnight 2024 1 31)
              (Some {| Settlement.joiningDate := "2020-01-01";
                       Settlement.employeeType := "Office";
                       Settlement.gratuityPaid := None;
                       Settlement.leaveSalaryPaid := None |}))
    as [s|] eqn:Es; [|vm_compute in Es; discriminate Es].
  destruct (gratuity_rules_disagree ExampleHost.dates
              (AccrualSpec.emptyState
                 [AccrualSpec.employeeOf "E2" "Office" "2020-01-01" 3000])
              2024 0 (JSDate.utcMidnight 2024 1 31)
              (AccrualSpec.employeeOf "E2" "Office" "2020-01-01" 3000)
              {| Settlement.joiningDate := "2020-01-01";
                 Settlement.employeeType := "Office";
                 Settlement.gratuityPaid := None;
                 Settlement.leaveSalaryPaid := None |}
              s y) as [G [A _]].
  - discriminate.
  - reflexivity.
  - vm_compute. reflexivity.
  - exact Ey.
  - exact Hy.
  - vm_compute. discriminate.
  - exact Es.
  - split; [exact G|]. exists s. split; [reflexivity|exact A].
Defined.

Lemma negative_settlement_recorded_witness :
  exists e' p,
    Settlement.handleRecordSettlement
      (Some {| Settlement.joiningDate := "2020-01-01";
               Settlement.employeeType := "Labour";
               Settlement.gratuityPaid := Some 500;
               Settlement.leaveSalaryPaid := None |})
      (Settlement.stats ExampleHost.dates (JSDate.utcMidnight 2024 1 1)
         (Some {| Settlement.joiningDate := "2020-01-01";
                  Settlement.employeeType := "Labour";
                  Settlement.gratuityPaid := Some 500;
                  Settlement.leaveSalaryPaid := None |}))
      (Num (-100)) (Num 50) true = Some e'
    /\ Settlement.gratuityPaid e' = Some p
    /\ p == 400.
Proof.
  destruct (negative_settlement_recorded
              {| Settlement.joiningDate := "2020-01-01";
                 Settlement.employeeType := "Labour";
                 Settlement.gratuityPaid := Some 500;
                 Settlement.leaveSalaryPaid := None |}
              {| Settlement.yearsOfService := NaN;
                 Settlement.totalAccruedGratuity := NaN;
                 Settlement.dueGratuity := NaN;
                 Settlement.totalAccruedLeave := NaN;
                 Settlement.dueLeave := NaN |}
              (-100) 50) as [e' [p [R [E [Hp _]]]]].
  - reflexivity.
  - reflexivity.
  - exists e', p. split; [exact R|]. split; [exact E|].
    rewrite Hp. vm_compute. reflexivity.
Defined.

End SettlementExamples.

(* ===================================================================== *)
(** * The CSV reader                                                      *)
(* ===================================================================== *)

Section CsvFacts.

Import Csv.
Local Open Scope string_scope.

Lemma string_app_assoc (a b c : string) : (a ++ b) ++ c = a ++ (b ++ c).
Proof. induction a as [|x a IH]; simpl; [reflexivity|]. rewrite IH. reflexivity. Qed.

Lemma string_app_nil_r (a : string) : a ++ EmptyString = a.
Proof. induction a as [|x a IH]; simpl; [reflexivity|]. rewrite IH. reflexivity. Qed.

Lemma addText_cons (c : ascii) (f : string) (p : Parser) :
  addText (String c f) p = addText f (addChar c p).
Proof.
  unfold addText, addChar. cbn [rows currentRow currentField inQuotes].
  rewrite string_app_assoc. reflexivity.
Qed.

Lemma addText_nil (p : Parser) : addText EmptyString p = p.
Proof.
  unfold addText. rewrite string_app_nil_r. destruct p. reflexivity.
Qed.

(** Outside quotes a plain text goes to the current field. *)
Lemma scan_plain (f rest : string) (p : Parser) :
  plain f = true -> inQuotes p = false ->
  scan (f ++ rest) p = scan rest (addText f p).
Proof.
  revert p. induction f as [|c f IH]; intros p Hf Hq.
  - rewrite addText_nil. reflexivity.
  - cbn [plain all] in Hf. apply Bool.andb_true_iff in Hf.
    destruct Hf as [Hc Hf]. apply Bool.negb_true_iff in Hc.
    apply Bool.orb_false_iff in Hc. destruct Hc as [Hc Hlf].
    apply Bool.orb_false_iff in Hc. destruct Hc as [Hc Hcr].
    apply Bool.orb_false_iff in Hc. destruct Hc as [Hquote Hcomma].
    cbn [append scan]. rewrite Hquote, Hcomma, Hcr, Hlf. cbn [andb orb].
    rewrite addText_cons. apply IH; [exact Hf|exact Hq].
Qed.

(** Inside quotes every text without a quote does. *)
Lemma scan_inside (q rest : string) (p : Parser) :
  quoteFree q = true -> inQuotes p = true ->
  scan (q ++ rest) p = scan rest (addText q p).
Proof.
  revert p. induction q as [|c q IH]; intros p Hf Hq.
  - rewrite addText_nil. reflexivity.
  - cbn [quoteFree all] in Hf. apply Bool.andb_true_iff in Hf.
    destruct Hf as [Hc Hf]. apply Bool.negb_true_iff in Hc.
    cbn [append scan]. rewrite Hc, Hq. cbn [negb andb].
    rewrite !Bool.andb_false_r.
    rewrite addText_cons. apply IH; [exact Hf|exact Hq].
Qed.

(** A quote that is not doubled opens or closes. *)
Lemma scan_quote (rest : string) (p : Parser) :
  match rest with
  | EmptyString => true
  | String c _ => negb (Ascii.eqb c quote)
  end = true ->
  scan (String quote rest) p = scan rest (toggle p).
Proof.
  intros Hrest. destruct rest as [|c rest].
  - reflexivity.
  - apply Bool.negb_true_iff in Hrest.
    change (scan (String quote (String c rest)) p)
      with (if Ascii.eqb quote quote
            then if Ascii.eqb c quote then scan rest (addChar quote p)
                 else scan (String c rest) (toggle p)
            else scan (String c rest) (addChar quote p)).
    rewrite Ascii.eqb_refl, Hrest. reflexivity.
Qed.

(** A written field is read as the field, where what follows does not
    start with a quote. *)
Lemma scan_written (f rest : string) (p : Parser) :
  quoteFree f = true -> inQuotes p = false ->
  match rest with
  | EmptyString => true
  | String c _ => negb (Ascii.eqb c quote)
  end = true ->
  scan (written f ++ rest) p = scan rest (addText f p).
Proof.
  intros Hf Hq Hrest. unfold written. destruct (plain f) eqn:Hp.
  - apply scan_plain; assumption.
  - destruct f as [|c f]; [discriminate Hp|].
    assert (Hc : negb (Ascii.eqb c quote) = true).
    { cbn [quoteFree all] in Hf. apply Bool.andb_true_iff in Hf.
      apply Hf. }
    assert (E : (String quote EmptyString ++ String c f
                 ++ String quote EmptyString) ++ rest
                = String quote (String c f ++ String quote rest)).
    { cbn [append]. rewrite string_app_assoc. reflexivity. }
    rewrite E.
    rewrite (scan_quote (String c f ++ String quote rest) p) by exact Hc.
    rewrite (scan_inside (String c f) (String quote rest) (toggle p));
      [|exact Hf|cbn [toggle inQuotes]; rewrite Hq; reflexivity].
    rewrite (scan_quote rest _ Hrest). f_equal.
    unfold toggle, addText. cbn [rows currentRow currentField inQuotes].
    rewrite Bool.negb_involutive. reflexivity.
Qed.

(** A written row is read as the row, up to its last field, which is
    left in the current field. *)
Lemma scan_row (row : list string) (rest : string) (p : Parser) :
  row <> [] -> forallb quoteFree row = true ->
  currentField p = EmptyString -> inQuotes p = false ->
  match rest with
  | EmptyString => true
  | String c _ => negb (Ascii.eqb c quote)
  end = true ->
  scan (String.concat (String comma EmptyString) (map written row) ++ rest) p
  = scan rest {| rows := rows p;
                 currentRow := (currentRow p ++ removelast row)%list;
                 currentField := last row EmptyString;
                 inQuotes := false |}.
Proof.
  revert p. induction row as [|f row IH]; intros p Hne Hrow Hf Hq Hrest;
    [contradiction Hne; reflexivity|].
  cbn [forallb] in Hrow. apply Bool.andb_true_iff in Hrow.
  destruct Hrow as [Hqf Hrow].
  destruct row as [|f2 row].
  - cbn [map String.concat removelast last].
    rewrite (scan_written f rest p Hqf Hq Hrest). f_equal.
    unfold addText. rewrite Hf, Hq, app_nil_r. reflexivity.
  - cbn [map String.concat]. rewrite !string_app_assoc.
    rewrite (scan_written f _ p Hqf Hq) by reflexivity.
    cbn [append scan]. cbn [addText inQuotes]. rewrite Hq.
    change (Ascii.eqb comma quote) with false. cbv iota.
    rewrite Ascii.eqb_refl. cbn [andb negb].
    change (String.concat (String comma EmptyString)
              (written f2 :: map written row))
      with (String.concat (String comma EmptyString)
              (map written (f2 :: row))).
    rewrite IH; [|discriminate|exact Hrow|reflexivity|exact Hq|exact Hrest].
    f_equal. cbn [pushField addText rows currentRow currentField].
    rewrite Hf. cbn [append].
    change (removelast (f :: f2 :: row)) with (f :: removelast (f2 :: row)).
    change (last (f :: f2 :: row) EmptyString)
      with (last (f2 :: row) EmptyString).
    rewrite <- app_assoc. reflexivity.
Qed.

Lemma endRow_row (acc : list (list string)) (row : list string) :
  readable row = true ->
  endRow {| rows := acc;
            currentRow := removelast row;
            currentField := last row EmptyString;
            inQuotes := false |}
  = {| rows := (acc ++ [row])%list; currentRow := [];
       currentField := EmptyString; inQuotes := false |}.
Proof.
  intros Hr. unfold endRow. cbn [rows currentRow currentField inQuotes].
  assert (C : negb (String.eqb (last row EmptyString) EmptyString)
              || negb (Nat.eqb (length (removelast row)) 0) = true).
  { destruct row as [|f [|f2 row]]; [discriminate Hr| |].
    - cbn [readable] in Hr. apply Bool.andb_true_iff in Hr.
      cbn [last]. rewrite (proj1 Hr). reflexivity.
    - apply Bool.orb_true_iff. right. reflexivity. }
  rewrite C.
  rewrite <- app_removelast_last by (intros ->; discriminate Hr).
  reflexivity.
Qed.

Lemma readable_row (row : list string) :
  readable row = true -> row <> [] /\ forallb quoteFree row = true.
Proof.
  destruct row as [|f [|f2 row]]; [discriminate| |].
  - cbn [readable forallb]. intros H. apply Bool.andb_true_iff in H.
    split; [discriminate|]. rewrite (proj2 H). reflexivity.
  - intros H. split; [discriminate|exact H].
Qed.

Lemma scan_table (table : list (list string)) (acc : list (list string)) :
  forallb readable table = true ->
  rows (endRow (scan (csvText table)
                     {| rows := acc; currentRow := [];
                        currentField := EmptyString; inQuotes := false |}))
  = (acc ++ table)%list.
Proof.
  revert acc. induction table as [|row table IH]; intros acc Ht.
  - cbn. rewrite app_nil_r. reflexivity.
  - cbn [forallb] in Ht. apply Bool.andb_true_iff in Ht.
    destruct Ht as [Hr Ht]. destruct (readable_row row Hr) as [Hne Hqf].
    unfold csvText. cbn [map String.concat].
    set (p0 := {| rows := acc; currentRow := [];
                  currentField := EmptyString; inQuotes := false |}).
    destruct table as [|row2 table].
    + cbn [map].
      rewrite <- (string_app_nil_r
                    (String.concat (String comma EmptyString)
                                   (map written row))).
      rewrite (scan_row row EmptyString p0 Hne Hqf eq_refl eq_refl eq_refl).
      cbn [scan p0 rows currentRow app]. rewrite (endRow_row acc row Hr).
      reflexivity.
    + cbn [map].
      rewrite (scan_row row _ p0 Hne Hqf eq_refl eq_refl) by reflexivity.
      cbn [append scan p0 rows currentRow app inQuotes].
      change (Ascii.eqb LF quote) with false.
      change (Ascii.eqb LF comma) with false.
      change (Ascii.eqb LF CR) with false. cbv iota.
      rewrite Ascii.eqb_refl. cbn [andb orb negb].
      rewrite (endRow_row acc row Hr).
      specialize (IH (acc ++ [row])%list Ht).
      unfold csvText in IH. cbn [map] in IH. rewrite IH.
      rewrite <- app_assoc. reflexivity.
Qed.

(** X29.  [parseCSV] reads back what a writer wrote: a table whose rows
    each have a field, are not the single empty field and hold no quote,
    written with commas between the fields, line feeds between the rows
    and quotes around the fields that hold a comma or a line break, is
    read as that table; in particular the two rows of
    [downloadTemplate]. *)
Theorem csv_round_trip (table : list (list string)) :
  forallb readable table = true ->
  parseCSV (csvText table) = table.
Proof.
  intros Ht. unfold parseCSV, start.
  rewrite (scan_table table [] Ht). reflexivity.
Qed.

Lemma scan_comma (rest : string) (p : Parser) :
  inQuotes p = false -> scan (String comma rest) p = scan rest (pushField p).
Proof.
  intros Hq.
  change (scan (String comma rest) p)
    with (if Ascii.eqb comma comma && negb (inQuotes p)
          then scan rest (pushField p)
          else if (Ascii.eqb comma CR || Ascii.eqb comma LF)
                  && negb (inQuotes p)
               then scan rest (endRow p)
               else scan rest (addChar comma p)).
  rewrite Hq. reflexivity.
Qed.

Lemma scan_doubled (rest : string) (p : Parser) :
  scan (String quote (String quote rest)) p = scan rest (addChar quote p).
Proof. reflexivity. Qed.

(** X30.  A doubled quote is read as a quote character wherever it
    stands: the empty quoted field of a CSV writer is read as a field
    that holds one quote, not as an empty field. *)
Theorem csv_empty_quoted_field (a b : string) :
  plain a = true -> plain b = true ->
  parseCSV (a ++ String comma (String quote (String quote
                 (String comma b))))
  = [[a; String quote EmptyString; b]].
Proof.
  intros Ha Hb. unfold parseCSV.
  rewrite (scan_plain a _ start Ha eq_refl).
  rewrite scan_comma by reflexivity.
  rewrite scan_doubled.
  rewrite scan_comma by reflexivity.
  rewrite <- (string_app_nil_r b) at 1.
  rewrite (scan_plain b EmptyString
             (pushField (addChar quote (pushField (addText a start))))
             Hb eq_refl).
  cbn [scan]. unfold endRow.
  cbn [addText pushField addChar start rows currentRow currentField
       inQuotes app length Nat.eqb negb append].
  rewrite Bool.orb_true_r. reflexivity.
Qed.

End CsvFacts.

Section CsvExamples.

Import Csv.
Local Open Scope string_scope.

Lemma csv_round_trip_witness :
  parseCSV (csvText [["CODE"; "NAME (AS PER EID)"; "ACCOMODATION"];
                     ["LBR-001"; "ABDULLAH ABDUL KARIM";
                      "BUILDING NO J01, ROOM NO SF06"]])
  = [["CODE"; "NAME (AS PER EID)"; "ACCOMODATION"];
     ["LBR-001"; "ABDULLAH ABDUL KARIM"; "BUILDING NO J01, ROOM NO SF06"]].
Proof.
  apply (csv_round_trip
           [["CODE"; "NAME (AS PER EID)"; "ACCOMODATION"];
            ["LBR-001"; "ABDULLAH ABDUL KARIM";
             "BUILDING NO J01, ROOM NO SF06"]]).
  reflexivity.
Defined.

Lemma csv_empty_quoted_field_witness :
  parseCSV ("LBR-001" ++ String comma (String quote (String quote
                           (String comma "Labour"))))
  = [["LBR-001"; String quote EmptyString; "Labour"]].
Proof.
  apply (csv_empty_quoted_field "LBR-001" "Labour"); reflexivity.
Defined.

End CsvExamples.

(* ===================================================================== *)
(** * The reducer on the collections that the state holds                 *)
(* ===================================================================== *)

Section TotalOnStored.

Import JS Value Store StoreSpec.
Local Open Scope string_scope.
Local Open Scope js_scope.

Variable h : Host.

(** X26.  On the collections that the state holds the reducer is total:
    the initial state is well formed, and on a well-formed state every
    action of the type [Action] that names only collections of
    [getInitialState] returns a state (it does not throw), again well
    formed; an action whose type tag is none of the handled cases returns
    the input state unchanged; and a RESTORE_STATE whose payload has not
    the shape of an aggregate (it is not an object, or lacks the field
    'customers') returns the input state unchanged. *)
Theorem reducer_total_on_stored (st : AppState) (a : Action)
    (payload : value) :
  wf_state st = true -> supported a = true -> validShape payload = false ->
  wf_state (initialState h) = true
  /\ (exists st', dataReducer h st a = Ok st' /\ wf_state st' = true)
  /\ (forall type p, dataReducer h st (OtherAction type p) = Ok st)
  /\ dataReducer h st (RESTORE_STATE payload) = Ok st.
Proof.
  intros Hwf Ht Hv. split; [apply initialState_shaped|]. split; [|split].
  - apply reducer_preserves; assumption.
  - intros type p. reflexivity.
  - cbn [dataReducer]. unfold restoreState, validShape in *.
    destruct payload; try reflexivity. rewrite Hv. reflexivity.
Qed.

End TotalOnStored.

Section TotalOnStoredExamples.

Import JS Value Store StoreSpec.
Local Open Scope string_scope.

Lemma reducer_total_on_stored_witness :
  (exists st',
     dataReducer ExampleHost.host getInitialState
       (BATCH_UPDATE
          [ADD_ENTITY "employees" (VObj [("id", VStr "E1")]);
           UPDATE_ENTITY "employees"
             (VObj [("id", VStr "E1"); ("fullName", VStr "A")]);
           TOGGLE_FAVORITE_COMBINATION (VStr "2024-01-10");
           DELETE_ENTITY "employees" (VStr "E1")]) = Ok st'
     /\ wf_state st' = true)
  /\ dataReducer ExampleHost.host getInitialState
       (RESTORE_STATE (VObj [("suppliers", VArr [])]))
     = Ok getInitialState.
Proof.
  destruct (reducer_total_on_stored ExampleHost.host getInitialState
              (BATCH_UPDATE
                 [ADD_ENTITY "employees" (VObj [("id", VStr "E1")]);
                  UPDATE_ENTITY "employees"
                    (VObj [("id", VStr "E1"); ("fullName", VStr "A")]);
                  TOGGLE_FAVORITE_COMBINATION (VStr "2024-01-10");
                  DELETE_ENTITY "employees" (VStr "E1")])
              (VObj [("suppliers", VArr [])]))
    as [_ [H [_ R]]].
  - vm_compute. reflexivity.
  - vm_compute. reflexivity.
  - reflexivity.
  - split; [exact H|exact R].
Defined.

End TotalOnStoredExamples.
